(** * az-vm-pool: the VM pool orchestrator, embedded in Rocq

    The development follows [src/az-vm-pool.py].  Pure helpers (the naming
    scheme, string formatting, the expiry computation) are Rocq functions.
    Everything that talks to the outside (the Azure CLI entry point
    [APPLICATION.execute], [subprocess.call], the console prompt, the clock,
    the local file system) goes through an explicit [world] that answers
    each request, and every request is recorded in a chronological trace. *)

From Stdlib Require Import String Ascii List ZArith NArith Zpow_facts Bool Lia.
Import ListNotations.
Local Open Scope string_scope.
Local Open Scope Z_scope.

(* ================================================================== *)
(** * Python values that the module manipulates *)
(* ================================================================== *)

(** Exceptions that can leave a function of the module.  [CLIError] stands
    for whatever the Azure CLI raises out of [APPLICATION.execute]; the
    module has no [try] statement, so every exception propagates. *)
Inductive exn : Type :=
| ValueError
| TypeError
| NameError (name : string)
| KeyError (key : string)
| OverflowError
| SystemExit (code : option Z)
| CLIError (msg : string).

Inductive outcome (A : Type) : Type :=
| Ok (a : A)
| Raise (e : exn).
Arguments Ok {A} a.
Arguments Raise {A} e.

Definition obind {A B} (o : outcome A) (f : A -> outcome B) : outcome B :=
  match o with
  | Ok a => f a
  | Raise e => Raise e
  end.

(** The exit status the interpreter reports for a finished run: 0 after a
    normal return, the argument of [sys.exit] when it is an integer, 0 for
    [sys.exit()] (whose argument is [None]) and 1 for any other uncaught
    exception. *)
Definition exit_status {A} (o : outcome A) : Z :=
  match o with
  | Ok _ => 0
  | Raise (SystemExit None) => 0
  | Raise (SystemExit (Some n)) => n
  | Raise _ => 1
  end.

(** "Set up some exit statuses" *)
Definition CLEAN_EXIT : Z := 0.
Definition USER_EXIT : Z := 1.
Definition ERROR_EXIT : Z := 2.

(* ================================================================== *)
(** * Strings: [str.split], [str(int)], [int(str)], [os.path.join] *)
(* ================================================================== *)

Module PyStr.

(** A string is the sequence of its characters, each one a code point
    below 256. *)

(** [s.split(sep)] for a one-character separator. *)
Fixpoint split (sep : ascii) (s : string) : list string :=
  match s with
  | EmptyString => [EmptyString]
  | String c s' =>
      if Ascii.eqb c sep then EmptyString :: split sep s'
      else match split sep s' with
           | [] => [String c EmptyString]
           | w :: ws => String c w :: ws
           end
  end.

Definition digit_char (d : N) : ascii := ascii_of_N (48 + d).

Definition is_digit (c : ascii) : bool :=
  let n := N_of_ascii c in ((48 <=? n) && (n <=? 57))%N.

Definition digit_val (c : ascii) : N := (N_of_ascii c - 48)%N.

(** Decimal digits of a natural number, most significant first.  The fuel
    bounds the number of digits. *)
Fixpoint digits_fuel (fuel : nat) (n : N) : list ascii :=
  match fuel with
  | O => []
  | S f =>
      if (n <? 10)%N then [digit_char n]
      else (digits_fuel f (n / 10)%N ++ [digit_char (n mod 10)%N])%list
  end.

Definition digits (n : N) : list ascii := digits_fuel (S (N.size_nat n)) n.

(** [str(n)], which is also what ["{0}".format(n)] and ["{:d}".format(n)]
    produce for an integer [n]. *)
Definition str_of_Z (z : Z) : string :=
  match z with
  | Zneg p => String "-" (string_of_list_ascii (digits (Npos p)))
  | _ => string_of_list_ascii (digits (Z.to_N z))
  end.

(** White space as [int] drops it around a number.  A character is its
    code point, below 256.  [int] skips the ASCII blanks: codes 9 to 13 and
    32, not the separators 28 to 31 that [str.strip] also removes.  In a
    string that is not pure ASCII it first turns Unicode white space into
    blanks; below 256 that is NEL (133) and the no-break space (160). *)
Definition is_space (c : ascii) : bool :=
  let n := N_of_ascii c in
  (((9 <=? n) && (n <=? 13)) || (n =? 32) || (n =? 133) || (n =? 160))%N.

Fixpoint lstrip (l : list ascii) : list ascii :=
  match l with
  | c :: l' => if is_space c then lstrip l' else l
  | [] => []
  end.

Definition strip (l : list ascii) : list ascii := rev (lstrip (rev (lstrip l))).

(** The digit part of an integer literal: digits, with single underscores
    allowed between digits (Python 3.6 and later). *)
Inductive scan : Type :=
| Start
| AfterDigit (acc : N)
| AfterUnderscore (acc : N).

Definition scan_step (st : option scan) (c : ascii) : option scan :=
  match st with
  | None => None
  | Some Start => if is_digit c then Some (AfterDigit (digit_val c)) else None
  | Some (AfterDigit a) =>
      if is_digit c then Some (AfterDigit (10 * a + digit_val c)%N)
      else if Ascii.eqb c "_" then Some (AfterUnderscore a)
      else None
  | Some (AfterUnderscore a) =>
      if is_digit c then Some (AfterDigit (10 * a + digit_val c)%N) else None
  end.

Definition scan_digits (l : list ascii) : option N :=
  match fold_left scan_step l (Some Start) with
  | Some (AfterDigit a) => Some a
  | _ => None
  end.

(** [int(s)] for a string argument, base 10: surrounding white space is
    dropped, one sign is accepted, anything else raises [ValueError]. *)
Definition int (s : string) : outcome Z :=
  let body := strip (list_ascii_of_string s) in
  let signed :=
    match body with
    | c :: rest =>
        if Ascii.eqb c "-" then (true, rest)
        else if Ascii.eqb c "+" then (false, rest)
        else (false, body)
    | [] => (false, body)
    end in
  match scan_digits (snd signed) with
  | Some n => Ok (if fst signed then - Z.of_N n else Z.of_N n)
  | None => Raise ValueError
  end.

(** [s.count(c)] for a character. *)
Fixpoint occurrences (c : ascii) (s : string) : nat :=
  match s with
  | EmptyString => O
  | String c' s' => if Ascii.eqb c' c then S (occurrences c s') else occurrences c s'
  end.

(** [c in s] for a character. *)
Fixpoint contains (c : ascii) (s : string) : bool :=
  match s with
  | EmptyString => false
  | String c' s' => Ascii.eqb c c' || contains c s'
  end.

Fixpoint last_char (s : string) : option ascii :=
  match s with
  | EmptyString => None
  | String c EmptyString => Some c
  | String _ s' => last_char s'
  end.

(** [os.path.join(a, b)] (posixpath) for two components. *)
Definition path_join (a b : string) : string :=
  match b with
  | String "/" _ => b
  | _ =>
      match last_char a with
      | None => b
      | Some "/"%char => a ++ b
      | Some _ => a ++ "/" ++ b
      end
  end.

End PyStr.

(* ================================================================== *)
(** * Command-line arguments and VM descriptions *)
(* ================================================================== *)

(** The [args] namespace: what [argparse] fills in, then the defaults that
    [main] adds.  Options that [argparse] leaves at [None] are [option]s. *)
Record Args : Type := {
  resource_group : string;
  num_vms : Z;
  vm_size : string;
  sas_expiry_days : Z;
  pool_directory : option string;
  no_wait : bool;
  vm_image : string;
  force : bool;
  location : option string;
  ssh_key_directory : string;
  vm_secrets_directory : string;
  os_container_name : string;
  data_container_name : string;
  ssh_key_container_name : string;
  vm_secrets_container_name : string;
  container_sas_prefix : string;
  pool_file_prefix : string;
  setup_directory : string;
  deploy_directory : string;
  task_directory : string;
  setup_script : string;
  deploy_script : string;
  task_script : string;
  vm_user : string;
  storage_redundancy : string;
  storage_account_type : string
}.

(** One element of the list that [az vm list --show-details] returns; the
    module reads these five fields. *)
Record vm : Type := {
  name : string;
  vm_location : string;
  vmSize : string;
  provisioningState : string;
  powerState : string
}.

(* ================================================================== *)
(** * Naming scheme *)
(* ================================================================== *)

Definition number_from_name (vm_name : string) : outcome Z :=
  match PyStr.split "-" vm_name with
  | [stem; number] => PyStr.int number
  | _ => Raise ValueError
  end.

Definition name_from_number (number : Z) (args : Args) : string :=
  resource_group args ++ "-" ++ PyStr.str_of_Z number.

(** [sorted] on integers. *)
Fixpoint insert_sorted (x : Z) (l : list Z) : list Z :=
  match l with
  | [] => [x]
  | y :: l' => if x <=? y then x :: l else y :: insert_sorted x l'
  end.

Definition sorted (l : list Z) : list Z := fold_right insert_sorted [] l.

(** [l.index(x)]: position of the first occurrence. *)
Fixpoint list_index (x : Z) (l : list Z) : outcome Z :=
  match l with
  | [] => Raise ValueError
  | y :: l' => if x =? y then Ok 0 else obind (list_index x l') (fun i => Ok (i + 1))
  end.

Fixpoint outcome_map {A B} (f : A -> outcome B) (l : list A) : outcome (list B) :=
  match l with
  | [] => Ok []
  | x :: l' => obind (f x) (fun y => obind (outcome_map f l') (fun ys => Ok (y :: ys)))
  end.

(** The [for] loop of [next_vm_name]: the first number that is not at its
    own position decides. *)
Fixpoint first_gap (vm_numbers rest : list Z) : outcome (option Z) :=
  match rest with
  | [] => Ok None
  | vm_number :: rest' =>
      obind (list_index vm_number vm_numbers) (fun i =>
        if negb (i =? vm_number) then Ok (Some (vm_number - 1))
        else first_gap vm_numbers rest')
  end.

(** [next_vm_name] calls [vm_number_from_name], a name that has no binding
    anywhere in the module.  [helper] is the binding the lookup finds:
    evaluating the unbound name raises [NameError], which happens once per
    VM, so never for an empty list. *)
Definition next_vm_name_with (helper : option (string -> outcome Z))
    (vms : list vm) (args : Args) : outcome string :=
  obind (outcome_map (fun v =>
           match helper with
           | None => Raise (NameError "vm_number_from_name")
           | Some f => f (name v)
           end) vms) (fun numbers =>
  let vm_numbers := sorted numbers in
  obind (first_gap vm_numbers vm_numbers) (fun g =>
  match g with
  | Some n => Ok (name_from_number n args)
  | None => Ok (name_from_number (Z.of_nat (length vm_numbers) + 1) args)
  end)).

(** The module's own binding of [vm_number_from_name]: there is none. *)
Definition vm_number_from_name : option (string -> outcome Z) := None.

Definition next_vm_name (vms : list vm) (args : Args) : outcome string :=
  next_vm_name_with vm_number_from_name vms args.


(* ================================================================== *)
(** * Dates: [datetime.utcnow() + timedelta(days = d)] and [strftime] *)
(* ================================================================== *)

Module PyTime.

(** A naive [datetime]: the day as its proleptic Gregorian ordinal
    ([date.toordinal()], 1 for 0001-01-01) and the time of day. *)
Record datetime : Type := {
  ordinal : Z;
  hour : Z;
  minute : Z;
  second : Z;
  microsecond : Z
}.

Definition MAXORDINAL : Z := 3652059.
Definition MAX_DELTA_DAYS : Z := 999999999.

(** [dt + timedelta(days = d)]: the time of day is kept, the day moves by
    [d]; out-of-range values raise [OverflowError]. *)
Definition add_days (dt : datetime) (d : Z) : outcome datetime :=
  if (Z.abs d >? MAX_DELTA_DAYS) then Raise OverflowError
  else
    let o := ordinal dt + d in
    if (1 <=? o) && (o <=? MAXORDINAL) then
      Ok {| ordinal := o; hour := hour dt; minute := minute dt;
            second := second dt; microsecond := microsecond dt |}
    else Raise OverflowError.

Definition days_before_month (m : Z) : Z :=
  nth (Z.to_nat m) [-1; 0; 31; 59; 90; 120; 151; 181; 212; 243; 273; 304; 334] 0.

Definition days_in_month (m : Z) : Z :=
  nth (Z.to_nat m) [-1; 31; 28; 31; 30; 31; 30; 31; 31; 30; 31; 30; 31] 0.

(** Year, month and day of an ordinal, as [datetime.py] computes them. *)
Definition ymd_of_ordinal (n0 : Z) : Z * Z * Z :=
  let n := n0 - 1 in
  let n400 := n / 146097 in
  let n := n mod 146097 in
  let year := n400 * 400 + 1 in
  let n100 := n / 36524 in
  let n := n mod 36524 in
  let n4 := n / 1461 in
  let n := n mod 1461 in
  let n1 := n / 365 in
  let n := n mod 365 in
  let year := year + n100 * 100 + n4 * 4 + n1 in
  if (n1 =? 4) || (n100 =? 4) then (year - 1, 12, 31)
  else
    let leapyear := (n1 =? 3) && (negb (n4 =? 24) || (n100 =? 3)) in
    let month := Z.shiftr (n + 50) 5 in
    let preceding :=
      days_before_month month + (if (month >? 2) && leapyear then 1 else 0) in
    if preceding >? n then
      let month := month - 1 in
      let preceding :=
        preceding - (days_in_month month
                     + (if (month =? 2) && leapyear then 1 else 0)) in
      (year, month, n - preceding + 1)
    else (year, month, n - preceding + 1).

(** [%m], [%d], [%H], [%M]: two digits, zero padded. *)
Definition pad2 (z : Z) : string :=
  if z <? 10 then "0" ++ PyStr.str_of_Z z else PyStr.str_of_Z z.

(** ["{:%Y-%m-%dT%H:%MZ}".format(dt)]. *)
Definition strftime_minutes (dt : datetime) : string :=
  let '(y, m, d) := ymd_of_ordinal (ordinal dt) in
  PyStr.str_of_Z y ++ "-" ++ pad2 m ++ "-" ++ pad2 d ++ "T"
    ++ pad2 (hour dt) ++ ":" ++ pad2 (minute dt) ++ "Z".

(** The same instant with seconds and microseconds cleared. *)
Definition truncate_to_minute (dt : datetime) : datetime :=
  {| ordinal := ordinal dt; hour := hour dt; minute := minute dt;
     second := 0; microsecond := 0 |}.

(** Microseconds elapsed since the start of ordinal day 0. *)
Definition instant (dt : datetime) : Z :=
  (((ordinal dt * 24 + hour dt) * 60 + minute dt) * 60 + second dt) * 1000000
  + microsecond dt.

Definition microseconds_per_day : Z := 86400000000.

(** What [datetime] guarantees about the time-of-day fields. *)
Definition valid (dt : datetime) : Prop :=
  1 <= ordinal dt <= MAXORDINAL /\ 0 <= hour dt < 24 /\ 0 <= minute dt < 60
  /\ 0 <= second dt < 60 /\ 0 <= microsecond dt < 1000000.

End PyTime.

(* ================================================================== *)
(** * The outside world and the effect monad *)
(* ================================================================== *)

(** A scalar field of a resource description. *)
Inductive scalar : Type :=
| SNone
| SBool (b : bool)
| SInt (z : Z)
| SStr (s : string).

(** The [.result] of [APPLICATION.execute]: a bare scalar ([None] when a
    resource is absent, a string for a SAS token), one resource description
    whose scalar fields the module reads, or the VM list. *)
Inductive result : Type :=
| RScalar (v : scalar)
| RObj (fields : list (string * scalar))
| RVms (l : list vm).

Definition RNone : result := RScalar SNone.

(** Everything the module does to the outside, in the order it happens.
    A [Warning] keeps the format string of the [logger.warning] call and
    the formatted fields other than clock readings. *)
Inductive event : Type :=
| Execute (command_list : list string)
| Subprocess (command : list string)
| Input (prompt : string)
| Warning (template : string) (fields : list string)
| PrintLine (line : string)
| PrintTable (headers : list string) (rows : list (list string))
| MakeDirs (directory : string)
| OpenFile (path mode : string)
| FileWrite (path data : string).

Definition trace : Type := list event.
Bind Scope list_scope with trace.

(** The answers of the outside world; each may depend on all that happened
    before.  [APPLICATION.execute] returns a result or raises;
    [subprocess.call] returns the exit status of the program it ran. *)
Record world : Type := {
  az_execute : trace -> list string -> outcome result;
  subprocess_call : trace -> list string -> Z;
  get_input : trace -> string -> string;
  utcnow : trace -> PyTime.datetime;
  path_exists : trace -> string -> bool
}.

Definition M (A : Type) : Type := world -> trace -> outcome A * trace.

Definition ret {A} (a : A) : M A := fun _ t => (Ok a, t).

Definition raise {A} (e : exn) : M A := fun _ t => (Raise e, t).

Definition bind {A B} (m : M A) (f : A -> M B) : M B :=
  fun w t =>
    match m w t with
    | (Ok a, t') => f a w t'
    | (Raise e, t') => (Raise e, t')
    end.

Notation "x <- m ;; k" := (bind m (fun x => k))
  (at level 61, m at next level, right associativity).
Notation "m ;;; k" := (bind m (fun _ => k))
  (at level 61, right associativity).

Definition lift {A} (o : outcome A) : M A := fun _ t => (o, t).

Definition emit (e : event) : M unit := fun _ t => (Ok tt, (t ++ [e])%list).

(** [APPLICATION.execute(command_list).result] *)
Definition execute (command_list : list string) : M result :=
  fun w t => (az_execute w t command_list, (t ++ [Execute command_list])%list).

(** [subprocess.call(command, stderr=subprocess.STDOUT)] *)
Definition call (command : list string) : M Z :=
  fun w t => (Ok (subprocess_call w t command), (t ++ [Subprocess command])%list).

Definition input (prompt : string) : M string :=
  fun w t => (Ok (get_input w t prompt), (t ++ [Input prompt])%list).

Definition warning (template : string) (fields : list string) : M unit :=
  emit (Warning template fields).

Definition now : M PyTime.datetime := fun w t => (Ok (utcnow w t), t).

Definition exists_path (p : string) : M bool := fun w t => (Ok (path_exists w t p), t).

(** A list comprehension [[f(x) for x in l]]. *)
Fixpoint for_each {A B} (f : A -> M B) (l : list A) : M (list B) :=
  match l with
  | [] => ret []
  | x :: l' => y <- f x ;; ys <- for_each f l' ;; ret (y :: ys)
  end.

(** ** Dynamic typing of results *)

(** [str(v)], as ["{0}".format(v)] applies it. *)
Definition py_str (v : scalar) : string :=
  match v with
  | SNone => "None"
  | SBool true => "True"
  | SBool false => "False"
  | SInt z => PyStr.str_of_Z z
  | SStr s => s
  end.

(** ["{:s}".format(v)] accepts strings only. *)
Definition fmt_s (v : scalar) : outcome string :=
  match v with
  | SStr s => Ok s
  | SNone => Raise TypeError
  | _ => Raise ValueError
  end.

Definition truthy (v : scalar) : bool :=
  match v with
  | SNone => false
  | SBool b => b
  | SInt z => negb (z =? 0)
  | SStr s => negb (String.eqb s "")
  end.

Fixpoint assoc (k : string) (d : list (string * scalar)) : option scalar :=
  match d with
  | [] => None
  | (k', v) :: d' => if String.eqb k k' then Some v else assoc k d'
  end.

(** [r[key]] *)
Definition getitem (r : result) (key : string) : outcome scalar :=
  match r with
  | RObj d => match assoc key d with Some v => Ok v | None => Raise (KeyError key) end
  | _ => Raise TypeError
  end.

(** [len(r)] *)
Definition py_len (r : result) : outcome Z :=
  match r with
  | RVms l => Ok (Z.of_nat (length l))
  | RObj d => Ok (Z.of_nat (length d))
  | RScalar (SStr s) => Ok (Z.of_nat (String.length s))
  | RScalar _ => Raise TypeError
  end.

(** [for vm in r]: the VM list yields its elements.  Any other non-empty
    iterable yields strings, on which the first thing every per-VM function
    does with [vm], a subscript [vm["name"]], raises [TypeError] before any
    effect. *)
Definition iter_vms (r : result) : outcome (list vm) :=
  match r with
  | RVms l => Ok l
  | RObj [] => Ok []
  | RScalar (SStr EmptyString) => Ok []
  | _ => Raise TypeError
  end.

Definition is_none (r : result) : bool :=
  match r with
  | RScalar SNone => true
  | _ => false
  end.

(* ================================================================== *)
(** * Helper functions of the module *)
(* ================================================================== *)

Definition resource_group_exists (args : Args) : M bool :=
  let name_opt := "--name=" ++ resource_group args in
  let commands := ["group"; "show"] in
  let options := [name_opt] in
  result <- execute (commands ++ options)%list ;;
  ret (negb (is_none result)).

Definition create_resource_group (args : Args) : M result :=
  let name_opt := "--name=" ++ resource_group args in
  let location_opt :=
    "--location=" ++ match location args with Some l => l | None => "None" end in
  let commands := ["group"; "create"] in
  let options := [name_opt; location_opt] in
  execute (commands ++ options)%list.

Definition print_vm_table (vm_list_json : result) (args : Args) : M unit :=
  emit (PrintLine ("VMs in Resource Group '" ++ resource_group args ++ "':")) ;;;
  let headers := ["Name"; "Location"; "Size"; "Provisioning"; "Power state"] in
  vms <- lift (iter_vms vm_list_json) ;;
  let rows := map (fun v =>
    [name v; vm_location v; vmSize v; provisioningState v; powerState v]) vms in
  emit (PrintTable headers rows).

(** Wrapper for the calls that act inside the pool's resource group. *)
Definition vm_pool_command (command_list option_list : list string) (args : Args)
  : M result :=
  let resource_group_opt := "--resource-group=" ++ resource_group args in
  execute (command_list ++ (option_list ++ [resource_group_opt]))%list.

Definition get_vms (args : Args) : M result :=
  let power_state_opt := "--show-details" in
  vm_pool_command ["vm"; "list"] [power_state_opt] args.

Definition ssh_private_key_filename (args : Args) : string :=
  pool_file_prefix args ++ "_" ++ resource_group args.

Definition ssh_public_key_filename (args : Args) : string :=
  ssh_private_key_filename args ++ ".pub".

Definition ssh_private_key_path (args : Args) : string :=
  PyStr.path_join (ssh_key_directory args) (ssh_private_key_filename args).

Definition ssh_public_key_path (args : Args) : string :=
  PyStr.path_join (ssh_key_directory args) (ssh_public_key_filename args).

Definition ensure_exists (directory : string) : M unit :=
  ex <- exists_path directory ;;
  if negb (String.eqb directory "") && negb ex then emit (MakeDirs directory)
  else ret tt.

Definition gen_ssh_keys (args : Args) : M unit :=
  ensure_exists (ssh_key_directory args) ;;;
  let key_path := ssh_private_key_path args in
  let key_filename_opt := "-f" ++ key_path in
  let key_type_opt := "-trsa" in
  let comment_opt := "-C" ++ vm_user args ++ "@" ++ resource_group args ++ ".az-vm-pool" in
  result <- call ["ssh-keygen"; key_type_opt; key_filename_opt; comment_opt] ;;
  if negb (result =? 0) then
    warning "Did not create new SSH key pair for new VM pool." []
  else ret tt.

Definition get_resource_group_location (args : Args) : M scalar :=
  let resource_group_opt := "--name=" ++ resource_group args in
  resource_group <- execute ["group"; "show"; resource_group_opt] ;;
  lift (getitem resource_group "location").

Definition create_virtual_network (args : Args) : M result :=
  let vnet_name := resource_group args in
  let subnet_name := vnet_name in
  let name_opt := "--name=" ++ vnet_name in
  loc <- get_resource_group_location args ;;
  let location_opt := "--location=" ++ py_str loc in
  let subnet_opt := "--subnet-name=" ++ subnet_name in
  let commands := ["network"; "vnet"; "create"] in
  let options := [name_opt; location_opt; subnet_opt] in
  vm_pool_command commands options args.

Definition create_storage_account (args : Args) : M result :=
  let storage_account_name := resource_group args in
  let name_opt := "--name=" ++ storage_account_name in
  loc <- get_resource_group_location args ;;
  let location_opt := "--location=" ++ py_str loc in
  let redundancy_opt := "--sku=" ++ storage_redundancy args in
  let account_type_opt := "--kind=" ++ storage_account_type args in
  let commands := ["storage"; "account"; "create"] in
  let options := [name_opt; location_opt; account_type_opt; redundancy_opt] in
  vm_pool_command commands options args.

Definition public_ip_exists (ip_name : string) (args : Args) : M bool :=
  let name_opt := "--name=" ++ ip_name in
  let commands := ["network"; "public-ip"; "show"] in
  let options := [name_opt] in
  result <- vm_pool_command commands options args ;;
  ret (negb (is_none result)).

Definition create_public_ip (ip_name : string) (args : Args) : M result :=
  let name_opt := "--name=" ++ ip_name in
  loc <- get_resource_group_location args ;;
  let location_opt := "--location=" ++ py_str loc in
  let dns_name_opt := "--dns-name=" ++ ip_name in
  let commands := ["network"; "public-ip"; "create"] in
  let options := [name_opt; location_opt; dns_name_opt] in
  vm_pool_command commands options args.

Definition nic_exists (nic_name : string) (args : Args) : M bool :=
  let name_opt := "--name=" ++ nic_name in
  let commands := ["network"; "nic"; "show"] in
  let options := [name_opt] in
  result <- vm_pool_command commands options args ;;
  ret (negb (is_none result)).

Definition create_nic (nic_name : string) (args : Args) : M result :=
  let vnet_name := resource_group args in
  let subnet_name := vnet_name in
  let public_ip_name := nic_name in
  let name_opt := "--name=" ++ nic_name in
  loc <- get_resource_group_location args ;;
  let location_opt := "--location=" ++ py_str loc in
  let vnet_name_opt := "--vnet-name=" ++ vnet_name in
  let subnet_opt := "--subnet=" ++ subnet_name in
  let public_ip_opt := "--public-ip-address=" ++ public_ip_name in
  let commands := ["network"; "nic"; "create"] in
  let options := [name_opt; location_opt; vnet_name_opt; subnet_opt; public_ip_opt] in
  vm_pool_command commands options args.

Definition vm_os_disk_name (vm_name : string) (args : Args) : string :=
  vm_name ++ "_os_disk".

Definition pool_os_container_name (args : Args) : string := os_container_name args.

Definition pool_data_container_name (args : Args) : string := data_container_name args.

Definition pool_ssh_key_container_name (args : Args) : string :=
  ssh_key_container_name args.

Definition pool_vm_secrets_container_name (args : Args) : string :=
  vm_secrets_container_name args.

Definition pool_storage_account_connection_string (args : Args) : M scalar :=
  let storage_account_name := resource_group args in
  let account_name_opt := "--name=" ++ storage_account_name in
  let commands := ["storage"; "account"; "show-connection-string"] in
  let options := [account_name_opt] in
  r <- vm_pool_command commands options args ;;
  lift (getitem r "connectionString").

Definition vm_os_disk_blob_exists (vm_name : string) (args : Args) : M scalar :=
  let blob_name := vm_os_disk_name vm_name args in
  let container_name := pool_os_container_name args in
  connection_string <- pool_storage_account_connection_string args ;;
  let name_opt := "--name=" ++ blob_name in
  let container_name_opt := "--container-name=" ++ container_name in
  let connection_string_opt := "--connection-string=" ++ py_str connection_string in
  let commands := ["storage"; "blob"; "exists"] in
  let options := [name_opt; container_name_opt; connection_string_opt] in
  r <- execute (commands ++ options)%list ;;
  lift (getitem r "exists").

Definition delete_vm_os_disk_blob (vm_name : string) (args : Args) : M unit :=
  let blob_name := vm_os_disk_name vm_name args in
  let container_name := pool_os_container_name args in
  connection_string <- pool_storage_account_connection_string args ;;
  let name_opt := "--name=" ++ blob_name ++ ".vhd" in
  let container_name_opt := "--container-name=" ++ container_name in
  let connection_string_opt := "--connection-string=" ++ py_str connection_string in
  let commands := ["storage"; "blob"; "delete"] in
  let options := [name_opt; container_name_opt; connection_string_opt] in
  execute (commands ++ options)%list ;;;
  ret tt.

Definition create_pool_container (container_name : string) (args : Args) : M result :=
  connection_string <- pool_storage_account_connection_string args ;;
  let container_name_opt := "--name=" ++ container_name in
  let connection_string_opt := "--connection-string=" ++ py_str connection_string in
  let commands := ["storage"; "container"; "create"] in
  let options := [container_name_opt; connection_string_opt] in
  execute (commands ++ options)%list.

Definition create_pool_data_container (args : Args) : M unit :=
  create_pool_container (pool_data_container_name args) args ;;; ret tt.

Definition create_pool_ssh_key_container (args : Args) : M unit :=
  create_pool_container (pool_ssh_key_container_name args) args ;;; ret tt.

Definition create_pool_vm_secrets_container (args : Args) : M unit :=
  create_pool_container (pool_vm_secrets_container_name args) args ;;; ret tt.

Definition pool_container_exists (container_name : string) (args : Args) : M scalar :=
  connection_string <- pool_storage_account_connection_string args ;;
  let container_name_opt := "--name=" ++ container_name in
  let connection_string_opt := "--connection-string=" ++ py_str connection_string in
  let commands := ["storage"; "container"; "exists"] in
  let options := [container_name_opt; connection_string_opt] in
  r <- execute (commands ++ options)%list ;;
  lift (getitem r "exists").

Definition delete_pool_os_container (args : Args) : M unit :=
  connection_string <- pool_storage_account_connection_string args ;;
  let storage_container_name := pool_os_container_name args in
  let container_name_opt := "--name=" ++ storage_container_name in
  let connection_string_opt := "--connection-string=" ++ py_str connection_string in
  let commands := ["storage"; "container"; "delete"] in
  let options := [container_name_opt; connection_string_opt] in
  execute (commands ++ options)%list ;;;
  ret tt.

Definition container_sas_filename (container_name : string) (args : Args) : string :=
  pool_file_prefix args ++ "_" ++ resource_group args ++ "_"
    ++ container_sas_prefix args ++ "_" ++ container_name ++ ".txt".

Definition upload_blob (container_name file_path blob_name : string) (args : Args)
  : M unit :=
  ex <- pool_container_exists container_name args ;;
  (if negb (truthy ex) then create_pool_container container_name args ;;; ret tt
   else ret tt) ;;;
  let container_opt := "--container-name=" ++ container_name in
  let file_opt := "--file=" ++ file_path in
  let name_opt := "--name=" ++ blob_name in
  cs <- pool_storage_account_connection_string args ;;
  cs_text <- lift (fmt_s cs) ;;
  let connection_string_opt := "--connection-string=" ++ cs_text in
  let commands := ["storage"; "blob"; "upload"] in
  let options := [container_opt; file_opt; name_opt; connection_string_opt] in
  execute (commands ++ options)%list ;;;
  ret tt.

Definition upload_secret (file_path blob_name : string) (args : Args) : M unit :=
  let container_name := pool_vm_secrets_container_name args in
  upload_blob container_name file_path blob_name args ;;;
  warning "Secret '{:s}' uploaded to pool secrets container '{:s}' as '{:s}'"
    [file_path; container_name; blob_name].

(** The clock is read once; the expiry appears in the [--expiry] option
    and in the log line, both through the same minute-precision format. *)
Definition pool_data_container_sas (args : Args) : M result :=
  let container_name := pool_data_container_name args in
  connection_string <- pool_storage_account_connection_string args ;;
  let name_opt := "--name=" ++ container_name in
  let connection_string_opt := "--connection-string=" ++ py_str connection_string in
  let permissions_opt := "--permissions=lrwd" in
  let https_opt := "--https-only" in
  utc <- now ;;
  expiry_datetime <- lift (PyTime.add_days utc (sas_expiry_days args)) ;;
  let expiry_opt := "--expiry=" ++ PyTime.strftime_minutes expiry_datetime in
  let commands := ["storage"; "container"; "generate-sas"] in
  let options :=
    [name_opt; connection_string_opt; permissions_opt; https_opt; expiry_opt] in
  result <- execute (commands ++ options)%list ;;
  ensure_exists (vm_secrets_directory args) ;;;
  let file_name := container_sas_filename container_name args in
  let file_path := PyStr.path_join (vm_secrets_directory args) file_name in
  emit (OpenFile file_path "w+") ;;;
  (match result with
   | RScalar (SStr token) => emit (FileWrite file_path token)
   | _ => raise TypeError
   end) ;;;
  warning "New SAS token for pool data container '{:s}' written to '{:s}'. SAS token expires on {:%Y-%m-%dT%H:%MZ}."
    [container_name; file_path; PyTime.strftime_minutes expiry_datetime] ;;;
  upload_secret file_path file_name args ;;;
  ret result.

(* ================================================================== *)
(** * Remote executor *)
(* ================================================================== *)

Definition vm_url (v : vm) (args : Args) : string :=
  name v ++ "." ++ vm_location v ++ ".cloudapp.azure.com".

Definition vm_run_script (v : vm) (script : string) (args : Args) (detach : bool)
  : M bool :=
  let ssh_key_opt := ssh_private_key_path args in
  let strict_host_check_opt := "StrictHostKeyChecking=no" in
  let host_opt := vm_user args ++ "@" ++ vm_url v args in
  let script_opt := if detach then "screen -d -m " ++ script else script in
  let command :=
    ["ssh"; host_opt; "-i"; ssh_key_opt; "-o"; strict_host_check_opt; script_opt] in
  result <- call command ;;
  ret (result =? 0).

Definition vm_make_exec (v : vm) (script : string) (args : Args) : M bool :=
  let exec_script := "chmod +x " ++ script in
  vm_run_script v exec_script args false.

Definition vm_upload_dir (v : vm) (source_dir dest_dir : string) (args : Args)
  : M bool :=
  let ssh_key_opt := ssh_private_key_path args in
  let strict_host_check_opt := "StrictHostKeyChecking=no" in
  let source_opt := source_dir in
  let dest_opt := vm_url v args ++ ":" ++ dest_dir in
  let command :=
    ["scp"; "-i"; ssh_key_opt; "-o"; strict_host_check_opt; "-r"; source_opt; dest_opt] in
  (* First remove directory if it exists already *)
  let remove_dir_script := "rm -r " ++ dest_dir in
  vm_run_script v remove_dir_script args false ;;;
  result <- call command ;;
  ret (result =? 0).

Definition upload_ssh_keys (args : Args) : M unit :=
  let container_name := pool_ssh_key_container_name args in
  create_pool_ssh_key_container args ;;;
  let private_blob_name := ssh_private_key_filename args in
  let private_file_path := ssh_private_key_path args in
  upload_blob container_name private_file_path private_blob_name args ;;;
  warning "Private SSH key '{:s}' uploaded to '{:s}' in container '{:s}'."
    [private_file_path; private_blob_name; container_name] ;;;
  let public_blob_name := ssh_public_key_filename args in
  let public_file_path := ssh_public_key_path args in
  upload_blob container_name public_file_path public_blob_name args ;;;
  warning "Public SSH key '{:s}' uploaded to '{:s}' in container '{:s}'."
    [public_file_path; public_blob_name; container_name].

Definition remove_ssh_host (v : vm) (args : Args) : M unit :=
  let hostname := vm_url v args in
  let command := ["ssh-keygen"; "-R"; hostname] in
  call command ;;; ret tt.

Definition vm_test_ssh (v : vm) (args : Args) : M bool :=
  let script := "exit" in
  vm_run_script v script args false.

(** [os.path.join(args.pool_directory, d)]: [pool_directory] is [None]
    unless [--pool-directory] was given, and joining [None] raises. *)
Definition pool_subdirectory (args : Args) (d : string) : outcome string :=
  match pool_directory args with
  | Some p => Ok (PyStr.path_join p d)
  | None => Raise TypeError
  end.

(** [range(0, n)] *)
Definition range0 (n : Z) : list Z := map Z.of_nat (seq 0 (Z.to_nat n)).

(* ================================================================== *)
(** * Top-level commands *)
(* ================================================================== *)

Definition create_vm (vm_number : Z) (args : Args) : M result :=
  let vm_name := name_from_number vm_number args in
  let ip_name := vm_name in
  let nic_name := vm_name in
  let os_disk_name := vm_os_disk_name vm_name args in
  let storage_account_name := resource_group args in
  let os_container_name := pool_os_container_name args in
  ip <- public_ip_exists ip_name args ;;
  (if negb ip then
     warning "{:%Hh%Mm%Ss}: Creating Public IP '{:s}'." [ip_name] ;;;
     create_public_ip ip_name args ;;; ret tt
   else
     warning "{:%Hh%Mm%Ss}: Public IP '{:s}' already exists. Skipping create." [ip_name]) ;;;
  nic <- nic_exists nic_name args ;;
  (if negb nic then
     warning "{:%Hh%Mm%Ss}: Creating NIC '{:s}'." [nic_name] ;;;
     create_nic nic_name args ;;; ret tt
   else
     warning "{:%Hh%Mm%Ss}: NIC '{:s}' already exists. Skipping create." [nic_name]) ;;;
  blob <- vm_os_disk_blob_exists vm_name args ;;
  (if truthy blob then
     warning "{:%Hh%Mm%Ss}: Deleting existing OS disk blob '{:s}'" [os_disk_name] ;;;
     delete_vm_os_disk_blob vm_name args
   else ret tt) ;;;
  let name_opt := "--name=" ++ vm_name in
  let ssh_opt := "--ssh-key-value=" ++ ssh_public_key_path args in
  let image_opt := "--image=" ++ vm_image args in
  loc <- get_resource_group_location args ;;
  let location_opt := "--location=" ++ py_str loc in
  let size_opt := "--size=" ++ vm_size args in
  let nics_opt := "--nics=" ++ nic_name in
  let user_opt := "--admin-username=" ++ vm_user args in
  let unmanaged_opt := "--use-unmanaged-disk" in
  let storage_account_opt := "--storage-account=" ++ storage_account_name in
  let storage_container_opt := "--storage-container-name=" ++ os_container_name in
  let os_disk_name_opt := "--os-disk-name=" ++ os_disk_name in
  let commands := ["vm"; "create"] in
  let options :=
    ([name_opt; ssh_opt; image_opt; location_opt; size_opt; nics_opt; unmanaged_opt;
      storage_account_opt; storage_container_opt; os_disk_name_opt; user_opt]
     ++ (if no_wait args then ["--no-wait"] else []))%list in
  (if no_wait args then
     warning "{:%Hh%Mm%Ss}: Inititating creation of VM '{:s}'." [vm_name]
   else warning "{:%Hh%Mm%Ss}: Creating VM '{:s}'." [vm_name]) ;;;
  result <- vm_pool_command commands options args ;;
  (if negb (no_wait args) then
     warning "{:%Hh%Mm%Ss}: VM '{:s}' created in {:s}" [vm_name]
   else ret tt) ;;;
  ret result.

Definition create_pool (args : Args) : M unit :=
  (* Check if resource group exists before progressing further *)
  ex <- resource_group_exists args ;;
  (if negb ex then
     if force args && match location args with Some _ => true | None => false end then
       warning "Creating resource group '{:s}'." [resource_group args] ;;;
       create_resource_group args ;;; ret tt
     else
       warning "Resource group '{:s}' does not exist. Use --force option with --location=<azure_region> to automatically create it."
         [resource_group args] ;;;
       raise (SystemExit None)
   else ret tt) ;;;
  (* Check for existing VMs pool for resource group *)
  vms <- get_vms args ;;
  num_existing_vms <- lift (py_len vms) ;;
  if num_existing_vms >? 0 then
    print_vm_table vms args ;;;
    warning "VM pool already exists containing the above VMs. Use 'delete-pool' command to remove this pool before creating a new pool." []
  else
    warning "{:%Hh%Mm%Ss}: Creating pool of {:d} VMs for Resource Group '{:s}' using image '{:s}'."
      [PyStr.str_of_Z (num_vms args); resource_group args; vm_image args] ;;;
    warning "{:%Hh%Mm%Ss}: Ensuring storage account exists for Resource Group '{:s}'."
      [resource_group args] ;;;
    create_storage_account args ;;;
    warning "{:%Hh%Mm%Ss}: Creating SSH keys for VM pool {:d} VMs for Resource Group '{:s}'."
      [PyStr.str_of_Z (num_vms args); resource_group args] ;;;
    gen_ssh_keys args ;;;
    upload_ssh_keys args ;;;
    warning "{:%Hh%Mm%Ss}: Creating pool data container '{:s}' if it doesn't already exist."
      [pool_data_container_name args] ;;;
    create_pool_data_container args ;;;
    warning "{:%Hh%Mm%Ss}: Ensuring virtual network exists for pool '{:s}'."
      [resource_group args] ;;;
    create_virtual_network args ;;;
    for_each (fun i => create_vm i args) (range0 (num_vms args)) ;;;
    (* Refresh VMs *)
    vms <- get_vms args ;;
    warning "{:%Hh%Mm%Ss}: Removing any existing SSH host entries for each VM." [] ;;;
    l <- lift (iter_vms vms) ;;
    for_each (fun v => remove_ssh_host v args) l ;;;
    warning "{:%Hh%Mm%Ss}: Testing SSH connection to each VM" [] ;;;
    l <- lift (iter_vms vms) ;;
    for_each (fun v => vm_test_ssh v args) l ;;;
    print_vm_table vms args ;;;
    warning "{:%Hh%Mm%Ss}: Pool of {:d} VMs for Resource Group '{:s}' created in {:s}."
      [PyStr.str_of_Z (num_vms args); resource_group args].

Definition setup_vm (v : vm) (args : Args) : M unit :=
  let vm_name := name v in
  source_dir <- lift (pool_subdirectory args (setup_directory args)) ;;
  let dest_dir := setup_directory args in
  let setup_script := PyStr.path_join dest_dir (setup_script args) in
  warning "Copying setup directory '{:s}' to directory '{:s}' on VM '{:s}'."
    [source_dir; dest_dir; vm_name] ;;;
  success <- vm_upload_dir v source_dir dest_dir args ;;
  (if success : bool then
     warning "Successfully copied setup directory '{:s}' to directory '{:s}' on VM '{:s}'."
       [source_dir; dest_dir; vm_name]
   else
     warning "Failed to copy setup directory '{:s}' to directory '{:s}' on VM '{:s}'."
       [source_dir; dest_dir; vm_name]) ;;;
  vm_make_exec v setup_script args ;;;
  let detach := if no_wait args then true else false in
  success <- vm_run_script v setup_script args detach ;;
  if negb (no_wait args) then
    if success : bool then
      warning "Successfully ran setup script '{:s}' on VM '{:s}'." [setup_script; vm_name]
    else
      warning "Failed to run setup script '{:s}' on VM '{:s}'." [setup_script; vm_name]
  else ret tt.

(** The fan-out of [setup_pool]: [[setup_vm(vm, args) for vm in vms]]. *)
Definition setup_fanout (vms : list vm) (args : Args) : M (list unit) :=
  for_each (fun v => setup_vm v args) vms.

Definition setup_pool (args : Args) : M unit :=
  vms <- get_vms args ;;
  n <- lift (py_len vms) ;;
  if n =? 0 then
    print_vm_table vms args ;;;
    warning "No VM pool exists. Use 'create-pool' command to create a new pool." []
  else
    (if no_wait args then
       warning "{:%Hh%Mm%Ss}: Initiating setup for pool of {:d} VMs for Resource Group '{:s}'."
         [PyStr.str_of_Z n; resource_group args]
     else
       warning "{:%Hh%Mm%Ss}: Setting up pool of {:d} VMs for Resource Group '{:s}'."
         [PyStr.str_of_Z n; resource_group args]) ;;;
    l <- lift (iter_vms vms) ;;
    setup_fanout l args ;;;
    if no_wait args then
      warning "{:%Hh%Mm%Ss}: Setup initiated for pool of {:d} VMs for Resource Group '{:s}'. To check if setup is still running on a VM, SSH into it and run 'screen -R'."
        [PyStr.str_of_Z n; resource_group args]
    else
      warning "{:%Hh%Mm%Ss}: Setup completed for pool of {:d} VMs for Resource Group '{:s}' in {:s}."
        [PyStr.str_of_Z n; resource_group args].

Definition kill_task_vm (v : vm) (args : Args) : M unit :=
  let vm_name := name v in
  let kill_script := "killall screen" in
  success <- vm_run_script v kill_script args false ;;
  if success : bool then
    warning "Successfully killed task on VM '{:s}'." [vm_name]
  else
    warning "Failed to kill task on VM '{:s}'." [vm_name].

Definition kill_fanout (vms : list vm) (args : Args) : M (list unit) :=
  for_each (fun v => kill_task_vm v args) vms.

Definition kill_task (args : Args) : M unit :=
  vms <- get_vms args ;;
  n <- lift (py_len vms) ;;
  if n =? 0 then
    print_vm_table vms args ;;;
    warning "No VM pool exists. Use 'create-pool' command to create a new pool." []
  else
    warning "{:%Hh%Mm%Ss}: Killing task on pool of {:d} VMs for Resource Group '{:s}'."
      [PyStr.str_of_Z n; resource_group args] ;;;
    l <- lift (iter_vms vms) ;;
    kill_fanout l args ;;;
    warning "{:%Hh%Mm%Ss}: Task killed on pool of {:d} VMs for Resource Group '{:s}' in {:s}."
      [PyStr.str_of_Z n; resource_group args].

Definition deploy_task_vm (v : vm) (args : Args) : M unit :=
  let vm_name := name v in
  task_source_dir <- lift (pool_subdirectory args (task_directory args)) ;;
  let task_dest_dir := task_directory args in
  warning "Copying task directory '{:s}' to directory '{:s}' on VM '{:s}'."
    [task_source_dir; task_dest_dir; vm_name] ;;;
  success <- vm_upload_dir v task_source_dir task_dest_dir args ;;
  if success : bool then
    warning "Successfully copied setup directory '{:s}' to directory '{:s}' on VM '{:s}'."
      [task_source_dir; task_dest_dir; vm_name]
  else
    warning "Failed to copy setup directory '{:s}' to directory '{:s}' on VM '{:s}'."
      [task_source_dir; task_dest_dir; vm_name].

Definition deploy_fanout (vms : list vm) (args : Args) : M (list unit) :=
  for_each (fun v => deploy_task_vm v args) vms.

Definition deploy_task (args : Args) : M unit :=
  vms <- get_vms args ;;
  n <- lift (py_len vms) ;;
  if n =? 0 then
    print_vm_table vms args ;;;
    warning "No VM pool exists. Use 'create-pool' command to create a new pool." []
  else
    (* Kill any running task *)
    kill_task args ;;;
    (* Copy task to VMs *)
    warning "{:%Hh%Mm%Ss}: Deploying task to pool of {:d} VMs for Resource Group '{:s}'."
      [PyStr.str_of_Z n; resource_group args] ;;;
    l <- lift (iter_vms vms) ;;
    deploy_fanout l args ;;;
    warning "{:%Hh%Mm%Ss}: Task deployed to pool of {:d} VMs for Resource Group '{:s}' in {:s}. Fill the 'tasks' queue and then run 'start-task' to run the task."
      [PyStr.str_of_Z n; resource_group args].

Definition start_task_vm (v : vm) (args : Args) : M unit :=
  let task_dest_dir := task_directory args in
  let task_script := PyStr.path_join task_dest_dir (task_script args) in
  let vm_name := name v in
  vm_make_exec v task_script args ;;;
  success <- vm_run_script v task_script args true ;;
  if success : bool then
    warning "Successfully started script '{:s}' on VM '{:s}'." [task_script; vm_name]
  else
    warning "Failed to start script '{:s}' on VM '{:s}'." [task_script; vm_name].

Definition start_task_fanout (vms : list vm) (args : Args) : M (list unit) :=
  for_each (fun v => start_task_vm v args) vms.

Definition start_task (args : Args) : M unit :=
  vms <- get_vms args ;;
  n <- lift (py_len vms) ;;
  if n =? 0 then
    print_vm_table vms args ;;;
    warning "No VM pool exists. Use 'create-pool' command to create a new pool." []
  else
    warning "{:%Hh%Mm%Ss}: Starting task on pool of {:d} VMs for Resource Group '{:s}'."
      [PyStr.str_of_Z n; resource_group args] ;;;
    l <- lift (iter_vms vms) ;;
    start_task_fanout l args ;;;
    warning "{:%Hh%Mm%Ss}: Task started on pool of {:d} VMs for Resource Group '{:s}' in {:s}."
      [PyStr.str_of_Z n; resource_group args].

Definition show_pool (args : Args) : M unit :=
  vms <- get_vms args ;;
  print_vm_table vms args.

Definition start_vm (v : vm) (args : Args) : M result :=
  let vm_name := name v in
  if String.eqb (powerState v) "VM running" then
    warning "VM '{0}' already running." [name v] ;;;
    ret RNone
  else
    warning "{:%Hh%Mm%Ss}: Starting VM '{:s}'." [vm_name] ;;;
    let name_opt := "--name=" ++ vm_name in
    let options := ([name_opt] ++ (if no_wait args then ["--no-wait"] else []))%list in
    let commands := ["vm"; "start"] in
    result <- vm_pool_command commands options args ;;
    (if negb (no_wait args) then
       warning "{:%Hh%Mm%Ss}: VM '{:s}' started in {:s}" [vm_name]
     else ret tt) ;;;
    ret result.

Definition start_all (args : Args) : M (list result) :=
  vms <- get_vms args ;;
  n <- lift (py_len vms) ;;
  warning "{:%Hh%Mm%Ss}: Starting pool of {:d} VMs for Resource Group '{:s}'."
    [PyStr.str_of_Z n; resource_group args] ;;;
  l <- lift (iter_vms vms) ;;
  result <- for_each (fun v => start_vm v args) l ;;
  vms <- get_vms args ;;
  print_vm_table vms args ;;;
  (if no_wait args then
     warning "{:%Hh%Mm%Ss}: Startup initiated for pool of {:d} VMs for Resource Group '{:s}'. Run 'show-pool' command to check when operation is completed."
       [PyStr.str_of_Z n; resource_group args]
   else
     warning "{:%Hh%Mm%Ss}: Pool of {:d} VMs for Resource Group '{:s}' started in {:s}."
       [PyStr.str_of_Z n; resource_group args]) ;;;
  ret result.

Definition shutdown_vm (v : vm) (args : Args) : M result :=
  let vm_name := name v in
  if String.eqb (powerState v) "VM deallocated" then
    warning "VM '{0}' already deallocated." [vm_name] ;;;
    ret RNone
  else
    warning "{:%Hh%Mm%Ss}: Deallocating VM '{:s}'." [vm_name] ;;;
    let name_opt := "--name=" ++ vm_name in
    let options := ([name_opt] ++ (if no_wait args then ["--no-wait"] else []))%list in
    let commands := ["vm"; "deallocate"] in
    result <- vm_pool_command commands options args ;;
    (if negb (no_wait args) then
       warning "{:%Hh%Mm%Ss}: VM '{:s}' deallocated in {:s}" [vm_name]
     else ret tt) ;;;
    ret result.

Definition shutdown_all (args : Args) : M (list result) :=
  vms <- get_vms args ;;
  n <- lift (py_len vms) ;;
  warning "{:%Hh%Mm%Ss}: Stopping pool of {:d} VMs for Resource Group '{:s}'."
    [PyStr.str_of_Z n; resource_group args] ;;;
  l <- lift (iter_vms vms) ;;
  result <- for_each (fun v => shutdown_vm v args) l ;;
  vms <- get_vms args ;;
  print_vm_table vms args ;;;
  (if no_wait args then
     warning "{:%Hh%Mm%Ss}: Shutdown initiated for pool of {:d} VMs for Resource Group '{:s}'. Run 'show-pool' command to check when operation is completed."
       [PyStr.str_of_Z n; resource_group args]
   else
     warning "{:%Hh%Mm%Ss}: Pool of {:d} VMs for Resource Group '{:s}' stopped in {:s}."
       [PyStr.str_of_Z n; resource_group args]) ;;;
  ret result.

Definition delete_vm (v : vm) (args : Args) (force : bool) : M result :=
  let vm_name := name v in
  warning "{:%Hh%Mm%Ss}: Deleting VM '{:s}'." [vm_name] ;;;
  let name_opt := "--name=" ++ vm_name in
  let options := ([name_opt] ++ (if force then ["--yes"] else []))%list in
  let commands := ["vm"; "delete"] in
  (* Delete VM *)
  result <- vm_pool_command commands options args ;;
  (* Delete NIC and Public IP address *)
  warning "{:%Hh%Mm%Ss}: Deleting NIC '{:s}'." [vm_name] ;;;
  vm_pool_command ["network"; "nic"; "delete"] [name_opt] args ;;;
  warning "{:%Hh%Mm%Ss}: Deleting Public IP '{:s}'." [vm_name] ;;;
  vm_pool_command ["network"; "public-ip"; "delete"] [name_opt] args ;;;
  warning "{:%Hh%Mm%Ss}: Deleting OS disk blob '{:s}'." [vm_name] ;;;
  delete_vm_os_disk_blob vm_name args ;;;
  warning "{:%Hh%Mm%Ss}: VM '{:s}' deleted in {:s}" [vm_name] ;;;
  ret result.

(** Returns the list of per-VM results after a confirmed deletion, and
    [None] when the pool is empty or the operator declines. *)
Definition delete_pool (args : Args) : M (option (list result)) :=
  vms <- get_vms args ;;
  print_vm_table vms args ;;;
  n <- lift (py_len vms) ;;
  if n =? 0 then
    warning "No VMs in pool." [] ;;;
    ret None
  else
    resp <- input ("Are you sure you want to delete all " ++ PyStr.str_of_Z n
                   ++ " of the above VMs? (y/n):") ;;
    if String.eqb resp "y" then
      warning "{:%Hh%Mm%Ss}: Deleting pool of {:d} VMs for Resource Group '{:s}'."
        [PyStr.str_of_Z n; resource_group args] ;;;
      l <- lift (iter_vms vms) ;;
      result <- for_each (fun v => delete_vm v args true) l ;;
      (* Delete storage container for VM OS disk vhds *)
      warning "{:%Hh%Mm%Ss}: Deleting VM pool OS disk storage container '{:s}'."
        [pool_os_container_name args] ;;;
      delete_pool_os_container args ;;;
      (* Refresh VM list and show end status *)
      vms <- get_vms args ;;
      print_vm_table vms args ;;;
      warning "{:%Hh%Mm%Ss}: Pool of {:d} VMs for Resource Group '{:s}' deleted in {:s}."
        [PyStr.str_of_Z n; resource_group args] ;;;
      ret (Some result)
    else
      warning "Pool delete cancelled." [] ;;;
      ret None.

Definition refresh_sas (args : Args) : M unit :=
  warning "Refreshing SAS tokens." [] ;;;
  pool_data_container_sas args ;;;
  ret tt.

(* ================================================================== *)
(** * Reading a trace *)
(* ================================================================== *)

(** The control-plane commands issued, in order. *)
Fixpoint executed (t : trace) : list (list string) :=
  match t with
  | [] => []
  | Execute c :: t' => c :: executed t'
  | _ :: t' => executed t'
  end.

(** The local programs run, in order. *)
Fixpoint called (t : trace) : list (list string) :=
  match t with
  | [] => []
  | Subprocess c :: t' => c :: called t'
  | _ :: t' => called t'
  end.

(** Commands that create, change or delete something on the control
    plane: any sub-command of the module other than its queries. *)
Definition is_query (c : list string) : bool :=
  match c with
  | "group" :: "show" :: _ => true
  | "vm" :: "list" :: _ => true
  | "network" :: "public-ip" :: "show" :: _ => true
  | "network" :: "nic" :: "show" :: _ => true
  | "storage" :: "blob" :: "exists" :: _ => true
  | "storage" :: "container" :: "exists" :: _ => true
  | "storage" :: "account" :: "show-connection-string" :: _ => true
  | _ => false
  end.

(** Side effects in a trace: control-plane mutations, programs run,
    directories made and files written.  Console output and queries are
    not side effects. *)
Definition is_side_effect (e : event) : bool :=
  match e with
  | Execute c => negb (is_query c)
  | Subprocess _ => true
  | MakeDirs _ => true
  | OpenFile _ _ => true
  | FileWrite _ _ => true
  | Input _ | Warning _ _ | PrintLine _ | PrintTable _ _ => false
  end.

Definition side_effects (t : trace) : list event := filter is_side_effect t.

(** ** The commands each per-VM step is expected to run *)

Definition ssh_command (v : vm) (script : string) (args : Args) : list string :=
  ["ssh"; vm_user args ++ "@" ++ vm_url v args; "-i"; ssh_private_key_path args;
   "-o"; "StrictHostKeyChecking=no"; script].

Definition scp_command (v : vm) (source_dir dest_dir : string) (args : Args)
  : list string :=
  ["scp"; "-i"; ssh_private_key_path args; "-o"; "StrictHostKeyChecking=no"; "-r";
   source_dir; vm_url v args ++ ":" ++ dest_dir].

(** Remove the destination, then copy. *)
Definition upload_commands (source_dir dest_dir : string) (args : Args) (v : vm)
  : list (list string) :=
  [ssh_command v ("rm -r " ++ dest_dir) args; scp_command v source_dir dest_dir args].

Definition kill_commands (args : Args) (v : vm) : list (list string) :=
  [ssh_command v "killall screen" args].

Definition setup_commands (pool_dir : string) (args : Args) (v : vm)
  : list (list string) :=
  let script := PyStr.path_join (setup_directory args) (setup_script args) in
  (upload_commands (PyStr.path_join pool_dir (setup_directory args))
     (setup_directory args) args v
   ++ [ssh_command v ("chmod +x " ++ script) args;
       ssh_command v (if no_wait args then "screen -d -m " ++ script else script) args])%list.

Definition deploy_commands (pool_dir : string) (args : Args) (v : vm)
  : list (list string) :=
  upload_commands (PyStr.path_join pool_dir (task_directory args))
    (task_directory args) args v.

Definition start_task_commands (args : Args) (v : vm) : list (list string) :=
  let script := PyStr.path_join (task_directory args) (task_script args) in
  [ssh_command v ("chmod +x " ++ script) args;
   ssh_command v ("screen -d -m " ++ script) args].

(** A per-VM step that always returns, runs the programs [cmds v] and
    makes no control-plane call, whatever the exit statuses are. *)
Definition remote_step_of {B} (f : vm -> M B) (cmds : vm -> list (list string)) : Prop :=
  forall (v : vm) (w : world) (t : trace),
    exists (y : B) (t' : trace),
      f v w t = (Ok y, t')
      /\ called t' = (called t ++ cmds v)%list
      /\ executed t' = executed t.

Definition vm_list_command (args : Args) : list string :=
  ["vm"; "list"; "--show-details"; "--resource-group=" ++ resource_group args].

Definition group_show_command (args : Args) : list string :=
  ["group"; "show"; "--name=" ++ resource_group args].

Definition connection_string_command (args : Args) : list string :=
  ["storage"; "account"; "show-connection-string"; "--name=" ++ resource_group args;
   "--resource-group=" ++ resource_group args].

Definition generate_sas_command (args : Args) (cs expiry : string) : list string :=
  ["storage"; "container"; "generate-sas"; "--name=" ++ data_container_name args;
   "--connection-string=" ++ cs; "--permissions=lrwd"; "--https-only";
   "--expiry=" ++ expiry].

Definition container_exists_command (container cs : string) : list string :=
  ["storage"; "container"; "exists"; "--name=" ++ container;
   "--connection-string=" ++ cs].

Definition container_create_command (container cs : string) : list string :=
  ["storage"; "container"; "create"; "--name=" ++ container;
   "--connection-string=" ++ cs].

Definition blob_upload_command (container file_path blob_name cs : string)
  : list string :=
  ["storage"; "blob"; "upload"; "--container-name=" ++ container;
   "--file=" ++ file_path; "--name=" ++ blob_name; "--connection-string=" ++ cs].

(** The local file that holds the pool's SAS token. *)
Definition sas_file_path (args : Args) : string :=
  PyStr.path_join (vm_secrets_directory args)
    (container_sas_filename (data_container_name args) args).

(** Events that touch local files. *)
Definition is_file_event (e : event) : bool :=
  match e with
  | OpenFile _ _ | FileWrite _ _ => true
  | _ => false
  end.

Definition table_headers : list string :=
  ["Name"; "Location"; "Size"; "Provisioning"; "Power state"].

Definition table_rows (vms : list vm) : list (list string) :=
  map (fun v => [name v; vm_location v; vmSize v; provisioningState v; powerState v]) vms.

Definition table_title (args : Args) : string :=
  "VMs in Resource Group '" ++ resource_group args ++ "':".

Definition delete_prompt (n : nat) : string :=
  "Are you sure you want to delete all " ++ PyStr.str_of_Z (Z.of_nat n)
    ++ " of the above VMs? (y/n):".

(* ================================================================== *)
(** * A fake remote host for the copy step *)
(* ================================================================== *)

Fixpoint cmd_eqb (a b : list string) : bool :=
  match a, b with
  | [], [] => true
  | x :: a', y :: b' => String.eqb x y && cmd_eqb a' b'
  | _, _ => false
  end.

(** Copying into a directory that is already there merges: the files of
    the source, and the old files that the source does not replace. *)
Definition merge_union (old new : list string) : list string :=
  (new ++ filter (fun f => negb (existsb (String.eqb f) new)) old)%list.

Section FakeTransport.

Variables (v : vm) (source_dir dest_dir : string) (args : Args).

(** Files under the local source directory. *)
Variable source_files : list string.

(** The destination directory on the VM before the call: absent, or
    present with the files of an earlier deployment. *)
Variable before : option (list string).

(** What the two commands of the copy step do to the destination. *)
Definition remote_step (d : option (list string)) (e : event) : option (list string) :=
  match e with
  | Subprocess c =>
      if cmd_eqb c (ssh_command v ("rm -r " ++ dest_dir) args) then None
      else if cmd_eqb c (scp_command v source_dir dest_dir args) then
        Some (match d with
              | None => source_files
              | Some old => merge_union old source_files
              end)
      else d
  | _ => d
  end.

Definition remote_after (t : trace) : option (list string) :=
  fold_left remote_step t before.

(** The transport of the fake host: [rm -r] fails when there is nothing
    to remove, every other command succeeds. *)
Definition fake_transport : world := {|
  az_execute := fun _ _ => Ok RNone;
  subprocess_call := fun t c =>
    if cmd_eqb c (ssh_command v ("rm -r " ++ dest_dir) args) then
      match remote_after t with None => 1 | Some _ => 0 end
    else 0;
  get_input := fun _ _ => "n";
  utcnow := fun _ =>
    {| PyTime.ordinal := 1; PyTime.hour := 0; PyTime.minute := 0;
       PyTime.second := 0; PyTime.microsecond := 0 |};
  path_exists := fun _ _ => true
|}.

End FakeTransport.

(* ================================================================== *)
(** * Sample pools and worlds *)
(* ================================================================== *)

(** [args] as [main] completes it for pool [rg]. *)
Definition default_args (rg : string) : Args := {|
  resource_group := rg;
  num_vms := 2;
  vm_size := "Standard_D1_v2";
  sas_expiry_days := 14;
  pool_directory := Some "pool";
  no_wait := false;
  vm_image := "canonical:UbuntuServer:16.04-LTS:latest";
  force := false;
  location := None;
  ssh_key_directory := "private-pool-ssh-keys";
  vm_secrets_directory := "secrets";
  os_container_name := "vhds";
  data_container_name := "data";
  ssh_key_container_name := "sshkeys";
  vm_secrets_container_name := "vmsecrets";
  container_sas_prefix := "sas_storage_container";
  pool_file_prefix := "azure_vm_pool";
  setup_directory := "setup";
  deploy_directory := "deploy";
  task_directory := "task";
  setup_script := "run.sh";
  deploy_script := "run.sh";
  task_script := "run.sh";
  vm_user := "vm-admin";
  storage_redundancy := "Standard_LRS";
  storage_account_type := "Storage"
|}.

Definition demo_args : Args := default_args "demo".

Definition sample_vm (n power : string) : vm := {|
  name := n;
  vm_location := "westeurope";
  vmSize := "Standard_D1_v2";
  provisioningState := "Succeeded";
  powerState := power
|}.

Definition demo_vms : list vm :=
  [sample_vm "demo-0" "VM deallocated"; sample_vm "demo-1" "VM running"].

Definition sample_clock : PyTime.datetime :=
  {| PyTime.ordinal := 736500; PyTime.hour := 13; PyTime.minute := 45;
     PyTime.second := 59; PyTime.microsecond := 123456 |}.

(** A world given by a table of control-plane answers, a table of exit
    statuses and one reply of the operator. *)
Definition scripted_world (answer : list string -> outcome result)
    (status : list string -> Z) (reply : string) : world := {|
  az_execute := fun _ c => answer c;
  subprocess_call := fun _ c => status c;
  get_input := fun _ _ => reply;
  utcnow := fun _ => sample_clock;
  path_exists := fun _ _ => true
|}.

(** The control plane of pool [demo]: two VMs, a storage account, the
    secrets container in place, and a SAS token to hand out. *)
Definition demo_plane (c : list string) : outcome result :=
  match c with
  | "vm" :: "list" :: _ => Ok (RVms demo_vms)
  | "storage" :: "account" :: "show-connection-string" :: _ =>
      Ok (RObj [("connectionString", SStr "AccountName=demo")])
  | "storage" :: "container" :: "exists" :: _ => Ok (RObj [("exists", SBool true)])
  | "storage" :: "container" :: "generate-sas" :: _ => Ok (RScalar (SStr "sig=abc"))
  | "group" :: "show" :: _ => Ok (RObj [("location", SStr "westeurope")])
  | _ => Ok RNone
  end.

Definition stopped_vms : list vm :=
  [sample_vm "demo-0" "VM deallocated"; sample_vm "demo-1" "VM deallocated"].

(** Pool [demo] with both VMs deallocated, on a control plane that fails
    to start VM [demo-0]. *)
Definition start_fails_plane (c : list string) : outcome result :=
  if cmd_eqb c ["vm"; "start"; "--name=demo-0"; "--resource-group=demo"]
  then Raise (CLIError "allocation failed")
  else match c with
       | "vm" :: "list" :: _ => Ok (RVms stopped_vms)
       | _ => demo_plane c
       end.

(** Pool [demo] on a control plane that fails to delete VM [demo-0]. *)
Definition delete_fails_plane (c : list string) : outcome result :=
  if cmd_eqb c ["vm"; "delete"; "--name=demo-0"; "--yes"; "--resource-group=demo"]
  then Raise (CLIError "operation failed")
  else demo_plane c.

(** A control plane on which pool [demo] has no resource group. *)
Definition absent_plane (c : list string) : outcome result := Ok RNone.

(** A control plane on which pool [demo] exists and has no VM. *)
Definition empty_plane (c : list string) : outcome result :=
  match c with
  | "vm" :: "list" :: _ => Ok (RVms [])
  | _ => demo_plane c
  end.

(** Every remote command to [demo-0] fails; the others succeed. *)
Definition demo0_unreachable (c : list string) : Z :=
  if existsb (String.eqb "vm-admin@demo-0.westeurope.cloudapp.azure.com") c
     || existsb (String.prefix "demo-0.westeurope.cloudapp.azure.com:") c
  then 255 else 0.

Definition all_succeed (c : list string) : Z := 0.

(* ================================================================== *)
(** * Commands the control-plane operations are expected to issue *)
(* ================================================================== *)

Definition start_command (args : Args) (v : vm) : list string :=
  (["vm"; "start"; ("--name=" ++ name v)%string]
   ++ (if no_wait args then ["--no-wait"] else [])
   ++ [("--resource-group=" ++ resource_group args)%string])%list.

Definition deallocate_command (args : Args) (v : vm) : list string :=
  (["vm"; "deallocate"; ("--name=" ++ name v)%string]
   ++ (if no_wait args then ["--no-wait"] else [])
   ++ [("--resource-group=" ++ resource_group args)%string])%list.

(** Nothing for a VM that is already in the target state. *)
Definition start_commands (args : Args) (v : vm) : list (list string) :=
  if String.eqb (powerState v) "VM running" then [] else [start_command args v].

Definition deallocate_commands (args : Args) (v : vm) : list (list string) :=
  if String.eqb (powerState v) "VM deallocated" then [] else [deallocate_command args v].

Definition vm_delete_command (args : Args) (v : vm) : list string :=
  ["vm"; "delete"; "--name=" ++ name v; "--yes";
   "--resource-group=" ++ resource_group args].

Definition nic_delete_command (args : Args) (n : string) : list string :=
  ["network"; "nic"; "delete"; "--name=" ++ n;
   "--resource-group=" ++ resource_group args].

Definition public_ip_delete_command (args : Args) (n : string) : list string :=
  ["network"; "public-ip"; "delete"; "--name=" ++ n;
   "--resource-group=" ++ resource_group args].

Definition blob_delete_command (args : Args) (cs vm_name : string) : list string :=
  ["storage"; "blob"; "delete"; "--name=" ++ vm_os_disk_name vm_name args ++ ".vhd";
   "--container-name=" ++ os_container_name args; "--connection-string=" ++ cs].

Definition container_delete_command (args : Args) (cs : string) : list string :=
  ["storage"; "container"; "delete"; "--name=" ++ os_container_name args;
   "--connection-string=" ++ cs].

(** VM, then NIC, then public address, then OS-disk blob. *)
Definition delete_commands (args : Args) (cs : string) (v : vm) : list (list string) :=
  [vm_delete_command args v; nic_delete_command args (name v);
   public_ip_delete_command args (name v); connection_string_command args;
   blob_delete_command args cs (name v)].

(** A command that returns a value satisfying [P], whatever the trace it
    starts from, and adds the programs [cmds] and the control-plane
    commands [execs] to it. *)
Definition runs {A} (w : world) (m : M A) (P : A -> Prop)
    (cmds execs : list (list string)) : Prop :=
  forall t : trace,
    exists (a : A) (t' : trace),
      m w t = (Ok a, t') /\ P a
      /\ called t' = (called t ++ cmds)%list
      /\ executed t' = (executed t ++ execs)%list.

(* ================================================================== *)
(** * More sample worlds *)
(* ================================================================== *)

(** Pool [demo] as seen by two successive listings: both VMs at first,
    only [demo-1] once the pool has been listed. *)
Definition shrinking_world : world := {|
  az_execute := fun t c =>
    match c with
    | "vm" :: "list" :: _ =>
        match t with
        | [] => Ok (RVms demo_vms)
        | _ => Ok (RVms [sample_vm "demo-1" "VM running"])
        end
    | _ => demo_plane c
    end;
  subprocess_call := fun _ _ => 0;
  get_input := fun _ _ => "n";
  utcnow := fun _ => sample_clock;
  path_exists := fun _ _ => true
|}.

(** A control plane whose SAS request comes back empty-handed. *)
Definition no_token_plane (c : list string) : outcome result :=
  match c with
  | "storage" :: "container" :: "generate-sas" :: _ => Ok RNone
  | _ => demo_plane c
  end.

(** [args] as [argparse] leaves it when [--pool-directory] is not given. *)
Definition without_pool_directory (a : Args) : Args := {|
  resource_group := resource_group a;
  num_vms := num_vms a;
  vm_size := vm_size a;
  sas_expiry_days := sas_expiry_days a;
  pool_directory := None;
  no_wait := no_wait a;
  vm_image := vm_image a;
  force := force a;
  location := location a;
  ssh_key_directory := ssh_key_directory a;
  vm_secrets_directory := vm_secrets_directory a;
  os_container_name := os_container_name a;
  data_container_name := data_container_name a;
  ssh_key_container_name := ssh_key_container_name a;
  vm_secrets_container_name := vm_secrets_container_name a;
  container_sas_prefix := container_sas_prefix a;
  pool_file_prefix := pool_file_prefix a;
  setup_directory := setup_directory a;
  deploy_directory := deploy_directory a;
  task_directory := task_directory a;
  setup_script := setup_script a;
  deploy_script := deploy_script a;
  task_script := task_script a;
  vm_user := vm_user a;
  storage_redundancy := storage_redundancy a;
  storage_account_type := storage_account_type a
|}.

(* ================================================================== *)
(** * Commands of pool creation *)
(* ================================================================== *)

Definition ip_show_command (args : Args) (n : string) : list string :=
  ["network"; "public-ip"; "show"; "--name=" ++ n;
   "--resource-group=" ++ resource_group args].

Definition ip_create_command (args : Args) (loc n : string) : list string :=
  ["network"; "public-ip"; "create"; "--name=" ++ n; "--location=" ++ loc;
   "--dns-name=" ++ n; "--resource-group=" ++ resource_group args].

Definition nic_show_command (args : Args) (n : string) : list string :=
  ["network"; "nic"; "show"; "--name=" ++ n;
   "--resource-group=" ++ resource_group args].

Definition nic_create_command (args : Args) (loc n : string) : list string :=
  ["network"; "nic"; "create"; "--name=" ++ n; "--location=" ++ loc;
   "--vnet-name=" ++ resource_group args; "--subnet=" ++ resource_group args;
   "--public-ip-address=" ++ n; "--resource-group=" ++ resource_group args].

Definition blob_exists_command (args : Args) (cs vm_name : string) : list string :=
  ["storage"; "blob"; "exists"; "--name=" ++ vm_os_disk_name vm_name args;
   "--container-name=" ++ os_container_name args; "--connection-string=" ++ cs].

Definition vm_create_command (args : Args) (loc vm_name : string) : list string :=
  (["vm"; "create"; ("--name=" ++ vm_name)%string;
    ("--ssh-key-value=" ++ ssh_public_key_path args)%string;
    ("--image=" ++ vm_image args)%string; ("--location=" ++ loc)%string;
    ("--size=" ++ vm_size args)%string; ("--nics=" ++ vm_name)%string;
    "--use-unmanaged-disk";
    ("--storage-account=" ++ resource_group args)%string;
    ("--storage-container-name=" ++ os_container_name args)%string;
    ("--os-disk-name=" ++ vm_os_disk_name vm_name args)%string;
    ("--admin-username=" ++ vm_user args)%string]
   ++ (if no_wait args then ["--no-wait"] else [])
   ++ [("--resource-group=" ++ resource_group args)%string])%list.

(** What the control plane knows while a pool is provisioned: the region
    of the resource group, the connection string of the storage account,
    which public addresses and NICs exist, which VMs have left an OS-disk
    blob behind, and whether the SSH-key container is there. *)
Record knowledge : Type := {
  group_description : list (string * scalar);
  region : scalar;
  account_description : list (string * scalar);
  connection_string : string;
  ip_known : string -> bool;
  nic_known : string -> bool;
  blob_stale : string -> bool;
  keys_container_description : list (string * scalar);
  keys_container_present : scalar
}.

(** Public address, then NIC, then the stale disk, then the VM; each of the
    first two is created only when missing, and the location is looked up
    before every creation. *)
Definition create_vm_commands (args : Args) (k : knowledge) (vm_name : string)
  : list (list string) :=
  ([ip_show_command args vm_name]
   ++ (if ip_known k vm_name then []
       else [group_show_command args;
             ip_create_command args (py_str (region k)) vm_name])
   ++ [nic_show_command args vm_name]
   ++ (if nic_known k vm_name then []
       else [group_show_command args;
             nic_create_command args (py_str (region k)) vm_name])
   ++ [connection_string_command args;
       blob_exists_command args (connection_string k) vm_name]
   ++ (if blob_stale k vm_name then
         [connection_string_command args;
          blob_delete_command args (connection_string k) vm_name]
       else [])
   ++ [group_show_command args;
       vm_create_command args (py_str (region k)) vm_name])%list.

(** The answers a VM creation relies on, for the VM named [vm_name]. *)
Definition answers_vm_creation (args : Args) (w : world) (k : knowledge)
    (vm_name : string) : Prop :=
  (forall t, az_execute w t (group_show_command args) = Ok (RObj (group_description k)))
  /\ assoc "location" (group_description k) = Some (region k)
  /\ (forall t, az_execute w t (connection_string_command args)
                = Ok (RObj (account_description k)))
  /\ assoc "connectionString" (account_description k) = Some (SStr (connection_string k))
  /\ (forall t, exists r, az_execute w t (ip_show_command args vm_name) = Ok r
                          /\ is_none r = negb (ip_known k vm_name))
  /\ (forall t, exists r, az_execute w t (nic_show_command args vm_name) = Ok r
                          /\ is_none r = negb (nic_known k vm_name))
  /\ (forall t, exists d flag,
        az_execute w t (blob_exists_command args (connection_string k) vm_name)
        = Ok (RObj d)
        /\ assoc "exists" d = Some flag /\ truthy flag = blob_stale k vm_name)
  /\ (forall t c,
        In c [ip_create_command args (py_str (region k)) vm_name;
              nic_create_command args (py_str (region k)) vm_name;
              blob_delete_command args (connection_string k) vm_name;
              vm_create_command args (py_str (region k)) vm_name] ->
        exists r, az_execute w t c = Ok r).

(** A control plane for a first creation of pool [demo]: nothing exists
    yet except the resource group and the storage account; VM [demo-1] has
    left a disk behind. *)
Definition fresh_plane (c : list string) : outcome result :=
  match c with
  | "storage" :: "blob" :: "exists" :: n :: _ =>
      Ok (RObj [("exists", SBool (String.eqb n "--name=demo-1_os_disk"))])
  | "storage" :: "container" :: "exists" :: _ => Ok (RObj [("exists", SBool false)])
  | "storage" :: "account" :: "show-connection-string" :: _ =>
      Ok (RObj [("connectionString", SStr "AccountName=demo")])
  | "group" :: "show" :: _ => Ok (RObj [("location", SStr "westeurope")])
  | _ => Ok RNone
  end.

Definition fresh_knowledge : knowledge := {|
  group_description := [("location", SStr "westeurope")];
  region := SStr "westeurope";
  account_description := [("connectionString", SStr "AccountName=demo")];
  connection_string := "AccountName=demo";
  ip_known := fun _ => false;
  nic_known := fun _ => false;
  blob_stale := fun n =>
    String.eqb ("--name=" ++ vm_os_disk_name n demo_args) "--name=demo-1_os_disk";
  keys_container_description := [("exists", SBool false)];
  keys_container_present := SBool false
|}.

Definition storage_create_command (args : Args) (loc : string) : list string :=
  ["storage"; "account"; "create"; "--name=" ++ resource_group args;
   "--location=" ++ loc; "--kind=" ++ storage_account_type args;
   "--sku=" ++ storage_redundancy args; "--resource-group=" ++ resource_group args].

Definition vnet_create_command (args : Args) (loc : string) : list string :=
  ["network"; "vnet"; "create"; "--name=" ++ resource_group args;
   "--location=" ++ loc; "--subnet-name=" ++ resource_group args;
   "--resource-group=" ++ resource_group args].

Definition keygen_command (args : Args) : list string :=
  ["ssh-keygen"; "-trsa"; "-f" ++ ssh_private_key_path args;
   "-C" ++ vm_user args ++ "@" ++ resource_group args ++ ".az-vm-pool"].

Definition remove_host_command (args : Args) (v : vm) : list string :=
  ["ssh-keygen"; "-R"; vm_url v args].

(** Uploading one blob: look for the container, create it when it is
    reported missing, then upload; the connection string is looked up
    before each of the three. *)
Definition blob_upload_commands (args : Args) (container cs : string)
    (present : scalar) (file_path blob_name : string) : list (list string) :=
  ([connection_string_command args; container_exists_command container cs]
   ++ (if truthy present then []
       else [connection_string_command args; container_create_command container cs])
   ++ [connection_string_command args;
       blob_upload_command container file_path blob_name cs])%list.

Definition keys_upload_commands (args : Args) (k : knowledge) : list (list string) :=
  ([connection_string_command args;
    container_create_command (ssh_key_container_name args) (connection_string k)]
   ++ blob_upload_commands args (ssh_key_container_name args) (connection_string k)
        (keys_container_present k) (ssh_private_key_path args)
        (ssh_private_key_filename args)
   ++ blob_upload_commands args (ssh_key_container_name args) (connection_string k)
        (keys_container_present k) (ssh_public_key_path args)
        (ssh_public_key_filename args))%list.

(** Storage account, keys, data container, network, then one VM per index
    from 0, then the final listing. *)
Definition create_pool_commands (args : Args) (k : knowledge) : list (list string) :=
  ([group_show_command args; vm_list_command args;
    group_show_command args; storage_create_command args (py_str (region k))]
   ++ keys_upload_commands args k
   ++ [connection_string_command args;
       container_create_command (data_container_name args) (connection_string k)]
   ++ [group_show_command args; vnet_create_command args (py_str (region k))]
   ++ flat_map (fun i => create_vm_commands args k (name_from_number i args))
        (range0 (num_vms args))
   ++ [vm_list_command args])%list.

(** The key pair is generated first; once the VMs exist, every stale host
    entry is removed before the first connection is tried. *)
Definition create_pool_programs (args : Args) (created : list vm) : list (list string) :=
  ([keygen_command args]
   ++ map (remove_host_command args) created
   ++ map (fun v => ssh_command v "exit" args) created)%list.

(** The same as [runs], from one given trace. *)
Definition runs_at {A} (w : world) (m : M A) (t : trace) (P : A -> Prop)
    (cmds execs : list (list string)) : Prop :=
  exists (a : A) (t' : trace),
    m w t = (Ok a, t') /\ P a
    /\ called t' = (called t ++ cmds)%list
    /\ executed t' = (executed t ++ execs)%list.

(** The answers a pool creation relies on.  The pool shows no VM when it
    is first listed, and shows [created] once its network exists. *)
Definition answers_pool_creation (args : Args) (w : world) (k : knowledge)
    (t : trace) (created : list vm) : Prop :=
  (forall i, answers_vm_creation args w k (name_from_number i args))
  /\ az_execute w (t ++ [Execute (group_show_command args)])%list (vm_list_command args)
     = Ok (RVms [])
  /\ (forall t0, In (vnet_create_command args (py_str (region k))) (executed t0) ->
        az_execute w t0 (vm_list_command args) = Ok (RVms created))
  /\ (forall t0,
        az_execute w t0
          (container_exists_command (ssh_key_container_name args) (connection_string k))
        = Ok (RObj (keys_container_description k)))
  /\ assoc "exists" (keys_container_description k) = Some (keys_container_present k)
  /\ (forall t0 c,
        In c [storage_create_command args (py_str (region k));
              container_create_command (ssh_key_container_name args) (connection_string k);
              container_create_command (data_container_name args) (connection_string k);
              vnet_create_command args (py_str (region k))] ->
        exists r, az_execute w t0 c = Ok r)
  /\ (forall t0 file_path blob_name,
        exists r, az_execute w t0
                    (blob_upload_command (ssh_key_container_name args)
                       file_path blob_name (connection_string k)) = Ok r).

(** The control plane of a first creation of pool [demo]: it lists no VM
    until the network is there and both VMs afterwards. *)
Definition provisioning_world : world := {|
  az_execute := fun t c =>
    match c with
    | "vm" :: "list" :: _ =>
        if existsb (cmd_eqb (vnet_create_command demo_args "westeurope")) (executed t)
        then Ok (RVms stopped_vms) else Ok (RVms [])
    | _ => fresh_plane c
    end;
  subprocess_call := fun _ _ => 0;
  get_input := fun _ _ => "n";
  utcnow := fun _ => sample_clock;
  path_exists := fun _ _ => false
|}.

(* ================================================================== *)
(** * Durations in log lines *)
(* ================================================================== *)

Module PyDelta.




End PyDelta.


(* ================================================================== *)
(** * Python statements used by configure_batch_account.py *)
(* ================================================================== *)

(** [try: body] with [except Exception as e: handler].  [SystemExit] is
    not an [Exception] and passes through. *)
Definition try_except {A} (body : M A) (handler : exn -> M A) : M A :=
  fun w t =>
    match body w t with
    | (Ok a, t') => (Ok a, t')
    | (Raise (SystemExit c), t') => (Raise (SystemExit c), t')
    | (Raise e, t') => handler e w t'
    end.

(** An element of the argument list of [subprocess.call] must be a
    string. *)
Definition program_argument (v : scalar) : outcome string :=
  match v with
  | SStr s => Ok s
  | _ => Raise TypeError
  end.

(** [v == s] for a string [s]. *)
Definition scalar_is (v : scalar) (s : string) : bool :=
  match v with
  | SStr x => String.eqb x s
  | _ => false
  end.

(** [while cond: body], given up after [fuel] rounds: [None] says that
    the loop was still going. *)
Fixpoint while_loop (fuel : nat) (cond : M bool) (body : M unit) : M (option unit) :=
  match fuel with
  | O => ret None
  | S n =>
      c <- cond ;;
      if c then body ;;; while_loop n cond body else ret (Some tt)
  end.

(* ================================================================== *)
(** * configure_batch_account.py *)
(* ================================================================== *)

Module ConfigureBatchAccount.


Definition AZURE_ACCOUNT_NAME_MIN_LENGTH : Z := 3.
Definition AZURE_ACCOUNT_NAME_MAX_LENGTH : Z := 24.

(** [string.ascii_lowercase + string.digits] *)
Definition AZURE_ACCOUNT_NAME_CHARSET : string :=
  "abcdefghijklmnopqrstuvwxyz" ++ "0123456789".

(** [all(p(c) for c in s)] *)
Fixpoint all_chars (p : ascii -> bool) (s : string) : bool :=
  match s with
  | EmptyString => true
  | String c s' => p c && all_chars p s'
  end.

Definition name_characters_ok (name : string) : M bool :=
  let valid_chars :=
    all_chars (fun c => PyStr.contains c AZURE_ACCOUNT_NAME_CHARSET) name in
  (if negb valid_chars then
     warning "Account name '{0}' contains invalid characters. Valid characters are '{1}'"
       [name; AZURE_ACCOUNT_NAME_CHARSET]
   else ret tt) ;;;
  ret valid_chars.

Definition name_length_ok (name : string) : M bool :=
  let name_length := Z.of_nat (String.length name) in
  let name_length_ok :=
    (AZURE_ACCOUNT_NAME_MIN_LENGTH <=? name_length)
    && (name_length <=? AZURE_ACCOUNT_NAME_MAX_LENGTH) in
  (if negb name_length_ok then
     warning "Account name '{0}' length invalid at {1} characters. Length must be between {2} and {3} characters."
       [name; PyStr.str_of_Z name_length;
        PyStr.str_of_Z AZURE_ACCOUNT_NAME_MIN_LENGTH;
        PyStr.str_of_Z AZURE_ACCOUNT_NAME_MAX_LENGTH]
   else ret tt) ;;;
  ret name_length_ok.

(** [name_length_ok(name) and name_characters_ok(name)]: the characters
    are looked at only when the length is fine. *)
Definition name_valid (name : string) : M bool :=
  length_ok <- name_length_ok name ;;
  if length_ok then name_characters_ok name else ret false.


Definition DEFAULT_SSH_KEY_DIRECTORY : string := "private-batch-ssh-keys".

Definition create_service_principle_for_resource_group
    (service_principle_name : string) (subscription : result)
    (resource_group_name : scalar) : M unit :=
  let name_opt := "--name=" ++ service_principle_name in
  let cert_opt := "--create-cert" in
  let role_opt := "--role=Contributor" in
  subscription_id <- lift (getitem subscription "id") ;;
  id_text <- lift (fmt_s subscription_id) ;;
  group_text <- lift (fmt_s resource_group_name) ;;
  let scopes_opt :=
    "--scope=/subscriptions/" ++ id_text ++ "/resourceGroups/" ++ group_text in
  let id_opt := "--id=http://" ++ service_principle_name in
  try_except
    (execute ["ad"; "sp"; "show"; id_opt] ;;;
     warning "Batch service principle user {0} already exists. Skipping create."
       [service_principle_name])
    (fun e =>
       warning "Creating batch service principle user" [] ;;;
       res <- execute ["ad"; "sp"; "create-for-rbac"; cert_opt; name_opt; role_opt] ;;
       pem_source_path <- lift (getitem res "fileWithCertAndPrivateKey") ;;
       ensure_exists DEFAULT_SSH_KEY_DIRECTORY ;;;
       group_text <- lift (fmt_s resource_group_name) ;;
       let pem_dest_filename := group_text ++ ".pem" in
       let pem_dest_path := PyStr.path_join DEFAULT_SSH_KEY_DIRECTORY pem_dest_filename in
       source <- lift (program_argument pem_source_path) ;;
       call ["mv"; source; pem_dest_path] ;;;
       ret tt).

Definition resource_provider_registration_state (namespace : string) : M scalar :=
  let name_opt := "--name=" ++ namespace in
  r <- execute ["provider"; "show"; name_opt] ;;
  lift (getitem r "registrationState").

Definition register_resource_provider (namespace : string) : M unit :=
  let name_opt := "--name=" ++ namespace in
  execute ["provider"; "register"; name_opt] ;;;
  ret tt.

(** The state is asked for anew by every test.  [time.sleep] leaves no
    trace; each loop gives up after [fuel] rounds. *)
Definition ensure_resource_provider_registered (fuel : nat) (namespace : string)
  : M (option unit) :=
  state <- resource_provider_registration_state namespace ;;
  if scalar_is state "Registered" then ret (Some tt)
  else
    state <- resource_provider_registration_state namespace ;;
    waited <-
      (if scalar_is state "Unregistering" then
         while_loop fuel
           (state <- resource_provider_registration_state namespace ;;
            ret (scalar_is state "Unregistering"))
           (emit (PrintLine ("Waiting for earlier deregistration of resource provider '"
                             ++ namespace ++ "' to complete before re-registering.")))
       else ret (Some tt)) ;;
    match waited with
    | None => ret None
    | Some _ =>
        state <- resource_provider_registration_state namespace ;;
        if scalar_is state "Unregistered" then
          register_resource_provider namespace ;;;
          while_loop fuel
            (state <- resource_provider_registration_state namespace ;;
             ret (scalar_is state "Registering"))
            (emit (PrintLine ("Waiting for registration of resource provider '"
                              ++ namespace ++ "' to complete.")))
        else ret (Some tt)
    end.

Definition create_batch_account (fuel : nat) (name : string)
    (resource_group_name : scalar) (location : string) : M (option result) :=
  warning "Creating batch account" [] ;;;
  registered <- ensure_resource_provider_registered fuel "Microsoft.Batch" ;;
  match registered with
  | None => ret None
  | Some _ =>
      let name_opt := "--name=" ++ name in
      let location_opt := "--location=" ++ location in
      let resource_group_name_opt := "--resource-group=" ++ py_str resource_group_name in
      r <- execute ["batch"; "account"; "create"; name_opt; location_opt;
                    resource_group_name_opt] ;;
      ret (Some r)
  end.

End ConfigureBatchAccount.


(** A lowercase letter or a digit, by character code. *)
Definition account_character (c : ascii) : Prop :=
  (97 <= N_of_ascii c <= 122)%N \/ (48 <= N_of_ascii c <= 57)%N.


Definition is_warning (e : event) : bool :=
  match e with
  | Warning _ _ => true
  | _ => false
  end.


Definition principal_show_command (service_principle_name : string) : list string :=
  ["ad"; "sp"; "show"; "--id=http://" ++ service_principle_name].

Definition principal_create_command (service_principle_name : string) : list string :=
  ["ad"; "sp"; "create-for-rbac"; "--create-cert";
   "--name=" ++ service_principle_name; "--role=Contributor"].

(** What has happened by the time a missing service principal has been
    created. *)
Definition principal_creation (t : trace) (service_principle_name : string) : trace :=
  (t ++ [Execute (principal_show_command service_principle_name);
         Warning "Creating batch service principle user" [];
         Execute (principal_create_command service_principle_name)])%list.

Definition is_system_exit (e : exn) : bool :=
  match e with
  | SystemExit _ => true
  | _ => false
  end.

(** A control plane on which no service principal can be looked up: the
    lookup fails, the creation hands back the path of a certificate. *)
Definition no_principal_plane (c : list string) : outcome result :=
  match c with
  | "ad" :: "sp" :: "show" :: _ => Raise (CLIError "service principal not found")
  | "ad" :: "sp" :: "create-for-rbac" :: _ =>
      Ok (RObj [("fileWithCertAndPrivateKey", SStr "/tmp/tmpcert.pem")])
  | _ => Ok RNone
  end.

Definition sample_subscription (id : string) : result :=
  RObj [("name", SStr "Pay-As-You-Go"); ("id", SStr id)].

Definition provider_show_command (namespace : string) : list string :=
  ["provider"; "show"; "--name=" ++ namespace].

Definition provider_register_command (namespace : string) : list string :=
  ["provider"; "register"; "--name=" ++ namespace].

Definition batch_account_create_command (name location group : string) : list string :=
  ["batch"; "account"; "create"; "--name=" ++ name; "--location=" ++ location;
   "--resource-group=" ++ group].

Definition provider_in_state (state : string) : result :=
  RObj [("registrationState", SStr state)].

Definition waiting_line (namespace : string) : event :=
  PrintLine ("Waiting for registration of resource provider '" ++ namespace
             ++ "' to complete.").

(** What has happened after [k] rounds of waiting for a registration that
    was requested at [t]. *)
Fixpoint polled (t : trace) (namespace : string) (k : nat) : trace :=
  match k with
  | O => t
  | S k' =>
      (polled t namespace k'
         ++ [Execute (provider_show_command namespace); waiting_line namespace])%list
  end.

(** A control plane on which the provider is unregistered until its
    registration is requested, and registered once two waiting lines have
    been printed. *)
Definition registering_world : world := {|
  az_execute := fun t c =>
    match c with
    | "provider" :: "show" :: _ =>
        if existsb (cmd_eqb (provider_register_command "Microsoft.Batch")) (executed t)
        then if (2 <=? length (filter (fun e => match e with PrintLine _ => true
                                                | _ => false end) t))%nat
             then Ok (provider_in_state "Registered")
             else Ok (provider_in_state "Registering")
        else Ok (provider_in_state "Unregistered")
    | _ => Ok RNone
    end;
  subprocess_call := fun _ _ => 0;
  get_input := fun _ _ => "n";
  utcnow := fun _ => sample_clock;
  path_exists := fun _ _ => true
|}.

(** A control plane on which the registration of the provider is under
    way and stays so. *)
Definition busy_provider_plane (c : list string) : outcome result :=
  match c with
  | "provider" :: "show" :: _ => Ok (provider_in_state "Registering")
  | _ => Ok RNone
  end.

(* ================================================================== *)
(** * Fetching the pool's SSH keys *)
(* ================================================================== *)

Module PyPath.

(** [p[:p.rfind("/") + 1]]: the path up to and including its last slash. *)
Fixpoint head (p : string) : string :=
  match p with
  | EmptyString => EmptyString
  | String c p' =>
      if PyStr.contains "/" p' then String c (head p')
      else if Ascii.eqb c "/" then String c EmptyString
      else EmptyString
  end.

(** [s.rstrip("/")] *)
Fixpoint rstrip_slash (s : string) : string :=
  match s with
  | EmptyString => EmptyString
  | String c s' =>
      match rstrip_slash s' with
      | EmptyString => if Ascii.eqb c "/" then EmptyString else String c EmptyString
      | r => String c r
      end
  end.

(** [s == "/" * len(s)] *)
Fixpoint all_slashes (s : string) : bool :=
  match s with
  | EmptyString => true
  | String c s' => Ascii.eqb c "/" && all_slashes s'
  end.

(** [os.path.dirname(p)] (posixpath) *)
Definition dirname (p : string) : string :=
  let head := head p in
  if negb (String.eqb head "") && negb (all_slashes head) then rstrip_slash head
  else head.

End PyPath.

Definition download_blob (container_name file_path blob_name : string) (args : Args)
  : M unit :=
  let directory := PyPath.dirname file_path in
  ensure_exists directory ;;;
  let container_opt := "--container-name=" ++ container_name in
  let file_opt := "--file=" ++ file_path in
  let name_opt := "--name=" ++ blob_name in
  cs <- pool_storage_account_connection_string args ;;
  cs_text <- lift (fmt_s cs) ;;
  let connection_string_opt := "--connection-string=" ++ cs_text in
  let commands := ["storage"; "blob"; "download"] in
  let options := [container_opt; file_opt; name_opt; connection_string_opt] in
  execute (commands ++ options)%list ;;;
  ret tt.

Definition download_ssh_keys (args : Args) : M unit :=
  let container_name := pool_ssh_key_container_name args in
  let private_blob_name := ssh_private_key_filename args in
  let private_file_path := ssh_private_key_path args in
  download_blob container_name private_file_path private_blob_name args ;;;
  let command := ["chmod"; "600"; private_file_path] in
  call command ;;;
  warning "Private SSH key '{:s}' downloaded from container '{:s}' to '{:s}'."
    [private_blob_name; container_name; private_file_path] ;;;
  let public_blob_name := ssh_public_key_filename args in
  let public_file_path := ssh_public_key_path args in
  download_blob container_name public_file_path public_blob_name args ;;;
  let command := ["chmod"; "644"; public_file_path] in
  call command ;;;
  warning "Public SSH key '{:s}' downloaded from container '{:s}' to '{:s}'."
    [public_blob_name; container_name; public_file_path].

Definition get_ssh (args : Args) : M unit :=
  warning "Getting SSH keys for VM pool." [] ;;;
  download_ssh_keys args ;;;
  vms <- get_vms args ;;
  warning "Removing existing SSH host entries for VM pool" [] ;;;
  l <- lift (iter_vms vms) ;;
  for_each (fun v => remove_ssh_host v args) l ;;;
  warning "Testing SSH connection to each VM" [] ;;;
  l <- lift (iter_vms vms) ;;
  for_each (fun v => vm_test_ssh v args) l ;;;
  ret tt.

Definition blob_download_command (container file_path blob_name cs : string)
  : list string :=
  ["storage"; "blob"; "download"; "--container-name=" ++ container;
   "--file=" ++ file_path; "--name=" ++ blob_name; "--connection-string=" ++ cs].

(** Control-plane commands and local programs, in the order they were
    issued. *)
Definition is_command (e : event) : bool :=
  match e with
  | Execute _ | Subprocess _ => true
  | _ => false
  end.

Definition commands (t : trace) : list event := filter is_command t.

(** A command that returns a value satisfying [P], whatever the trace it
    starts from, and issues [evs], in that order. *)
Definition issues {A} (w : world) (m : M A) (P : A -> Prop) (evs : list event) : Prop :=
  forall t : trace,
    exists (a : A) (t' : trace),
      m w t = (Ok a, t') /\ P a /\ commands t' = (commands t ++ evs)%list.

(** Each key is downloaded and then has its permissions set, the private
    key first; the pool is listed afterwards, every host entry is removed
    and then every VM is connected to. *)
Definition get_ssh_commands (args : Args) (cs : string) (vms : list vm) : list event :=
  ([Execute (connection_string_command args);
    Execute (blob_download_command (ssh_key_container_name args)
               (ssh_private_key_path args) (ssh_private_key_filename args) cs);
    Subprocess ["chmod"; "600"; ssh_private_key_path args];
    Execute (connection_string_command args);
    Execute (blob_download_command (ssh_key_container_name args)
               (ssh_public_key_path args) (ssh_public_key_filename args) cs);
    Subprocess ["chmod"; "644"; ssh_public_key_path args];
    Execute (vm_list_command args)]
   ++ map (fun v => Subprocess (remove_host_command args v)) vms
   ++ map (fun v => Subprocess (ssh_command v "exit" args)) vms)%list.

(** A world in which no local program succeeds. *)
Definition failing_programs_world : world :=
  scripted_world demo_plane (fun _ => 1) "n".

(* ================================================================== *)
(** * Pool creation with [--force] *)
(* ================================================================== *)

(** A command that only ever adds to what has happened. *)
Definition extends {A} (m : M A) : Prop :=
  forall (w : world) (t : trace), exists evs : trace, snd (m w t) = (t ++ evs)%list.

Definition group_create_command (args : Args) (l : string) : list string :=
  ["group"; "create"; "--name=" ++ resource_group args; "--location=" ++ l].

(** [args] as [argparse] leaves it when [--force] and [--location] are
    given. *)
Definition with_force_at (a : Args) (l : string) : Args := {|
  resource_group := resource_group a;
  num_vms := num_vms a;
  vm_size := vm_size a;
  sas_expiry_days := sas_expiry_days a;
  pool_directory := pool_directory a;
  no_wait := no_wait a;
  vm_image := vm_image a;
  force := true;
  location := Some l;
  ssh_key_directory := ssh_key_directory a;
  vm_secrets_directory := vm_secrets_directory a;
  os_container_name := os_container_name a;
  data_container_name := data_container_name a;
  ssh_key_container_name := ssh_key_container_name a;
  vm_secrets_container_name := vm_secrets_container_name a;
  container_sas_prefix := container_sas_prefix a;
  pool_file_prefix := pool_file_prefix a;
  setup_directory := setup_directory a;
  deploy_directory := deploy_directory a;
  task_directory := task_directory a;
  setup_script := setup_script a;
  deploy_script := deploy_script a;
  task_script := task_script a;
  vm_user := vm_user a;
  storage_redundancy := storage_redundancy a;
  storage_account_type := storage_account_type a
|}.

(* ================================================================== *)
(** * Failures of the control plane *)
(* ================================================================== *)

(** A command that raises [e], whatever the trace it starts from, after
    adding the programs [cmds] and the control-plane commands [execs]. *)
Definition fails_with {A} (w : world) (m : M A) (e : exn)
    (cmds execs : list (list string)) : Prop :=
  forall t : trace,
    exists t' : trace,
      m w t = (Raise e, t')
      /\ called t' = (called t ++ cmds)%list
      /\ executed t' = (executed t ++ execs)%list.

(** Pool [demo] with both VMs deallocated, on a control plane that starts
    [demo-0] and fails to start [demo-1]. *)
Definition second_start_fails_plane (c : list string) : outcome result :=
  if cmd_eqb c ["vm"; "start"; "--name=demo-1"; "--resource-group=demo"]
  then Raise (CLIError "allocation failed")
  else match c with
       | "vm" :: "list" :: _ => Ok (RVms stopped_vms)
       | _ => demo_plane c
       end.

(** Pool [demo] on a control plane that fails to delete VM [demo-1]. *)
Definition second_delete_fails_plane (c : list string) : outcome result :=
  if cmd_eqb c ["vm"; "delete"; "--name=demo-1"; "--yes"; "--resource-group=demo"]
  then Raise (CLIError "operation failed")
  else demo_plane c.

(* ================================================================== *)
(** * The conditionally required arguments *)
(* ================================================================== *)

(** What [main] reads of the parsed command line when it enforces the
    arguments that only some commands require. *)
Record command_line : Type := {
  cl_command : string;
  cl_num_vms : option Z;
  cl_vm_size : option string;
  cl_pool_directory : option string;
  cl_no_wait : bool
}.

(** [parser.error(message)] prints the usage and leaves with status 2. *)
Definition parser_error {A} : outcome A := Raise (SystemExit (Some 2)).

Definition is_given {A} (o : option A) : bool :=
  match o with
  | Some _ => true
  | None => false
  end.

(** The checks of [main] between [parse_args] and the defaults, in their
    order; the first that fails ends the run. *)
Definition enforce_required_arguments (cl : command_line) : outcome unit :=
  let command := cl_command cl in
  if String.eqb command "create-pool" && negb (is_given (cl_num_vms cl))
  then parser_error
  else if String.eqb command "create-pool" && negb (is_given (cl_vm_size cl))
  then parser_error
  else if String.eqb command "setup-pool" && negb (is_given (cl_pool_directory cl))
  then parser_error
  else if String.eqb command "start-task" && negb (is_given (cl_pool_directory cl))
  then parser_error
  else if String.eqb command "init-directory" && negb (is_given (cl_pool_directory cl))
  then parser_error
  else if negb (existsb (String.eqb command)
                  ["create-pool"; "setup-pool"; "start-all"; "stop-all"])
          && cl_no_wait cl
  then parser_error
  else Ok tt.

(** A command line that names a command and nothing else. *)
Definition bare_command (command : string) : command_line := {|
  cl_command := command;
  cl_num_vms := None;
  cl_vm_size := None;
  cl_pool_directory := None;
  cl_no_wait := false
|}.

Definition is_copy (c : list string) : bool :=
  match c with
  | "scp" :: _ => true
  | _ => false
  end.

(* ================================================================== *)
(** * What a timestamp denotes *)
(* ================================================================== *)

(** The reading of a UTC timestamp [Y-MM-DDTHH:MMZ], as the service that
    receives the [--expiry] option understands it.  This is not code of the
    module: it says which minute a text stands for, with the days of the
    civil calendar counted directly from the leap-year rule. *)
Module Timestamp.

Definition is_leap (y : Z) : bool :=
  (y mod 4 =? 0) && (negb (y mod 100 =? 0) || (y mod 400 =? 0)).

Definition month_length_in (leap : bool) (m : Z) : Z :=
  if m =? 2 then (if leap then 29 else 28)
  else if (m =? 4) || (m =? 6) || (m =? 9) || (m =? 11) then 30
  else 31.

Definition month_length (y m : Z) : Z := month_length_in (is_leap y) m.

(** Days of the year that lie before month [m]. *)
Definition days_before_in (leap : bool) (m : Z) : Z :=
  fold_right Z.add 0
    (map (fun k => month_length_in leap (Z.of_nat k)) (seq 1 (Z.to_nat (m - 1)))).

(** Days that lie before the first of January of year [y], year 1 being
    the first. *)
Definition days_before_year (y : Z) : Z :=
  365 * (y - 1) + (y - 1) / 4 - (y - 1) / 100 + (y - 1) / 400.

(** The number of a day, 1 for the first of January of year 1. *)
Definition day_number (y m d : Z) : Z :=
  days_before_year y + days_before_in (is_leap y) m + d.

Definition valid_date (y m d : Z) : bool :=
  (1 <=? y) && (1 <=? m) && (m <=? 12) && (1 <=? d) && (d <=? month_length y m).

(** A run of decimal digits, and nothing else. *)
Definition read_digits (s : string) : option Z :=
  match list_ascii_of_string s with
  | [] => None
  | l =>
      if forallb PyStr.is_digit l
      then Some (fold_left (fun acc c => 10 * acc + Z.of_N (PyStr.digit_val c)) l 0)
      else None
  end.

Definition read_two (s : string) : option Z :=
  if (String.length s =? 2)%nat then read_digits s else None.

(** Minutes from the start of day 0 to the minute the text stands for. *)
Definition read_minutes (s : string) : option Z :=
  match PyStr.split "T" s with
  | [date; time] =>
      match PyStr.split "-" date, PyStr.split ":" time with
      | [year; month; day], [hours; rest] =>
          match PyStr.split "Z" rest with
          | [minutes; EmptyString] =>
              match read_digits year, read_two month, read_two day,
                    read_two hours, read_two minutes with
              | Some y, Some m, Some d, Some h, Some mi =>
                  if valid_date y m d && (h <? 24) && (mi <? 60)
                  then Some ((day_number y m d * 24 + h) * 60 + mi)
                  else None
              | _, _, _, _, _ => None
              end
          | _ => None
          end
      | _, _ => None
      end
  | _ => None
  end.

End Timestamp.

(** Month and day of the [n]-th day of a year, counted from 0: the last
    steps of [PyTime.ymd_of_ordinal]. *)
Definition month_and_day (leapyear : bool) (n : Z) : Z * Z :=
  let month := Z.shiftr (n + 50) 5 in
  let preceding :=
    PyTime.days_before_month month + (if (month >? 2) && leapyear then 1 else 0) in
  if preceding >? n then
    let month := month - 1 in
    let preceding :=
      preceding - (PyTime.days_in_month month
                   + (if (month =? 2) && leapyear then 1 else 0)) in
    (month, n - preceding + 1)
  else (month, n - preceding + 1).

(** Whole minutes from the start of day 0 to a [datetime]. *)
Definition minute_of (dt : PyTime.datetime) : Z :=
  (PyTime.ordinal dt * 24 + PyTime.hour dt) * 60 + PyTime.minute dt.

(** What uploading a secret adds to the trace: the container is looked
    for, created when reported missing, and the file is uploaded; the
    connection string is looked up before each step. *)
Definition secret_upload_events (args : Args) (cs : string) (present : scalar)
    (file_path blob_name : string) : list event :=
  ([Execute (connection_string_command args);
    Execute (container_exists_command (vm_secrets_container_name args) cs)]
   ++ (if truthy present then []
       else [Execute (connection_string_command args);
             Execute (container_create_command (vm_secrets_container_name args) cs)])
   ++ [Execute (connection_string_command args);
       Execute (blob_upload_command (vm_secrets_container_name args)
                  file_path blob_name cs);
       Warning "Secret '{:s}' uploaded to pool secrets container '{:s}' as '{:s}'"
         [file_path; vm_secrets_container_name args; blob_name]])%list.

(** What issuing a token adds to the trace once the token has been
    requested with expiry [text] at trace [requested]: the secrets
    directory is made when missing, the token file is opened and written,
    and only then uploaded. *)
Definition token_publication_events (args : Args) (w : world) (cs token text : string)
    (present : scalar) (requested : trace) : list event :=
  ((if negb (String.eqb (vm_secrets_directory args) "")
       && negb (path_exists w requested (vm_secrets_directory args))
    then [MakeDirs (vm_secrets_directory args)] else [])
   ++ [OpenFile (sas_file_path args) "w+";
       FileWrite (sas_file_path args) token;
       Warning "New SAS token for pool data container '{:s}' written to '{:s}'. SAS token expires on {:%Y-%m-%dT%H:%MZ}."
         [data_container_name args; sas_file_path args; text]]
   ++ secret_upload_events args cs present (sas_file_path args)
        (container_sas_filename (data_container_name args) args))%list.

(* ================================================================== *)
(** * Naming scheme: results *)
(* ================================================================== *)

Section Splitting.

Variable sep : ascii.

Lemma split_without_separator (s : string) :
  PyStr.contains sep s = false -> PyStr.split sep s = [s].
Proof.
  induction s as [|c s IH]; simpl; [reflexivity|].
  intros H. apply orb_false_elim in H as [Hc Hs].
  rewrite Ascii.eqb_sym, Hc, (IH Hs). reflexivity.
Qed.

Lemma split_at_first_separator (a b : string) :
  PyStr.contains sep a = false ->
  PyStr.split sep (a ++ String sep b) = a :: PyStr.split sep b.
Proof.
  induction a as [|c a IH]; simpl.
  - intros _. rewrite Ascii.eqb_refl. reflexivity.
  - intros H. apply orb_false_elim in H as [Hc Ha].
    rewrite Ascii.eqb_sym, Hc, (IH Ha). reflexivity.
Qed.

End Splitting.

Lemma digit_char_is_digit (d : N) :
  (d < 10)%N -> PyStr.is_digit (PyStr.digit_char d) = true
                /\ PyStr.digit_val (PyStr.digit_char d) = d.
Proof.
  intros H.
  assert (Hd : In d [0;1;2;3;4;5;6;7;8;9]%N).
  { simpl. lia. }
  simpl in Hd.
  repeat (destruct Hd as [<-|Hd]; [split; reflexivity|]). contradiction.
Qed.

Lemma is_digit_not_special (c : ascii) :
  PyStr.is_digit c = true ->
  PyStr.is_space c = false /\ Ascii.eqb c "-" = false /\ Ascii.eqb c "+" = false.
Proof.
  unfold PyStr.is_digit, PyStr.is_space. intros H.
  apply andb_true_iff in H as [H1 H2].
  apply N.leb_le in H1. apply N.leb_le in H2.
  repeat split.
  - destruct (N.leb_spec 9 (N_of_ascii c)), (N.leb_spec (N_of_ascii c) 13),
      (N.eqb_spec (N_of_ascii c) 32), (N.eqb_spec (N_of_ascii c) 133),
      (N.eqb_spec (N_of_ascii c) 160); try reflexivity; lia.
  - apply Ascii.eqb_neq. intros ->. simpl in *. lia.
  - apply Ascii.eqb_neq. intros ->. simpl in *. lia.
Qed.

(** What the scanner has read after the digits of [n]: the digits it had
    seen before, shifted, plus [n]. *)
Lemma digits_fuel_spec (fuel : nat) :
  forall n : N,
    Z.of_N n < 2 ^ Z.of_nat fuel ->
    let l := PyStr.digits_fuel (S fuel) n in
    Forall (fun c => PyStr.is_digit c = true) l
    /\ l <> []
    /\ fold_left PyStr.scan_step l (Some PyStr.Start) = Some (PyStr.AfterDigit n).
Proof.
  induction fuel as [|f IH]; intros n Hn.
  - assert (n = 0%N) by (simpl in Hn; lia). subst n. cbn.
    repeat split; [repeat constructor | discriminate].
  - cbv zeta. change (PyStr.digits_fuel (S (S f)) n)
      with (if (n <? 10)%N then [PyStr.digit_char n]
            else (PyStr.digits_fuel (S f) (n / 10)%N
                    ++ [PyStr.digit_char (n mod 10)%N])%list).
    destruct (n <? 10)%N eqn:Hlt.
    + apply N.ltb_lt in Hlt.
      destruct (digit_char_is_digit n Hlt) as [Hd Hv].
      repeat split; [repeat constructor; exact Hd | discriminate |].
      simpl. rewrite Hd, Hv. reflexivity.
    + apply N.ltb_ge in Hlt.
      assert (Hq : Z.of_N (n / 10) < 2 ^ Z.of_nat f).
      { rewrite Nat2Z.inj_succ, Z.pow_succ_r in Hn by lia.
        rewrite N2Z.inj_div. change (Z.of_N 10) with 10.
        apply Z.div_lt_upper_bound; lia. }
      destruct (IH _ Hq) as (Hall & Hne & Hscan).
      assert (Hm : (n mod 10 < 10)%N) by (apply N.mod_lt; lia).
      destruct (digit_char_is_digit _ Hm) as [Hd Hv].
      repeat split.
      * apply Forall_app; split; [exact Hall | repeat constructor; exact Hd].
      * intros E. apply app_eq_nil in E as [_ E]. discriminate.
      * rewrite fold_left_app, Hscan. cbn [fold_left PyStr.scan_step].
        rewrite Hd, Hv. do 2 f_equal. pose proof (N.div_mod n 10). lia.
Qed.

Lemma digits_spec (n : N) :
  Forall (fun c => PyStr.is_digit c = true) (PyStr.digits n)
  /\ PyStr.digits n <> []
  /\ PyStr.scan_digits (PyStr.digits n) = Some n.
Proof.
  assert (Hn : Z.of_N n < 2 ^ Z.of_nat (N.size_nat n)).
  { destruct n as [|p]; simpl; [lia|]. apply Zpower2_Psize. lia. }
  destruct (digits_fuel_spec _ n Hn) as (Ha & Hne & Hs).
  unfold PyStr.digits, PyStr.scan_digits. rewrite Hs. auto.
Qed.

Lemma lstrip_digit_first (l : list ascii) :
  match l with c :: _ => PyStr.is_digit c = true | [] => True end ->
  PyStr.lstrip l = l.
Proof.
  destruct l as [|c l]; simpl; [reflexivity|]. intros H.
  destruct (is_digit_not_special c H) as (-> & _). reflexivity.
Qed.

Lemma strip_digits (l : list ascii) :
  Forall (fun c => PyStr.is_digit c = true) l -> PyStr.strip l = l.
Proof.
  intros H. unfold PyStr.strip.
  rewrite (lstrip_digit_first l) by (destruct H; auto).
  rewrite lstrip_digit_first, rev_involutive; [reflexivity|].
  apply Forall_rev in H. destruct H; auto.
Qed.

Lemma contains_digits (c : ascii) (l : list ascii) :
  PyStr.is_digit c = false ->
  Forall (fun c => PyStr.is_digit c = true) l ->
  PyStr.contains c (string_of_list_ascii l) = false.
Proof.
  intros Hc. induction 1 as [|d l Hd _ IH]; simpl; [reflexivity|].
  rewrite IH, orb_false_r. apply Ascii.eqb_neq. intros ->. congruence.
Qed.

(** [int(str(n)) == n] for a non-negative [n]. *)
Lemma int_str_of_nonneg (i : Z) : 0 <= i -> PyStr.int (PyStr.str_of_Z i) = Ok i.
Proof.
  intros Hi. unfold PyStr.int, PyStr.str_of_Z.
  destruct (digits_spec (Z.to_N i)) as (Hall & Hne & Hscan).
  replace (match i with Zneg p => _ | _ => string_of_list_ascii (PyStr.digits (Z.to_N i)) end)
    with (string_of_list_ascii (PyStr.digits (Z.to_N i))) by (destruct i; [reflexivity..|lia]).
  rewrite list_ascii_of_string_of_list_ascii, (strip_digits _ Hall).
  destruct (PyStr.digits (Z.to_N i)) as [|c l] eqn:E; [contradiction|].
  assert (Hc : PyStr.is_digit c = true) by (inversion Hall; assumption).
  destruct (is_digit_not_special c Hc) as (_ & -> & ->).
  simpl. rewrite Hscan. f_equal. lia.
Qed.

Lemma str_of_nonneg_no_hyphen (i : Z) :
  0 <= i -> PyStr.contains "-" (PyStr.str_of_Z i) = false.
Proof.
  intros Hi. unfold PyStr.str_of_Z.
  destruct (digits_spec (Z.to_N i)) as (Hall & _).
  destruct i; try lia; apply contains_digits; auto.
Qed.

Example name_from_number_example : name_from_number 12 demo_args = "demo-12".
Proof. reflexivity. Qed.

Example number_from_name_example : number_from_name "demo-12" = Ok 12.
Proof. reflexivity. Qed.

Example number_from_name_no_prefix_check : number_from_name "other-3" = Ok 3.
Proof. reflexivity. Qed.

Example int_examples :
  PyStr.int " +1_000 " = Ok 1000 /\ PyStr.int "1__0" = Raise ValueError
  /\ PyStr.int "" = Raise ValueError /\ PyStr.int "-07" = Ok (-7).
Proof. repeat split; reflexivity. Qed.

(** [int] does not skip the separators 28 to 31, and it does skip the
    no-break space and NEL. *)
Example int_blanks :
  PyStr.int (String (ascii_of_nat 28) "5") = Raise ValueError
  /\ PyStr.int (String (ascii_of_nat 31) "5") = Raise ValueError
  /\ PyStr.int (String (ascii_of_nat 160) "7") = Ok 7
  /\ PyStr.int ("7" ++ String (ascii_of_nat 133) "") = Ok 7
  /\ PyStr.int (String (ascii_of_nat 11) "7 ") = Ok 7
  /\ number_from_name ("demo-" ++ String (ascii_of_nat 28) "5") = Raise ValueError
  /\ number_from_name ("demo-" ++ String (ascii_of_nat 160) "7") = Ok 7.
Proof. repeat split; reflexivity. Qed.

(** C1 (as amended): for every pool name that contains no hyphen and every
    index [i >= 0], the VM name built by [name_from_number] is read back by
    [number_from_name] as [i]. *)
Theorem number_from_name_round_trip (args : Args) (i : Z) :
  PyStr.contains "-" (resource_group args) = false ->
  0 <= i ->
  number_from_name (name_from_number i args) = Ok i.
Proof.
  intros Hrg Hi. unfold number_from_name, name_from_number.
  change ("-" ++ PyStr.str_of_Z i) with (String "-" (PyStr.str_of_Z i)).
  rewrite (split_at_first_separator "-" _ _ Hrg).
  rewrite split_without_separator by (apply str_of_nonneg_no_hyphen; exact Hi).
  apply int_str_of_nonneg; exact Hi.
Qed.

Lemma number_from_name_round_trip_witness :
  number_from_name (name_from_number 7 demo_args) = Ok 7.
Proof.
  apply (number_from_name_round_trip demo_args 7); [reflexivity | lia].
Defined.

(** C1 (as stated) fails for a pool name with a hyphen: the name built for
    index 0 of pool [my-pool] splits into three parts and cannot be read
    back. *)
Lemma number_from_name_hyphenated_pool :
  number_from_name (name_from_number 0 (default_args "my-pool")) = Raise ValueError
  /\ number_from_name (name_from_number 0 (default_args "my-pool")) <> Ok 0.
Proof. split; [reflexivity | discriminate]. Qed.

(** The restriction is needed: [split] yields one part more than there
    are separators, so any hyphen in the pool name leaves more than the
    two parts that [number_from_name] unpacks. *)
Lemma split_length (sep : ascii) (s : string) :
  length (PyStr.split sep s) = S (PyStr.occurrences sep s).
Proof.
  induction s as [|c s IH]; simpl; [reflexivity|].
  destruct (Ascii.eqb c sep); simpl; [rewrite IH; reflexivity|].
  destruct (PyStr.split sep s) as [|w ws]; simpl in *; [discriminate | exact IH].
Qed.

Lemma occurrences_app (c : ascii) (a b : string) :
  PyStr.occurrences c (a ++ b) = (PyStr.occurrences c a + PyStr.occurrences c b)%nat.
Proof.
  induction a as [|x a IH]; simpl; [reflexivity|].
  destruct (Ascii.eqb x c); rewrite IH; reflexivity.
Qed.

Lemma contains_occurrences (c : ascii) (s : string) :
  PyStr.contains c s = true -> (1 <= PyStr.occurrences c s)%nat.
Proof.
  induction s as [|x s IH]; simpl; [discriminate|].
  rewrite Ascii.eqb_sym. destruct (Ascii.eqb x c); simpl; [lia | exact IH].
Qed.

Lemma number_from_name_hyphen_in_pool_name (args : Args) (i : Z) :
  PyStr.contains "-" (resource_group args) = true ->
  number_from_name (name_from_number i args) = Raise ValueError.
Proof.
  intros H. apply contains_occurrences in H.
  unfold number_from_name, name_from_number.
  pose proof (split_length "-" (resource_group args ++ "-" ++ PyStr.str_of_Z i)) as L.
  rewrite occurrences_app in L.
  change ("-" ++ PyStr.str_of_Z i) with (String "-" (PyStr.str_of_Z i)) in *.
  cbn [PyStr.occurrences] in L. rewrite Ascii.eqb_refl in L.
  destruct (PyStr.split "-" (resource_group args ++ String "-" (PyStr.str_of_Z i)))
    as [|a [|b [|c r]]]; simpl in L; try lia; reflexivity.
Qed.

(* ================================================================== *)
(** * Running commands: equations for the building blocks *)
(* ================================================================== *)

Lemma executed_app (t1 t2 : trace) : executed (t1 ++ t2)%list = (executed t1 ++ executed t2)%list.
Proof.
  induction t1 as [|e t1 IH]; simpl; [reflexivity|].
  destruct e; simpl; rewrite IH; reflexivity.
Qed.

Lemma called_app (t1 t2 : trace) : called (t1 ++ t2)%list = (called t1 ++ called t2)%list.
Proof.
  induction t1 as [|e t1 IH]; simpl; [reflexivity|].
  destruct e; simpl; rewrite IH; reflexivity.
Qed.

Lemma side_effects_app (t1 t2 : trace) :
  side_effects (t1 ++ t2)%list = (side_effects t1 ++ side_effects t2)%list.
Proof. apply filter_app. Qed.

Lemma bind_ok {A B} (m : M A) (f : A -> M B) (w : world) (t t1 : trace) (a : A) :
  m w t = (Ok a, t1) -> bind m f w t = f a w t1.
Proof. intros H. unfold bind. rewrite H. reflexivity. Qed.

Lemma bind_raise {A B} (m : M A) (f : A -> M B) (w : world) (t t1 : trace) (e : exn) :
  m w t = (Raise e, t1) -> bind m f w t = (Raise e, t1).
Proof. intros H. unfold bind. rewrite H. reflexivity. Qed.

Lemma get_vms_run (args : Args) (w : world) (t : trace) :
  get_vms args w t
  = (az_execute w t (vm_list_command args), (t ++ [Execute (vm_list_command args)])%list).
Proof. reflexivity. Qed.

Lemma print_vm_table_run (vms : list vm) (args : Args) (w : world) (t : trace) :
  print_vm_table (RVms vms) args w t
  = (Ok tt, (t ++ [PrintLine (table_title args);
                   PrintTable table_headers (table_rows vms)])%list).
Proof.
  unfold print_vm_table, bind, emit, lift, table_title. simpl.
  rewrite <- app_assoc. reflexivity.
Qed.

Lemma vm_run_script_run (v : vm) (script : string) (args : Args) (detach : bool)
    (w : world) (t : trace) :
  let c := ssh_command v (if detach then "screen -d -m " ++ script else script) args in
  vm_run_script v script args detach w t
  = (Ok (subprocess_call w t c =? 0), (t ++ [Subprocess c])%list).
Proof. reflexivity. Qed.

(* ================================================================== *)
(** * Remote executor: results *)
(* ================================================================== *)

Lemma cmd_eqb_refl (c : list string) : cmd_eqb c c = true.
Proof.
  induction c as [|s c IH]; simpl; [reflexivity|].
  rewrite String.eqb_refl, IH. reflexivity.
Qed.

Lemma vm_upload_dir_run (v : vm) (source_dir dest_dir : string) (args : Args)
    (w : world) (t : trace) :
  vm_upload_dir v source_dir dest_dir args w t
  = (Ok (subprocess_call w (t ++ [Subprocess (ssh_command v ("rm -r " ++ dest_dir) args)])%list
           (scp_command v source_dir dest_dir args) =? 0),
     (t ++ [Subprocess (ssh_command v ("rm -r " ++ dest_dir) args);
            Subprocess (scp_command v source_dir dest_dir args)])%list).
Proof.
  unfold vm_upload_dir, bind. rewrite vm_run_script_run.
  unfold call, ret. cbn [fst snd]. rewrite <- app_assoc. reflexivity.
Qed.

(** C4: [vm_upload_dir] runs exactly two programs, first the remote
    [rm -r] of the destination and then the recursive [scp], whatever the
    transport answers, and reports the success of the copy; against the fake
    host, whose destination directory may hold the files of an earlier
    deployment, the call succeeds and leaves exactly the files of the
    source in the destination. *)
Theorem vm_upload_dir_removes_then_copies (v : vm) (source_dir dest_dir : string)
    (args : Args) :
  (forall (w : world) (t : trace),
     let rm := ssh_command v ("rm -r " ++ dest_dir) args in
     let cp := scp_command v source_dir dest_dir args in
     vm_upload_dir v source_dir dest_dir args w t
     = (Ok (subprocess_call w (t ++ [Subprocess rm])%list cp =? 0),
        (t ++ [Subprocess rm; Subprocess cp])%list))
  /\ (forall (source_files : list string) (before : option (list string)) (t : trace),
        let w := fake_transport v source_dir dest_dir args source_files before in
        let run := vm_upload_dir v source_dir dest_dir args w t in
        fst run = Ok true
        /\ remote_after v source_dir dest_dir args source_files before (snd run)
           = Some source_files).
Proof.
  split; [intros w t; apply vm_upload_dir_run|].
  intros source_files before t w run. subst run. rewrite vm_upload_dir_run.
  cbn [fst snd].
  assert (Hne : cmd_eqb (scp_command v source_dir dest_dir args)
                  (ssh_command v ("rm -r " ++ dest_dir) args) = false) by reflexivity.
  split.
  - unfold w, fake_transport. cbn [subprocess_call]. rewrite Hne. reflexivity.
  - unfold remote_after. rewrite fold_left_app. cbn [fold_left remote_step].
    rewrite cmd_eqb_refl, Hne, cmd_eqb_refl. reflexivity.
Qed.

(* ================================================================== *)
(** * Power state and pool deletion: results *)
(* ================================================================== *)

(** C6: the per-VM step of start-all issues no control-plane call for a VM
    whose power state is already running, and the per-VM step of stop-all
    issues none for a VM that is already deallocated; each only logs that
    the VM is skipped. *)
Theorem vm_in_target_power_state_is_skipped (up down : vm) (args : Args)
    (w : world) (t : trace) :
  powerState up = "VM running" ->
  powerState down = "VM deallocated" ->
  start_vm up args w t
    = (Ok RNone, (t ++ [Warning "VM '{0}' already running." [name up]])%list)
  /\ executed (snd (start_vm up args w t)) = executed t
  /\ side_effects (snd (start_vm up args w t)) = side_effects t
  /\ shutdown_vm down args w t
    = (Ok RNone, (t ++ [Warning "VM '{0}' already deallocated." [name down]])%list)
  /\ executed (snd (shutdown_vm down args w t)) = executed t
  /\ side_effects (snd (shutdown_vm down args w t)) = side_effects t.
Proof.
  intros Hup Hdown.
  assert (Hs : start_vm up args w t
    = (Ok RNone, (t ++ [Warning "VM '{0}' already running." [name up]])%list)).
  { unfold start_vm. rewrite Hup. reflexivity. }
  assert (Hd : shutdown_vm down args w t
    = (Ok RNone, (t ++ [Warning "VM '{0}' already deallocated." [name down]])%list)).
  { unfold shutdown_vm. rewrite Hdown. reflexivity. }
  rewrite Hs, Hd. cbn [snd].
  rewrite !executed_app, !side_effects_app. simpl. rewrite !app_nil_r.
  repeat split.
Qed.

Lemma vm_in_target_power_state_is_skipped_witness :
  start_vm (sample_vm "demo-1" "VM running") demo_args
      (scripted_world demo_plane all_succeed "n") []
    = (Ok RNone, [Warning "VM '{0}' already running." ["demo-1"]])
  /\ shutdown_vm (sample_vm "demo-0" "VM deallocated") demo_args
      (scripted_world demo_plane all_succeed "n") []
    = (Ok RNone, [Warning "VM '{0}' already deallocated." ["demo-0"]]).
Proof.
  destruct (vm_in_target_power_state_is_skipped
              (sample_vm "demo-1" "VM running") (sample_vm "demo-0" "VM deallocated")
              demo_args (scripted_world demo_plane all_succeed "n") []
              eq_refl eq_refl) as (Hs & _ & _ & Hd & _).
  split; [exact Hs | exact Hd].
Defined.

(** C8: on a pool with no VM, delete-pool lists the VMs, prints the empty
    table, logs that the pool is empty and returns; it asks nothing and
    deletes nothing, neither a VM, NIC, public address or OS-disk blob nor
    the OS-disk container. *)
Theorem delete_pool_on_empty_pool (args : Args) (w : world) (t : trace) :
  az_execute w t (vm_list_command args) = Ok (RVms []) ->
  delete_pool args w t
    = (Ok None,
       (t ++ [Execute (vm_list_command args); PrintLine (table_title args);
              PrintTable table_headers []; Warning "No VMs in pool." []])%list)
  /\ executed (snd (delete_pool args w t))
     = (executed t ++ [vm_list_command args])%list
  /\ side_effects (snd (delete_pool args w t)) = side_effects t.
Proof.
  intros Hlist.
  assert (Hrun : delete_pool args w t
    = (Ok None,
       (t ++ [Execute (vm_list_command args); PrintLine (table_title args);
              PrintTable table_headers []; Warning "No VMs in pool." []])%list)).
  { unfold delete_pool.
    rewrite (bind_ok _ _ _ _ _ _ (eq_trans (get_vms_run args w t) (f_equal2 pair Hlist eq_refl))).
    rewrite (bind_ok _ _ _ _ _ _ (print_vm_table_run [] args w _)).
    unfold bind, lift, warning, emit, ret. simpl.
    rewrite <- !app_assoc. reflexivity. }
  rewrite Hrun. cbn [snd].
  rewrite executed_app, side_effects_app. simpl. rewrite app_nil_r.
  repeat split.
Qed.

Lemma delete_pool_on_empty_pool_witness :
  delete_pool demo_args (scripted_world empty_plane all_succeed "y") []
  = (Ok None,
     [Execute (vm_list_command demo_args); PrintLine (table_title demo_args);
      PrintTable table_headers []; Warning "No VMs in pool." []]).
Proof.
  exact (proj1 (delete_pool_on_empty_pool demo_args
                  (scripted_world empty_plane all_succeed "y") [] eq_refl)).
Defined.

(** C9: when the pool has VMs and the operator answers the confirmation
    prompt with anything other than [y], delete-pool logs the cancellation
    and returns normally (exit status 0); beyond listing the VMs and asking,
    nothing is executed: no VM, NIC, public address, blob or container is
    deleted. *)
Theorem delete_pool_declined (args : Args) (w : world) (t : trace)
    (vms : list vm) (resp : string) :
  vms <> [] ->
  az_execute w t (vm_list_command args) = Ok (RVms vms) ->
  get_input w (t ++ [Execute (vm_list_command args); PrintLine (table_title args);
                     PrintTable table_headers (table_rows vms)])%list
    (delete_prompt (length vms)) = resp ->
  resp <> "y" ->
  delete_pool args w t
    = (Ok None,
       (t ++ [Execute (vm_list_command args); PrintLine (table_title args);
              PrintTable table_headers (table_rows vms);
              Input (delete_prompt (length vms));
              Warning "Pool delete cancelled." []])%list)
  /\ executed (snd (delete_pool args w t))
     = (executed t ++ [vm_list_command args])%list
  /\ side_effects (snd (delete_pool args w t)) = side_effects t
  /\ exit_status (fst (delete_pool args w t)) = CLEAN_EXIT.
Proof.
  intros Hne Hlist Hin Hresp.
  assert (Hrun : delete_pool args w t
    = (Ok None,
       (t ++ [Execute (vm_list_command args); PrintLine (table_title args);
              PrintTable table_headers (table_rows vms);
              Input (delete_prompt (length vms));
              Warning "Pool delete cancelled." []])%list)).
  { unfold delete_pool.
    rewrite (bind_ok _ _ _ _ _ _ (eq_trans (get_vms_run args w t) (f_equal2 pair Hlist eq_refl))).
    rewrite (bind_ok _ _ _ _ _ _ (print_vm_table_run vms args w _)).
    rewrite <- app_assoc. cbn [app].
    unfold bind at 1. unfold lift. cbn [py_len].
    destruct vms as [|v0 vms0]; [contradiction|].
    replace (Z.of_nat (length (v0 :: vms0)) =? 0) with false
      by (symmetry; apply Z.eqb_neq; simpl; lia).
    unfold bind, input. fold (delete_prompt (length (v0 :: vms0))).
    rewrite Hin.
    apply String.eqb_neq in Hresp. rewrite Hresp.
    unfold warning, emit, ret.
    rewrite <- !app_assoc. reflexivity. }
  rewrite Hrun. cbn [fst snd].
  rewrite executed_app, side_effects_app. simpl. rewrite app_nil_r.
  repeat split.
Qed.

Lemma delete_pool_declined_witness :
  delete_pool demo_args (scripted_world demo_plane all_succeed "yes") []
  = (Ok None,
     [Execute (vm_list_command demo_args); PrintLine (table_title demo_args);
      PrintTable table_headers (table_rows demo_vms);
      Input (delete_prompt 2); Warning "Pool delete cancelled." []]).
Proof.
  refine (proj1 (delete_pool_declined demo_args
                   (scripted_world demo_plane all_succeed "yes") [] demo_vms "yes"
                   _ eq_refl eq_refl _)); discriminate.
Defined.

(* ================================================================== *)
(** * Pool creation without a resource group *)
(* ================================================================== *)

(** When the resource group is absent and [--force] with [--location] was
    not given, [create_pool] logs the problem and calls [sys.exit()]: the
    only request made before is the read-only [group show], and the exit
    status is that of [sys.exit()] without an argument. *)
Lemma create_pool_absent_group (args : Args) (w : world) (t : trace) :
  az_execute w t (group_show_command args) = Ok RNone ->
  force args && match location args with Some _ => true | None => false end = false ->
  create_pool args w t
    = (Raise (SystemExit None),
       (t ++ [Execute (group_show_command args);
              Warning "Resource group '{:s}' does not exist. Use --force option with --location=<azure_region> to automatically create it."
                [resource_group args]])%list)
  /\ side_effects (snd (create_pool args w t)) = side_effects t
  /\ exit_status (fst (create_pool args w t)) = 0.
Proof.
  intros Habs Hforce.
  assert (Hrun : create_pool args w t
    = (Raise (SystemExit None),
       (t ++ [Execute (group_show_command args);
              Warning "Resource group '{:s}' does not exist. Use --force option with --location=<azure_region> to automatically create it."
                [resource_group args]])%list)).
  { unfold create_pool.
    assert (Hex : resource_group_exists args w t
                  = (Ok false, (t ++ [Execute (group_show_command args)])%list)).
    { unfold resource_group_exists, bind, execute, ret. cbn [app].
      fold (group_show_command args). rewrite Habs. reflexivity. }
    rewrite (bind_ok _ _ _ _ _ _ Hex). cbn [negb]. rewrite Hforce.
    apply bind_raise. unfold bind, warning, emit, raise.
    rewrite <- app_assoc. reflexivity. }
  rewrite Hrun. cbn [fst snd exit_status].
  rewrite side_effects_app. simpl. rewrite app_nil_r. repeat split.
Qed.

(** C10 (the code departs from the claim): [create-pool] for pool [demo]
    without [--force], on a control plane where the resource group does not
    exist.  The failure is logged before any side effect and the run ends
    at once, but with exit status 0, which is [CLEAN_EXIT] and not
    [ERROR_EXIT]. *)
Theorem create_pool_absent_group_exits_with_status_zero :
  let run := create_pool demo_args (scripted_world absent_plane all_succeed "n") [] in
  fst run = Raise (SystemExit None)
  /\ snd run
     = [Execute ["group"; "show"; "--name=demo"];
        Warning "Resource group '{:s}' does not exist. Use --force option with --location=<azure_region> to automatically create it."
          ["demo"]]
  /\ side_effects (snd run) = []
  /\ exit_status (fst run) = CLEAN_EXIT
  /\ exit_status (fst run) <> ERROR_EXIT.
Proof.
  cbv zeta.
  destruct (create_pool_absent_group demo_args
              (scripted_world absent_plane all_succeed "n") [] eq_refl eq_refl)
    as (Hrun & Hside & Hexit).
  rewrite Hrun in *. cbn [fst snd] in *.
  repeat split; try assumption. discriminate.
Qed.

(* ================================================================== *)
(** * Next VM name: what the code computes *)
(* ================================================================== *)

Lemma next_vm_name_empty (args : Args) :
  next_vm_name [] args = Ok (name_from_number 1 args).
Proof. reflexivity. Qed.

Lemma next_vm_name_unbound_helper (v : vm) (vms : list vm) (args : Args) :
  next_vm_name (v :: vms) args = Raise (NameError "vm_number_from_name").
Proof. reflexivity. Qed.

(** C2 (the code departs from the claim): for a pool without VMs the next
    name carries index 1, not 0; for any pool with VMs the call raises
    [NameError], because the helper it names is not defined; and with
    [number_from_name] bound in its place, the indices [{0,1,2}] give 4
    rather than 3 and [{0,1,4}] give 3 rather than 2, while [{0,1,3}] give
    2 as claimed. *)
Theorem next_vm_name_is_not_smallest_free_index :
  next_vm_name [] demo_args = Ok "demo-1"
  /\ next_vm_name [sample_vm "demo-0" "VM running"] demo_args
     = Raise (NameError "vm_number_from_name")
  /\ next_vm_name_with (Some number_from_name)
       (map (fun n => sample_vm n "VM running") ["demo-0"; "demo-1"; "demo-2"]) demo_args
     = Ok "demo-4"
  /\ next_vm_name_with (Some number_from_name)
       (map (fun n => sample_vm n "VM running") ["demo-0"; "demo-1"; "demo-4"]) demo_args
     = Ok "demo-3"
  /\ next_vm_name_with (Some number_from_name)
       (map (fun n => sample_vm n "VM running") ["demo-0"; "demo-1"; "demo-3"]) demo_args
     = Ok "demo-2".
Proof. repeat split; reflexivity. Qed.

(* ================================================================== *)
(** * Fan-out over the pool: results *)
(* ================================================================== *)

Lemma bind_lift_ok {A B} (a : A) (f : A -> M B) (w : world) (t : trace) :
  bind (lift (Ok a)) f w t = f a w t.
Proof. reflexivity. Qed.

Lemma bind_warning {B} (template : string) (fields : list string) (f : unit -> M B)
    (w : world) (t : trace) :
  bind (warning template fields) f w t = f tt w (t ++ [Warning template fields])%list.
Proof. reflexivity. Qed.

Lemma warning_run (template : string) (fields : list string) (w : world) (t : trace) :
  warning template fields w t = (Ok tt, (t ++ [Warning template fields])%list).
Proof. reflexivity. Qed.

Lemma called_warning (t : trace) (template : string) (fields : list string) :
  called (t ++ [Warning template fields]) = called t.
Proof. rewrite called_app. apply app_nil_r. Qed.

Lemma executed_warning (t : trace) (template : string) (fields : list string) :
  executed (t ++ [Warning template fields]) = executed t.
Proof. rewrite executed_app. apply app_nil_r. Qed.

Lemma populated_length (vms : list vm) :
  vms <> [] -> (Z.of_nat (length vms) =? 0) = false.
Proof.
  intros H. destruct vms; [contradiction|]. apply Z.eqb_neq. simpl. lia.
Qed.

(** A comprehension over steps that always return yields one entry per
    element and runs every element's programs, in order. *)
Lemma for_each_remote {B} (f : vm -> M B) (cmds : vm -> list (list string)) :
  remote_step_of f cmds ->
  forall (l : list vm) (w : world) (t : trace),
    exists (ys : list B) (t' : trace),
      for_each f l w t = (Ok ys, t')
      /\ length ys = length l
      /\ called t' = (called t ++ flat_map cmds l)%list
      /\ executed t' = executed t.
Proof.
  intros Hf l. induction l as [|v l IH]; intros w t.
  - exists [], t. cbn. rewrite app_nil_r. auto.
  - destruct (Hf v w t) as (y & t1 & Hy & Hc1 & He1).
    destruct (IH w t1) as (ys & t2 & Hys & Hlen & Hc2 & He2).
    exists (y :: ys), t2. cbn [for_each flat_map length].
    rewrite (bind_ok _ _ _ _ _ _ Hy), (bind_ok _ _ _ _ _ _ Hys).
    rewrite Hc2, Hc1, He2, He1, Hlen, app_assoc. auto.
Qed.

Ltac split_exit_status :=
  repeat match goal with
         | |- context [if (subprocess_call ?w ?t ?c =? 0) then _ else _] =>
             destruct (subprocess_call w t c =? 0)
         end.

Ltac read_trace :=
  rewrite ?called_app, ?executed_app; cbn [called executed app];
  rewrite <- ?app_assoc, ?app_nil_r; cbn [app].

Lemma kill_task_vm_step (args : Args) :
  remote_step_of (fun v => kill_task_vm v args) (kill_commands args).
Proof.
  intros v w t. unfold kill_task_vm, bind. rewrite vm_run_script_run.
  unfold warning, emit. split_exit_status;
    (do 2 eexists; split; [reflexivity|]; read_trace; auto).
Qed.

Lemma start_task_vm_step (args : Args) :
  remote_step_of (fun v => start_task_vm v args) (start_task_commands args).
Proof.
  intros v w t. unfold start_task_vm, vm_make_exec, bind.
  rewrite !vm_run_script_run. unfold warning, emit. split_exit_status;
    (do 2 eexists; split; [reflexivity|]; read_trace; auto).
Qed.

Lemma deploy_task_vm_step (args : Args) (pool_dir : string) :
  pool_directory args = Some pool_dir ->
  remote_step_of (fun v => deploy_task_vm v args) (deploy_commands pool_dir args).
Proof.
  intros Hdir v w t. unfold deploy_task_vm, pool_subdirectory. rewrite Hdir.
  rewrite bind_lift_ok, bind_warning. unfold bind. rewrite vm_upload_dir_run.
  unfold warning, emit. split_exit_status;
    (do 2 eexists; split; [reflexivity|]; read_trace; auto).
Qed.

Lemma setup_vm_step (args : Args) (pool_dir : string) :
  pool_directory args = Some pool_dir ->
  remote_step_of (fun v => setup_vm v args) (setup_commands pool_dir args).
Proof.
  intros Hdir v w t. unfold setup_vm, pool_subdirectory, setup_commands. rewrite Hdir.
  rewrite bind_lift_ok, bind_warning. unfold vm_make_exec, bind.
  rewrite vm_upload_dir_run. unfold warning, emit, ret.
  split_exit_status; rewrite !vm_run_script_run; destruct (no_wait args);
    cbn [negb]; split_exit_status;
    (do 2 eexists; split; [reflexivity|]; read_trace; auto).
Qed.

Section PopulatedPool.

Variables (args : Args) (w : world) (vms : list vm).

(** The pool has at least one VM and the control plane lists the same VMs
    every time it is asked. *)
Hypothesis populated : vms <> [].
Hypothesis listing : forall t : trace, az_execute w t (vm_list_command args) = Ok (RVms vms).

Lemma get_vms_listing (t : trace) :
  get_vms args w t = (Ok (RVms vms), (t ++ [Execute (vm_list_command args)])%list).
Proof. rewrite get_vms_run, listing. reflexivity. Qed.

Lemma kill_task_run (t : trace) :
  exists t' : trace,
    kill_task args w t = (Ok tt, t')
    /\ called t' = (called t ++ flat_map (kill_commands args) vms)%list
    /\ executed t' = (executed t ++ [vm_list_command args])%list.
Proof.
  unfold kill_task. rewrite (bind_ok _ _ _ _ _ _ (get_vms_listing t)).
  cbn [py_len]. rewrite bind_lift_ok, (populated_length _ populated), bind_warning.
  cbn [iter_vms]. rewrite bind_lift_ok.
  destruct (for_each_remote _ _ (kill_task_vm_step args) vms w
              ((t ++ [Execute (vm_list_command args)]) ++
               [Warning "{:%Hh%Mm%Ss}: Killing task on pool of {:d} VMs for Resource Group '{:s}'."
                  [PyStr.str_of_Z (Z.of_nat (length vms)); resource_group args]])%list)
    as (ys & t1 & Hrun & _ & Hc & He).
  unfold kill_fanout. rewrite (bind_ok _ _ _ _ _ _ Hrun), warning_run.
  eexists; split; [reflexivity|].
  rewrite called_warning, executed_warning, Hc, He.
  rewrite called_warning, executed_warning, called_app, executed_app.
  cbn [called executed]. rewrite app_nil_r. auto.
Qed.

Lemma start_task_run (t : trace) :
  exists t' : trace,
    start_task args w t = (Ok tt, t')
    /\ called t' = (called t ++ flat_map (start_task_commands args) vms)%list
    /\ executed t' = (executed t ++ [vm_list_command args])%list.
Proof.
  unfold start_task. rewrite (bind_ok _ _ _ _ _ _ (get_vms_listing t)).
  cbn [py_len]. rewrite bind_lift_ok, (populated_length _ populated), bind_warning.
  cbn [iter_vms]. rewrite bind_lift_ok.
  destruct (for_each_remote _ _ (start_task_vm_step args) vms w
              ((t ++ [Execute (vm_list_command args)]) ++
               [Warning "{:%Hh%Mm%Ss}: Starting task on pool of {:d} VMs for Resource Group '{:s}'."
                  [PyStr.str_of_Z (Z.of_nat (length vms)); resource_group args]])%list)
    as (ys & t1 & Hrun & _ & Hc & He).
  unfold start_task_fanout. rewrite (bind_ok _ _ _ _ _ _ Hrun), warning_run.
  eexists; split; [reflexivity|].
  rewrite called_warning, executed_warning, Hc, He.
  rewrite called_warning, executed_warning, called_app, executed_app.
  cbn [called executed]. rewrite app_nil_r. auto.
Qed.

Variable pool_dir : string.
Hypothesis directory : pool_directory args = Some pool_dir.

Lemma setup_pool_run (t : trace) :
  exists t' : trace,
    setup_pool args w t = (Ok tt, t')
    /\ called t' = (called t ++ flat_map (setup_commands pool_dir args) vms)%list
    /\ executed t' = (executed t ++ [vm_list_command args])%list.
Proof.
  unfold setup_pool. rewrite (bind_ok _ _ _ _ _ _ (get_vms_listing t)).
  cbn [py_len]. rewrite bind_lift_ok, (populated_length _ populated).
  unfold setup_fanout.
  destruct (no_wait args) eqn:Hnw; rewrite bind_warning; cbn [iter_vms];
    rewrite bind_lift_ok;
    match goal with
    | |- context [bind (for_each ?f vms) _ w ?t0] =>
        destruct (for_each_remote _ _ (setup_vm_step args pool_dir directory) vms w t0)
          as (ys & t1 & Hrun & _ & Hc & He)
    end;
    rewrite (bind_ok _ _ _ _ _ _ Hrun), warning_run;
    (eexists; split; [reflexivity|]);
    rewrite called_warning, executed_warning, Hc, He;
    rewrite called_warning, executed_warning, called_app, executed_app;
    cbn [called executed]; rewrite app_nil_r; auto.
Qed.

Lemma deploy_task_run (t : trace) :
  exists t' : trace,
    deploy_task args w t = (Ok tt, t')
    /\ called t'
       = (called t ++ flat_map (kill_commands args) vms
            ++ flat_map (deploy_commands pool_dir args) vms)%list
    /\ executed t' = (executed t ++ [vm_list_command args; vm_list_command args])%list.
Proof.
  unfold deploy_task. rewrite (bind_ok _ _ _ _ _ _ (get_vms_listing t)).
  cbn [py_len]. rewrite bind_lift_ok, (populated_length _ populated).
  destruct (kill_task_run (t ++ [Execute (vm_list_command args)])%list)
    as (t1 & Hkill & Hc1 & He1).
  rewrite (bind_ok _ _ _ _ _ _ Hkill), bind_warning.
  cbn [iter_vms]. rewrite bind_lift_ok. unfold deploy_fanout.
  match goal with
  | |- context [bind (for_each ?f vms) _ w ?t0] =>
      destruct (for_each_remote _ _ (deploy_task_vm_step args pool_dir directory) vms w t0)
        as (ys & t2 & Hrun & _ & Hc2 & He2)
  end.
  rewrite (bind_ok _ _ _ _ _ _ Hrun), warning_run.
  eexists; split; [reflexivity|].
  rewrite called_warning, executed_warning, Hc2, He2.
  rewrite called_warning, executed_warning, Hc1, He1, called_app, executed_app.
  cbn [called executed]. rewrite app_nil_r, <- !app_assoc. auto.
Qed.

End PopulatedPool.

(** C3 (as amended): in the fan-outs that work through the remote shell
    (setup-pool, deploy-task, start-task, kill-task) a failing step is a
    program that exits with a non-zero status, and the pass goes on: for
    every world, so whichever VMs fail, the comprehension returns one entry
    per VM and the programs of every VM are run, in list order. *)
Theorem remote_fanout_attempts_every_vm (args : Args) (w : world) (vms : list vm)
    (pool_dir : string) (t : trace) :
  vms <> [] ->
  (forall t0 : trace, az_execute w t0 (vm_list_command args) = Ok (RVms vms)) ->
  pool_directory args = Some pool_dir ->
  (exists r t',
     setup_fanout vms args w t = (Ok r, t') /\ length r = length vms
     /\ called t' = (called t ++ flat_map (setup_commands pool_dir args) vms)%list)
  /\ (exists r t',
        deploy_fanout vms args w t = (Ok r, t') /\ length r = length vms
        /\ called t' = (called t ++ flat_map (deploy_commands pool_dir args) vms)%list)
  /\ (exists r t',
        start_task_fanout vms args w t = (Ok r, t') /\ length r = length vms
        /\ called t' = (called t ++ flat_map (start_task_commands args) vms)%list)
  /\ (exists r t',
        kill_fanout vms args w t = (Ok r, t') /\ length r = length vms
        /\ called t' = (called t ++ flat_map (kill_commands args) vms)%list)
  /\ (exists t',
        setup_pool args w t = (Ok tt, t')
        /\ called t' = (called t ++ flat_map (setup_commands pool_dir args) vms)%list)
  /\ (exists t',
        deploy_task args w t = (Ok tt, t')
        /\ called t' = (called t ++ flat_map (kill_commands args) vms
                          ++ flat_map (deploy_commands pool_dir args) vms)%list)
  /\ (exists t',
        start_task args w t = (Ok tt, t')
        /\ called t' = (called t ++ flat_map (start_task_commands args) vms)%list)
  /\ (exists t',
        kill_task args w t = (Ok tt, t')
        /\ called t' = (called t ++ flat_map (kill_commands args) vms)%list).
Proof.
  intros Hne Hlist Hdir.
  repeat match goal with |- _ /\ _ => split end.
  - destruct (for_each_remote _ _ (setup_vm_step args pool_dir Hdir) vms w t)
      as (r & t' & H1 & H2 & H3 & _). exists r, t'. auto.
  - destruct (for_each_remote _ _ (deploy_task_vm_step args pool_dir Hdir) vms w t)
      as (r & t' & H1 & H2 & H3 & _). exists r, t'. auto.
  - destruct (for_each_remote _ _ (start_task_vm_step args) vms w t)
      as (r & t' & H1 & H2 & H3 & _). exists r, t'. auto.
  - destruct (for_each_remote _ _ (kill_task_vm_step args) vms w t)
      as (r & t' & H1 & H2 & H3 & _). exists r, t'. auto.
  - destruct (setup_pool_run args w vms Hne Hlist pool_dir Hdir t) as (t' & H1 & H2 & _).
    exists t'. auto.
  - destruct (deploy_task_run args w vms Hne Hlist pool_dir Hdir t) as (t' & H1 & H2 & _).
    exists t'. auto.
  - destruct (start_task_run args w vms Hne Hlist t) as (t' & H1 & H2 & _).
    exists t'. auto.
  - destruct (kill_task_run args w vms Hne Hlist t) as (t' & H1 & H2 & _).
    exists t'. auto.
Qed.

(** With a pool directory given, on a populated pool whose listing is
    stable, deploy-task first runs [killall screen] on every VM and only
    then, for every VM, removes the remote task directory and copies the
    local one. *)
Theorem deploy_task_kills_then_uploads (args : Args) (w : world) (vms : list vm)
    (pool_dir : string) (t : trace) :
  vms <> [] ->
  (forall t0 : trace, az_execute w t0 (vm_list_command args) = Ok (RVms vms)) ->
  pool_directory args = Some pool_dir ->
  exists t' : trace,
    deploy_task args w t = (Ok tt, t')
    /\ called t'
       = (called t
            ++ map (fun v => ssh_command v "killall screen" args) vms
            ++ flat_map (fun v =>
                 [ssh_command v ("rm -r " ++ task_directory args) args;
                  scp_command v (PyStr.path_join pool_dir (task_directory args))
                    (task_directory args) args]) vms)%list
    /\ executed t' = (executed t ++ [vm_list_command args; vm_list_command args])%list.
Proof.
  intros Hne Hlist Hdir.
  destruct (deploy_task_run args w vms Hne Hlist pool_dir Hdir t) as (t' & H1 & H2 & H3).
  exists t'. repeat split; [exact H1 | | exact H3].
  rewrite H2.
  replace (flat_map (kill_commands args) vms)
    with (map (fun v => ssh_command v "killall screen" args) vms); [reflexivity|].
  clear. induction vms as [|v l IH]; [reflexivity|]. cbn. rewrite IH. reflexivity.
Qed.

Lemma remote_fanout_attempts_every_vm_witness :
  exists t' : trace,
    setup_pool demo_args (scripted_world demo_plane demo0_unreachable "n") [] = (Ok tt, t')
    /\ called t' = flat_map (setup_commands "pool" demo_args) demo_vms.
Proof.
  destruct (remote_fanout_attempts_every_vm demo_args
              (scripted_world demo_plane demo0_unreachable "n") demo_vms "pool" [])
    as (_ & _ & _ & _ & H & _).
  - discriminate.
  - intros t0. reflexivity.
  - reflexivity.
  - exact H.
Defined.

(** C3 (as stated) fails for the fan-outs over the control plane.  In
    start-all on a pool of two deallocated VMs where starting the first one
    fails, and in delete-pool on a pool of two VMs where deleting the first
    one fails, the exception leaves the comprehension: the second VM is
    never attempted and no list of results is produced. *)
Lemma control_plane_fanout_stops_at_first_raise :
  let started := start_all demo_args (scripted_world start_fails_plane all_succeed "n") [] in
  let deleted := delete_pool demo_args (scripted_world delete_fails_plane all_succeed "y") [] in
  fst started = Raise (CLIError "allocation failed")
  /\ snd started
     = [Execute ["vm"; "list"; "--show-details"; "--resource-group=demo"];
        Warning "{:%Hh%Mm%Ss}: Starting pool of {:d} VMs for Resource Group '{:s}'."
          ["2"; "demo"];
        Warning "{:%Hh%Mm%Ss}: Starting VM '{:s}'." ["demo-0"];
        Execute ["vm"; "start"; "--name=demo-0"; "--resource-group=demo"]]
  /\ ~ In ["vm"; "start"; "--name=demo-1"; "--resource-group=demo"]
         (executed (snd started))
  /\ fst deleted = Raise (CLIError "operation failed")
  /\ executed (snd deleted)
     = [["vm"; "list"; "--show-details"; "--resource-group=demo"];
        ["vm"; "delete"; "--name=demo-0"; "--yes"; "--resource-group=demo"]]
  /\ ~ In ["vm"; "delete"; "--name=demo-1"; "--yes"; "--resource-group=demo"]
         (executed (snd deleted)).
Proof.
  cbv zeta. repeat split; try reflexivity.
  - intros [H|[H|[]]]; discriminate.
  - intros [H|[H|[]]]; discriminate.
Qed.

Lemma deploy_task_kills_then_uploads_witness :
  exists t' : trace,
    deploy_task demo_args (scripted_world demo_plane all_succeed "n") [] = (Ok tt, t')
    /\ called t'
       = [ssh_command (sample_vm "demo-0" "VM deallocated") "killall screen" demo_args;
          ssh_command (sample_vm "demo-1" "VM running") "killall screen" demo_args;
          ssh_command (sample_vm "demo-0" "VM deallocated") "rm -r task" demo_args;
          scp_command (sample_vm "demo-0" "VM deallocated") "pool/task" "task" demo_args;
          ssh_command (sample_vm "demo-1" "VM running") "rm -r task" demo_args;
          scp_command (sample_vm "demo-1" "VM running") "pool/task" "task" demo_args].
Proof.
  destruct (deploy_task_kills_then_uploads demo_args
              (scripted_world demo_plane all_succeed "n") demo_vms "pool" [])
    as (t' & Hrun & Hcalled & _).
  - discriminate.
  - intros t0. reflexivity.
  - reflexivity.
  - exists t'. split; [exact Hrun | exact Hcalled].
Defined.

(** Without [--pool-directory], which [main] does not require for
    deploy-task, the tasks are killed on every VM and the first upload
    raises when it joins the missing directory; nothing is copied. *)
Lemma deploy_task_without_pool_directory (args : Args) (w : world) (vms : list vm)
    (t : trace) :
  vms <> [] ->
  (forall t0 : trace, az_execute w t0 (vm_list_command args) = Ok (RVms vms)) ->
  pool_directory args = None ->
  exists t' : trace,
    deploy_task args w t = (Raise TypeError, t')
    /\ called t' = (called t ++ flat_map (kill_commands args) vms)%list.
Proof.
  intros Hne Hlist Hdir. unfold deploy_task.
  rewrite (bind_ok _ _ _ _ _ _ (get_vms_listing args w vms Hlist t)).
  cbn [py_len]. rewrite bind_lift_ok, (populated_length _ Hne).
  destruct (kill_task_run args w vms Hne Hlist (t ++ [Execute (vm_list_command args)])%list)
    as (t1 & Hkill & Hc1 & _).
  rewrite (bind_ok _ _ _ _ _ _ Hkill), bind_warning.
  cbn [iter_vms]. rewrite bind_lift_ok.
  destruct vms as [|v l]; [contradiction|].
  eexists. split.
  - apply bind_raise. unfold deploy_fanout. cbn [for_each].
    apply bind_raise. unfold deploy_task_vm, pool_subdirectory. rewrite Hdir.
    apply bind_raise. reflexivity.
  - rewrite called_warning, Hc1, called_app. cbn [called]. rewrite app_nil_r.
    reflexivity.
Qed.

(* ================================================================== *)
(** * Access token: results *)
(* ================================================================== *)

Example expiry_after_fourteen_days :
  obind (PyTime.add_days sample_clock 14) (fun e => Ok (PyTime.strftime_minutes e))
  = Ok "2017-07-04T13:45Z".
Proof. reflexivity. Qed.

Example expiry_after_zero_days :
  obind (PyTime.add_days sample_clock 0) (fun e => Ok (PyTime.strftime_minutes e))
  = Ok "2017-06-20T13:45Z".
Proof. reflexivity. Qed.

Example leap_day : PyTime.ymd_of_ordinal 730179 = (2000, 2, 29).
Proof. reflexivity. Qed.

Lemma add_days_in_range (dt : PyTime.datetime) (d : Z) :
  1 <= PyTime.ordinal dt <= PyTime.MAXORDINAL ->
  1 <= PyTime.ordinal dt + d <= PyTime.MAXORDINAL ->
  PyTime.add_days dt d
  = Ok {| PyTime.ordinal := PyTime.ordinal dt + d; PyTime.hour := PyTime.hour dt;
          PyTime.minute := PyTime.minute dt; PyTime.second := PyTime.second dt;
          PyTime.microsecond := PyTime.microsecond dt |}.
Proof.
  unfold PyTime.add_days, PyTime.MAXORDINAL, PyTime.MAX_DELTA_DAYS. intros H1 H2.
  replace (Z.abs d >? 999999999) with false by (symmetry; rewrite Z.gtb_ltb; apply Z.ltb_ge; lia).
  replace ((1 <=? PyTime.ordinal dt + d) && (PyTime.ordinal dt + d <=? 3652059))
    with true by (symmetry; apply andb_true_iff; split; apply Z.leb_le; lia).
  reflexivity.
Qed.

Lemma strftime_minutes_truncates (dt : PyTime.datetime) :
  PyTime.strftime_minutes (PyTime.truncate_to_minute dt) = PyTime.strftime_minutes dt.
Proof. reflexivity. Qed.

Lemma truncate_to_minute_instant (dt : PyTime.datetime) :
  PyTime.valid dt ->
  PyTime.instant (PyTime.truncate_to_minute dt) <= PyTime.instant dt
  /\ PyTime.instant dt < PyTime.instant (PyTime.truncate_to_minute dt) + 60000000.
Proof.
  unfold PyTime.valid, PyTime.instant, PyTime.truncate_to_minute. cbn. lia.
Qed.

Lemma ensure_exists_frame (directory : string) (w : world) (t : trace) :
  exists t' : trace,
    ensure_exists directory w t = (Ok tt, t')
    /\ executed t' = executed t
    /\ filter is_file_event t' = filter is_file_event t.
Proof.
  unfold ensure_exists, bind, exists_path, emit, ret.
  destruct (negb (directory =? "")%string && negb (path_exists w t directory));
    eexists; (split; [reflexivity|]).
  - rewrite executed_app, filter_app. cbn. rewrite !app_nil_r. auto.
  - auto.
Qed.

Section TokenIssue.

Variables (args : Args) (w : world).

(** The control plane knows the storage account, has a token to hand
    out, can tell whether the secrets container exists, and accepts the
    creation of that container and the upload of a blob into it. *)
Variables (account : list (string * scalar)) (cs token : string).
Variables (container : list (string * scalar)) (present : scalar).

Hypothesis account_known :
  forall t : trace, az_execute w t (connection_string_command args) = Ok (RObj account).
Hypothesis account_string : assoc "connectionString" account = Some (SStr cs).
Hypothesis token_issued :
  forall (t : trace) (expiry : string),
    az_execute w t (generate_sas_command args cs expiry) = Ok (RScalar (SStr token)).
Hypothesis container_known :
  forall t : trace,
    az_execute w t (container_exists_command (vm_secrets_container_name args) cs)
    = Ok (RObj container).
Hypothesis container_state : assoc "exists" container = Some present.
Hypothesis container_created :
  forall t : trace,
    exists r, az_execute w t
                (container_create_command (vm_secrets_container_name args) cs) = Ok r.
Hypothesis blob_uploaded :
  forall (t : trace) (file_path blob_name : string),
    exists r, az_execute w t
                (blob_upload_command (vm_secrets_container_name args)
                   file_path blob_name cs) = Ok r.

Lemma connection_string_run (t : trace) :
  pool_storage_account_connection_string args w t
  = (Ok (SStr cs), (t ++ [Execute (connection_string_command args)])%list).
Proof.
  unfold pool_storage_account_connection_string, vm_pool_command, bind, execute, lift.
  cbn [app]. fold (connection_string_command args).
  rewrite account_known. cbn [getitem]. rewrite account_string. reflexivity.
Qed.

Lemma pool_container_exists_run (t : trace) :
  pool_container_exists (vm_secrets_container_name args) args w t
  = (Ok present,
     (t ++ [Execute (connection_string_command args);
            Execute (container_exists_command (vm_secrets_container_name args) cs)])%list).
Proof.
  unfold pool_container_exists.
  rewrite (bind_ok _ _ _ _ _ _ (connection_string_run t)).
  unfold bind, execute, lift. cbn [app py_str].
  fold (container_exists_command (vm_secrets_container_name args) cs).
  rewrite container_known. cbn [getitem]. rewrite container_state, <- app_assoc.
  reflexivity.
Qed.

Lemma create_pool_container_run (t : trace) :
  exists r : result,
    create_pool_container (vm_secrets_container_name args) args w t
    = (Ok r, (t ++ [Execute (connection_string_command args);
                    Execute (container_create_command
                               (vm_secrets_container_name args) cs)])%list).
Proof.
  unfold create_pool_container.
  rewrite (bind_ok _ _ _ _ _ _ (connection_string_run t)).
  unfold execute. cbn [app py_str].
  fold (container_create_command (vm_secrets_container_name args) cs).
  destruct (container_created (t ++ [Execute (connection_string_command args)])%list)
    as (r & ->).
  exists r. rewrite <- app_assoc. reflexivity.
Qed.

End TokenIssue.


(* ================================================================== *)
(** * Composing runs *)
(* ================================================================== *)

Lemma runs_ret {A} (w : world) (a : A) : runs w (ret a) (eq a) [] [].
Proof. intros t. exists a, t. rewrite !app_nil_r. auto. Qed.

Lemma runs_lift {A} (w : world) (a : A) : runs w (lift (Ok a)) (eq a) [] [].
Proof. intros t. exists a, t. rewrite !app_nil_r. auto. Qed.

Lemma runs_warning (w : world) (template : string) (fields : list string) :
  runs w (warning template fields) (fun _ => True) [] [].
Proof.
  intros t. exists tt. eexists. split; [reflexivity|].
  rewrite called_warning, executed_warning, !app_nil_r. auto.
Qed.

Lemma runs_execute (w : world) (c : list string) (P : result -> Prop) :
  (forall t : trace, exists r, az_execute w t c = Ok r /\ P r) ->
  runs w (execute c) P [] [c].
Proof.
  intros H t. destruct (H t) as (r & Hr & HP). exists r. eexists.
  unfold execute. rewrite Hr. split; [reflexivity|].
  rewrite called_app, executed_app. cbn. rewrite !app_nil_r. auto.
Qed.

Lemma runs_call (w : world) (c : list string) :
  runs w (call c) (fun _ => True) [c] [].
Proof.
  intros t. eexists. eexists. split; [reflexivity|].
  rewrite called_app, executed_app. cbn. rewrite !app_nil_r. auto.
Qed.

Lemma runs_bind {A B} (w : world) (m : M A) (f : A -> M B) (P : A -> Prop)
    (Q : B -> Prop) (c1 c2 e1 e2 : list (list string)) :
  runs w m P c1 e1 ->
  (forall a, P a -> runs w (f a) Q c2 e2) ->
  runs w (bind m f) Q (c1 ++ c2) (e1 ++ e2).
Proof.
  intros Hm Hf t. destruct (Hm t) as (a & t1 & Hrun & Ha & Hc & He).
  destruct (Hf a Ha t1) as (b & t2 & Hrun2 & Hb & Hc2 & He2).
  exists b, t2. rewrite (bind_ok _ _ _ _ _ _ Hrun), Hrun2, Hc2, He2, Hc, He.
  rewrite !app_assoc. auto.
Qed.

Lemma runs_weaken {A} (w : world) (m : M A) (P Q : A -> Prop)
    (c c' e e' : list (list string)) :
  runs w m P c e -> (forall a, P a -> Q a) -> c = c' -> e = e' ->
  runs w m Q c' e'.
Proof.
  intros H HPQ <- <- t. destruct (H t) as (a & t' & Hr & Ha & Hc & He).
  exists a, t'. auto.
Qed.

Lemma runs_for_each {B} (w : world) (f : vm -> M B) (P : vm -> B -> Prop)
    (cmds execs : vm -> list (list string)) (l : list vm) :
  (forall v, In v l -> runs w (f v) (P v) (cmds v) (execs v)) ->
  runs w (for_each f l) (Forall2 P l) (flat_map cmds l) (flat_map execs l).
Proof.
  induction l as [|v l IH]; intros H.
  - cbn. eapply runs_weaken; [apply runs_ret | intros a <-; constructor | reflexivity..].
  - cbn [for_each flat_map].
    eapply runs_bind; [apply H; left; reflexivity|]. intros y Hy.
    eapply runs_weaken with (P := Forall2 P (v :: l)).
    + eapply runs_bind; [apply IH; intros v' Hv'; apply H; right; exact Hv'|].
      intros ys Hys.
      eapply runs_weaken;
        [apply runs_ret | intros a <-; constructor; assumption | reflexivity..].
    + auto.
    + apply app_nil_r.
    + apply app_nil_r.
Qed.

Lemma runs_emit_quiet (w : world) (e : event) :
  called [e] = [] -> executed [e] = [] -> runs w (emit e) (fun _ => True) [] [].
Proof.
  intros Hc He t. exists tt. eexists. split; [reflexivity|].
  rewrite called_app, executed_app, Hc, He, !app_nil_r. auto.
Qed.

Lemma runs_print_vm_table (w : world) (vms : list vm) (args : Args) :
  runs w (print_vm_table (RVms vms) args) (fun _ => True) [] [].
Proof.
  intros t. exists tt. eexists. split; [apply print_vm_table_run|].
  rewrite called_app, executed_app. cbn. rewrite !app_nil_r. auto.
Qed.

Lemma runs_get_vms (w : world) (args : Args) (vms : list vm) :
  (forall t : trace, az_execute w t (vm_list_command args) = Ok (RVms vms)) ->
  runs w (get_vms args) (eq (RVms vms)) [] [vm_list_command args].
Proof.
  intros H. apply (runs_execute w (vm_list_command args)).
  intros t. exists (RVms vms). auto.
Qed.

(** Closes the side conditions that compare two lists of commands. *)
Ltac same_commands :=
  cbn [app flat_map]; rewrite ?app_nil_r, <- ?app_assoc; cbn [app]; reflexivity.

Lemma runs_start_vm (w : world) (args : Args) (v : vm) :
  (forall t : trace, exists r, az_execute w t (start_command args v) = Ok r) ->
  runs w (start_vm v args) (fun r => powerState v = "VM running" -> r = RNone)
    [] (start_commands args v).
Proof.
  intros H. unfold start_vm, start_commands.
  destruct (String.eqb (powerState v) "VM running") eqn:E.
  - eapply runs_weaken.
    + eapply runs_bind; [apply runs_warning | intros _ _; apply runs_ret].
    + intros r <- _. reflexivity.
    + reflexivity.
    + reflexivity.
  - apply String.eqb_neq in E.
    eapply runs_weaken with (P := fun _ => True).
    + eapply runs_bind; [apply runs_warning | intros _ _].
      eapply runs_bind.
      * apply (runs_execute w (start_command args v) (fun _ => True)).
        intros t. destruct (H t) as (r & Hr). exists r. auto.
      * intros r _. eapply runs_bind.
        -- destruct (negb (no_wait args)); [apply runs_warning|].
           eapply runs_weaken; [apply runs_ret | auto | reflexivity..].
        -- intros _ _. eapply runs_weaken; [apply runs_ret | auto | reflexivity..].
    + intros r _ Hp. contradiction.
    + reflexivity.
    + same_commands.
Qed.

(** start-all lists the pool, starts every VM that is not running, in
    list order, lists the pool again, and returns one result per VM. *)
Theorem start_all_starts_every_stopped_vm (args : Args) (w : world) (vms : list vm)
    (t : trace) :
  (forall t0 : trace, az_execute w t0 (vm_list_command args) = Ok (RVms vms)) ->
  (forall (t0 : trace) (v : vm),
     In v vms -> exists r, az_execute w t0 (start_command args v) = Ok r) ->
  exists (results : list result) (t' : trace),
    start_all args w t = (Ok results, t')
    /\ length results = length vms
    /\ Forall2 (fun v r => powerState v = "VM running" -> r = RNone) vms results
    /\ executed t'
       = (executed t ++ [vm_list_command args] ++ flat_map (start_commands args) vms
            ++ [vm_list_command args])%list
    /\ called t' = called t.
Proof.
  intros Hlist Hstart.
  assert (R : runs w (start_all args)
                (Forall2 (fun v r => powerState v = "VM running" -> r = RNone) vms) []
                ([vm_list_command args] ++ flat_map (start_commands args) vms
                   ++ [vm_list_command args])).
  { unfold start_all.
    eapply runs_weaken with (P := Forall2 _ vms).
    - eapply runs_bind; [apply (runs_get_vms w args vms Hlist)|]. intros r0 <-.
      cbn [py_len iter_vms].
      eapply runs_bind; [apply runs_lift|]. intros n _.
      eapply runs_bind; [apply runs_warning|]. intros _ _.
      eapply runs_bind; [apply runs_lift|]. intros l <-.
      eapply runs_bind.
      + apply (runs_for_each w (fun v => start_vm v args)
                 (fun v r => powerState v = "VM running" -> r = RNone)
                 (fun _ => []) (start_commands args)).
        intros v Hv. apply runs_start_vm. intros t0. apply Hstart. exact Hv.
      + intros results Hres.
        eapply runs_bind; [apply (runs_get_vms w args vms Hlist)|]. intros r1 <-.
        eapply runs_bind; [apply runs_print_vm_table|]. intros _ _.
        eapply runs_bind.
        * destruct (no_wait args); apply runs_warning.
        * intros _ _. eapply runs_weaken; [apply runs_ret | | reflexivity..].
          intros a <-. exact Hres.
    - auto.
    - cbn [app]. rewrite ?app_nil_r.
      clear. induction vms as [|v l IH]; [reflexivity | exact IH].
    - same_commands. }
  destruct (R t) as (results & t' & Hrun & Hres & Hc & He).
  exists results, t'. rewrite app_nil_r in Hc.
  repeat split; auto. symmetry. eapply Forall2_length. exact Hres.
Qed.

Lemma start_all_starts_every_stopped_vm_witness :
  exists (results : list result) (t' : trace),
    start_all demo_args (scripted_world demo_plane all_succeed "n") [] = (Ok results, t')
    /\ length results = 2%nat
    /\ executed t'
       = [vm_list_command demo_args;
          ["vm"; "start"; "--name=demo-0"; "--resource-group=demo"];
          vm_list_command demo_args].
Proof.
  destruct (start_all_starts_every_stopped_vm demo_args
              (scripted_world demo_plane all_succeed "n") demo_vms [])
    as (results & t' & Hrun & Hlen & _ & He & _).
  - intros t0. reflexivity.
  - intros t0 v [<-|[<-|[]]]; eexists; reflexivity.
  - exists results, t'. repeat split; assumption.
Defined.

Lemma runs_shutdown_vm (w : world) (args : Args) (v : vm) :
  (forall t : trace, exists r, az_execute w t (deallocate_command args v) = Ok r) ->
  runs w (shutdown_vm v args) (fun r => powerState v = "VM deallocated" -> r = RNone)
    [] (deallocate_commands args v).
Proof.
  intros H. unfold shutdown_vm, deallocate_commands.
  destruct (String.eqb (powerState v) "VM deallocated") eqn:E.
  - eapply runs_weaken.
    + eapply runs_bind; [apply runs_warning | intros _ _; apply runs_ret].
    + intros r <- _. reflexivity.
    + reflexivity.
    + reflexivity.
  - apply String.eqb_neq in E.
    eapply runs_weaken with (P := fun _ => True).
    + eapply runs_bind; [apply runs_warning | intros _ _].
      eapply runs_bind.
      * apply (runs_execute w (deallocate_command args v) (fun _ => True)).
        intros t. destruct (H t) as (r & Hr). exists r. auto.
      * intros r _. eapply runs_bind.
        -- destruct (negb (no_wait args)); [apply runs_warning|].
           eapply runs_weaken; [apply runs_ret | auto | reflexivity..].
        -- intros _ _. eapply runs_weaken; [apply runs_ret | auto | reflexivity..].
    + intros r _ Hp. contradiction.
    + reflexivity.
    + same_commands.
Qed.

(** stop-all lists the pool, deallocates every VM that is not already
    deallocated, in list order, lists the pool again, and returns one
    result per VM. *)
Theorem shutdown_all_deallocates_every_active_vm (args : Args) (w : world)
    (vms : list vm) (t : trace) :
  (forall t0 : trace, az_execute w t0 (vm_list_command args) = Ok (RVms vms)) ->
  (forall (t0 : trace) (v : vm),
     In v vms -> exists r, az_execute w t0 (deallocate_command args v) = Ok r) ->
  exists (results : list result) (t' : trace),
    shutdown_all args w t = (Ok results, t')
    /\ length results = length vms
    /\ Forall2 (fun v r => powerState v = "VM deallocated" -> r = RNone) vms results
    /\ executed t'
       = (executed t ++ [vm_list_command args]
            ++ flat_map (deallocate_commands args) vms
            ++ [vm_list_command args])%list
    /\ called t' = called t.
Proof.
  intros Hlist Hstop.
  assert (R : runs w (shutdown_all args)
                (Forall2 (fun v r => powerState v = "VM deallocated" -> r = RNone) vms) []
                ([vm_list_command args] ++ flat_map (deallocate_commands args) vms
                   ++ [vm_list_command args])).
  { unfold shutdown_all.
    eapply runs_weaken with (P := Forall2 _ vms).
    - eapply runs_bind; [apply (runs_get_vms w args vms Hlist)|]. intros r0 <-.
      cbn [py_len iter_vms].
      eapply runs_bind; [apply runs_lift|]. intros n _.
      eapply runs_bind; [apply runs_warning|]. intros _ _.
      eapply runs_bind; [apply runs_lift|]. intros l <-.
      eapply runs_bind.
      + apply (runs_for_each w (fun v => shutdown_vm v args)
                 (fun v r => powerState v = "VM deallocated" -> r = RNone)
                 (fun _ => []) (deallocate_commands args)).
        intros v Hv. apply runs_shutdown_vm. intros t0. apply Hstop. exact Hv.
      + intros results Hres.
        eapply runs_bind; [apply (runs_get_vms w args vms Hlist)|]. intros r1 <-.
        eapply runs_bind; [apply runs_print_vm_table|]. intros _ _.
        eapply runs_bind.
        * destruct (no_wait args); apply runs_warning.
        * intros _ _. eapply runs_weaken; [apply runs_ret | | reflexivity..].
          intros a <-. exact Hres.
    - auto.
    - cbn [app]. rewrite ?app_nil_r.
      clear. induction vms as [|v l IH]; [reflexivity | exact IH].
    - same_commands. }
  destruct (R t) as (results & t' & Hrun & Hres & Hc & He).
  exists results, t'. rewrite app_nil_r in Hc.
  repeat split; auto. symmetry. eapply Forall2_length. exact Hres.
Qed.

Lemma shutdown_all_deallocates_every_active_vm_witness :
  exists (results : list result) (t' : trace),
    shutdown_all demo_args (scripted_world demo_plane all_succeed "n") [] = (Ok results, t')
    /\ length results = 2%nat
    /\ executed t'
       = [vm_list_command demo_args;
          ["vm"; "deallocate"; "--name=demo-1"; "--resource-group=demo"];
          vm_list_command demo_args].
Proof.
  destruct (shutdown_all_deallocates_every_active_vm demo_args
              (scripted_world demo_plane all_succeed "n") demo_vms [])
    as (results & t' & Hrun & Hlen & _ & He & _).
  - intros t0. reflexivity.
  - intros t0 v [<-|[<-|[]]]; eexists; reflexivity.
  - exists results, t'. repeat split; assumption.
Defined.

Lemma runs_input (w : world) (prompt reply : string) :
  (forall t : trace, get_input w t prompt = reply) ->
  runs w (input prompt) (eq reply) [] [].
Proof.
  intros H t. exists reply. eexists. unfold input. rewrite H.
  split; [reflexivity|]. rewrite called_app, executed_app. cbn.
  rewrite !app_nil_r. auto.
Qed.

Lemma runs_answer (w : world) (c : list string) :
  (forall t : trace, exists r, az_execute w t c = Ok r) ->
  runs w (execute c) (fun _ => True) [] [c].
Proof.
  intros H. apply runs_execute. intros t. destruct (H t) as (r & Hr). exists r. auto.
Qed.

Lemma runs_done {A} (w : world) (a : A) (P : A -> Prop) : P a -> runs w (ret a) P [] [].
Proof. intros H. eapply runs_weaken; [apply runs_ret | intros b <-; exact H | reflexivity..]. Qed.

Section ControlPlane.

Variables (args : Args) (w : world).
Variables (account : list (string * scalar)) (connection : scalar).

(** The control plane knows the pool's storage account. *)
Hypothesis account_known :
  forall t : trace, az_execute w t (connection_string_command args) = Ok (RObj account).
Hypothesis account_string : assoc "connectionString" account = Some connection.

Lemma runs_connection_string :
  runs w (pool_storage_account_connection_string args) (eq connection) []
    [connection_string_command args].
Proof.
  unfold pool_storage_account_connection_string.
  eapply runs_weaken with (P := eq connection).
  - eapply runs_bind.
    + apply (runs_execute w (connection_string_command args) (eq (RObj account))).
      intros t. exists (RObj account). split; [apply account_known | reflexivity].
    + intros r <-. cbn [getitem]. rewrite account_string. apply runs_lift.
  - auto.
  - reflexivity.
  - reflexivity.
Qed.

Lemma runs_delete_vm_os_disk_blob (vm_name : string) :
  (forall t : trace,
     exists r, az_execute w t (blob_delete_command args (py_str connection) vm_name) = Ok r) ->
  runs w (delete_vm_os_disk_blob vm_name args) (fun _ => True) []
    [connection_string_command args; blob_delete_command args (py_str connection) vm_name].
Proof.
  intros H. unfold delete_vm_os_disk_blob.
  eapply runs_weaken with (P := fun _ => True).
  - eapply runs_bind; [apply runs_connection_string|]. intros c <-.
    eapply runs_bind; [apply (runs_answer w _ H)|]. intros _ _.
    apply runs_done. exact I.
  - auto.
  - reflexivity.
  - reflexivity.
Qed.

Lemma runs_delete_vm (v : vm) :
  (forall t : trace, exists r, az_execute w t (vm_delete_command args v) = Ok r) ->
  (forall t : trace, exists r, az_execute w t (nic_delete_command args (name v)) = Ok r) ->
  (forall t : trace,
     exists r, az_execute w t (public_ip_delete_command args (name v)) = Ok r) ->
  (forall t : trace,
     exists r, az_execute w t (blob_delete_command args (py_str connection) (name v)) = Ok r) ->
  runs w (delete_vm v args true) (fun _ => True) []
    (delete_commands args (py_str connection) v).
Proof.
  intros Hvm Hnic Hip Hblob. unfold delete_vm, vm_pool_command.
  eapply runs_weaken with (P := fun _ => True).
  - eapply runs_bind; [apply runs_warning|]. intros _ _.
    eapply runs_bind; [apply (runs_answer w _ Hvm)|]. intros r _.
    eapply runs_bind; [apply runs_warning|]. intros _ _.
    eapply runs_bind; [apply (runs_answer w _ Hnic)|]. intros _ _.
    eapply runs_bind; [apply runs_warning|]. intros _ _.
    eapply runs_bind; [apply (runs_answer w _ Hip)|]. intros _ _.
    eapply runs_bind; [apply runs_warning|]. intros _ _.
    eapply runs_bind; [apply (runs_delete_vm_os_disk_blob _ Hblob)|]. intros _ _.
    eapply runs_bind; [apply runs_warning|]. intros _ _.
    apply runs_done. exact I.
  - auto.
  - reflexivity.
  - reflexivity.
Qed.

End ControlPlane.

(** A confirmed delete-pool removes, for every VM in list order, the VM,
    its NIC, its public address and its OS-disk blob, then deletes the
    OS-disk container once, lists the pool again and returns one result per
    VM; it runs no local program. *)
Theorem delete_pool_confirmed (args : Args) (w : world) (vms : list vm)
    (account : list (string * scalar)) (connection : scalar) (t : trace) :
  vms <> [] ->
  (forall t0, az_execute w t0 (vm_list_command args) = Ok (RVms vms)) ->
  (forall t0 prompt, get_input w t0 prompt = "y") ->
  (forall t0, az_execute w t0 (connection_string_command args) = Ok (RObj account)) ->
  assoc "connectionString" account = Some connection ->
  (forall t0 v c, In v vms -> In c (delete_commands args (py_str connection) v) ->
     exists r, az_execute w t0 c = Ok r) ->
  (forall t0, exists r,
     az_execute w t0 (container_delete_command args (py_str connection)) = Ok r) ->
  exists (results : list result) (t' : trace),
    delete_pool args w t = (Ok (Some results), t')
    /\ length results = length vms
    /\ executed t'
       = (executed t ++ [vm_list_command args]
            ++ flat_map (delete_commands args (py_str connection)) vms
            ++ [connection_string_command args;
                container_delete_command args (py_str connection);
                vm_list_command args])%list
    /\ called t' = called t.
Proof.
  intros Hne Hlist Hyes Hacc Hcs Hdel Hcont.
  assert (R : runs w (delete_pool args)
                (fun o => exists results, o = Some results /\ length results = length vms) []
                ([vm_list_command args]
                   ++ flat_map (delete_commands args (py_str connection)) vms
                   ++ [connection_string_command args;
                       container_delete_command args (py_str connection);
                       vm_list_command args])).
  { unfold delete_pool.
    eapply runs_weaken
      with (P := fun o => exists results, o = Some results /\ length results = length vms).
    - eapply runs_bind; [apply (runs_get_vms w args vms Hlist)|]. intros r0 <-.
      eapply runs_bind; [apply runs_print_vm_table|]. intros _ _.
      cbn [py_len iter_vms].
      eapply runs_bind; [apply runs_lift|]. intros n <-.
      rewrite (populated_length _ Hne).
      eapply runs_bind; [apply (runs_input w _ "y"); intros t0; apply Hyes|].
      intros resp <-. cbn [String.eqb Ascii.eqb Bool.eqb].
      eapply runs_bind; [apply runs_warning|]. intros _ _.
      eapply runs_bind; [apply runs_lift|]. intros l <-.
      eapply runs_bind.
      + apply (runs_for_each w (fun v => delete_vm v args true) (fun _ _ => True)
                 (fun _ => []) (delete_commands args (py_str connection))).
        intros v Hv.
        apply (runs_delete_vm args w account connection Hacc Hcs v);
          intros t0; apply (Hdel t0 v); try exact Hv;
          unfold delete_commands; cbn [In];
          repeat (first [left; reflexivity | right]).
      + intros results Hres.
        eapply runs_bind; [apply runs_warning|]. intros _ _.
        eapply runs_bind.
        * unfold delete_pool_os_container.
          eapply runs_bind;
            [apply (runs_connection_string args w account connection Hacc Hcs)|].
          intros c <-.
          eapply runs_bind; [apply (runs_answer w _ Hcont)|]. intros _ _.
          apply (runs_done w tt (fun _ => True) I).
        * intros _ _.
          eapply runs_bind; [apply (runs_get_vms w args vms Hlist)|]. intros r1 <-.
          eapply runs_bind; [apply runs_print_vm_table|]. intros _ _.
          eapply runs_bind; [apply runs_warning|]. intros _ _.
          apply runs_done. exists results. split; [reflexivity|].
          symmetry. eapply Forall2_length. exact Hres.
    - auto.
    - cbn [app]. rewrite ?app_nil_r.
      clear. induction vms as [|v l IH]; [reflexivity | exact IH].
    - same_commands. }
  destruct (R t) as (o & t' & Hrun & (results & -> & Hlen) & Hc & He).
  exists results, t'. rewrite app_nil_r in Hc. auto.
Qed.

Lemma delete_pool_confirmed_witness :
  exists (results : list result) (t' : trace),
    delete_pool demo_args (scripted_world demo_plane all_succeed "y") []
    = (Ok (Some results), t')
    /\ length results = 2%nat
    /\ executed t'
       = [vm_list_command demo_args;
          ["vm"; "delete"; "--name=demo-0"; "--yes"; "--resource-group=demo"];
          ["network"; "nic"; "delete"; "--name=demo-0"; "--resource-group=demo"];
          ["network"; "public-ip"; "delete"; "--name=demo-0"; "--resource-group=demo"];
          connection_string_command demo_args;
          ["storage"; "blob"; "delete"; "--name=demo-0_os_disk.vhd";
           "--container-name=vhds"; "--connection-string=AccountName=demo"];
          ["vm"; "delete"; "--name=demo-1"; "--yes"; "--resource-group=demo"];
          ["network"; "nic"; "delete"; "--name=demo-1"; "--resource-group=demo"];
          ["network"; "public-ip"; "delete"; "--name=demo-1"; "--resource-group=demo"];
          connection_string_command demo_args;
          ["storage"; "blob"; "delete"; "--name=demo-1_os_disk.vhd";
           "--container-name=vhds"; "--connection-string=AccountName=demo"];
          connection_string_command demo_args;
          ["storage"; "container"; "delete"; "--name=vhds";
           "--connection-string=AccountName=demo"];
          vm_list_command demo_args].
Proof.
  destruct (delete_pool_confirmed demo_args
              (scripted_world demo_plane all_succeed "y") demo_vms
              [("connectionString", SStr "AccountName=demo")] (SStr "AccountName=demo") [])
    as (results & t' & Hrun & Hlen & He & _).
  - discriminate.
  - intros t0. reflexivity.
  - intros t0 p. reflexivity.
  - intros t0. reflexivity.
  - reflexivity.
  - intros t0 v c [<-|[<-|[]]] Hc; cbn in Hc;
      repeat (destruct Hc as [<-|Hc]; [eexists; reflexivity|]); contradiction.
  - intros t0. eexists. reflexivity.
  - exists results, t'. repeat split; assumption.
Defined.

(* ================================================================== *)
(** * Guards and edge cases of the pool operations *)
(* ================================================================== *)

(** On a pool without VMs, setup-pool, deploy-task, start-task and
    kill-task all do the same: list the pool, print the empty table, log
    that no pool exists and return; no program is run. *)
Theorem remote_operations_on_empty_pool (args : Args) (w : world) (t : trace) :
  az_execute w t (vm_list_command args) = Ok (RVms []) ->
  let final : outcome unit * trace :=
    (Ok tt,
     (t ++ [Execute (vm_list_command args); PrintLine (table_title args);
            PrintTable table_headers [];
            Warning "No VM pool exists. Use 'create-pool' command to create a new pool." []])%list) in
  setup_pool args w t = final /\ deploy_task args w t = final
  /\ start_task args w t = final /\ kill_task args w t = final
  /\ called (snd final) = called t
  /\ side_effects (snd final) = side_effects t.
Proof.
  intros Hlist final.
  assert (Hvms : get_vms args w t
                 = (Ok (RVms []), (t ++ [Execute (vm_list_command args)])%list)).
  { rewrite get_vms_run, Hlist. reflexivity. }
  assert (Hrest : forall t1,
    (print_vm_table (RVms []) args ;;;
     warning "No VM pool exists. Use 'create-pool' command to create a new pool." []) w t1
    = (Ok tt, (t1 ++ [PrintLine (table_title args); PrintTable table_headers [];
                      Warning "No VM pool exists. Use 'create-pool' command to create a new pool." []])%list)).
  { intros t1. rewrite (bind_ok _ _ _ _ _ _ (print_vm_table_run [] args w t1)).
    rewrite warning_run, <- app_assoc. reflexivity. }
  unfold final. repeat split.
  - unfold setup_pool. rewrite (bind_ok _ _ _ _ _ _ Hvms). cbn [py_len length].
    rewrite bind_lift_ok. cbn [Z.of_nat Z.eqb]. rewrite Hrest, <- app_assoc. reflexivity.
  - unfold deploy_task. rewrite (bind_ok _ _ _ _ _ _ Hvms). cbn [py_len length].
    rewrite bind_lift_ok. cbn [Z.of_nat Z.eqb]. rewrite Hrest, <- app_assoc. reflexivity.
  - unfold start_task. rewrite (bind_ok _ _ _ _ _ _ Hvms). cbn [py_len length].
    rewrite bind_lift_ok. cbn [Z.of_nat Z.eqb]. rewrite Hrest, <- app_assoc. reflexivity.
  - unfold kill_task. rewrite (bind_ok _ _ _ _ _ _ Hvms). cbn [py_len length].
    rewrite bind_lift_ok. cbn [Z.of_nat Z.eqb]. rewrite Hrest, <- app_assoc. reflexivity.
  - cbn [snd]. rewrite called_app. cbn. apply app_nil_r.
  - cbn [snd]. rewrite side_effects_app. cbn. apply app_nil_r.
Qed.

Lemma remote_operations_on_empty_pool_witness :
  setup_pool demo_args (scripted_world empty_plane all_succeed "n") []
  = (Ok tt,
     [Execute (vm_list_command demo_args); PrintLine (table_title demo_args);
      PrintTable table_headers [];
      Warning "No VM pool exists. Use 'create-pool' command to create a new pool." []]).
Proof.
  exact (proj1 (remote_operations_on_empty_pool demo_args
                  (scripted_world empty_plane all_succeed "n") [] eq_refl)).
Defined.

(** create-pool on a resource group that already has VMs prints them,
    says that the pool exists and changes nothing: its only requests are
    the two queries. *)
Theorem create_pool_on_populated_pool (args : Args) (w : world) (t : trace)
    (group : result) (vms : list vm) :
  az_execute w t (group_show_command args) = Ok group ->
  is_none group = false ->
  az_execute w (t ++ [Execute (group_show_command args)]) (vm_list_command args)
    = Ok (RVms vms) ->
  vms <> [] ->
  create_pool args w t
    = (Ok tt,
       (t ++ [Execute (group_show_command args); Execute (vm_list_command args);
              PrintLine (table_title args); PrintTable table_headers (table_rows vms);
              Warning "VM pool already exists containing the above VMs. Use 'delete-pool' command to remove this pool before creating a new pool." []])%list)
  /\ side_effects (snd (create_pool args w t)) = side_effects t
  /\ called (snd (create_pool args w t)) = called t.
Proof.
  intros Hgroup Hsome Hlist Hne.
  assert (Hrun : create_pool args w t
    = (Ok tt,
       (t ++ [Execute (group_show_command args); Execute (vm_list_command args);
              PrintLine (table_title args); PrintTable table_headers (table_rows vms);
              Warning "VM pool already exists containing the above VMs. Use 'delete-pool' command to remove this pool before creating a new pool." []])%list)).
  { unfold create_pool.
    assert (Hex : resource_group_exists args w t
                  = (Ok true, (t ++ [Execute (group_show_command args)])%list)).
    { unfold resource_group_exists, bind, execute, ret. cbn [app].
      fold (group_show_command args). rewrite Hgroup, Hsome. reflexivity. }
    rewrite (bind_ok _ _ _ _ _ _ Hex). cbn [negb].
    unfold bind at 1. unfold ret at 1.
    assert (Hvms : get_vms args w (t ++ [Execute (group_show_command args)])%list
                   = (Ok (RVms vms),
                      ((t ++ [Execute (group_show_command args)])
                         ++ [Execute (vm_list_command args)])%list)).
    { rewrite get_vms_run, Hlist. reflexivity. }
    rewrite (bind_ok _ _ _ _ _ _ Hvms). cbn [py_len]. rewrite bind_lift_ok.
    replace (Z.of_nat (length vms) >? 0) with true
      by (symmetry; destruct vms; [contradiction | reflexivity]).
    rewrite (bind_ok _ _ _ _ _ _ (print_vm_table_run vms args w _)).
    rewrite warning_run, <- !app_assoc. reflexivity. }
  rewrite Hrun. cbn [snd]. rewrite side_effects_app, called_app. cbn.
  rewrite !app_nil_r. auto.
Qed.

Lemma create_pool_on_populated_pool_witness :
  create_pool demo_args (scripted_world demo_plane all_succeed "n") []
  = (Ok tt,
     [Execute (group_show_command demo_args); Execute (vm_list_command demo_args);
      PrintLine (table_title demo_args); PrintTable table_headers (table_rows demo_vms);
      Warning "VM pool already exists containing the above VMs. Use 'delete-pool' command to remove this pool before creating a new pool." []]).
Proof.
  refine (proj1 (create_pool_on_populated_pool demo_args
                   (scripted_world demo_plane all_succeed "n") []
                   (RObj [("location", SStr "westeurope")]) demo_vms
                   eq_refl eq_refl eq_refl _)).
  discriminate.
Defined.

Lemma deploy_task_without_pool_directory_witness :
  exists t' : trace,
    deploy_task (without_pool_directory demo_args)
      (scripted_world demo_plane all_succeed "n") [] = (Raise TypeError, t')
    /\ called t'
       = [ssh_command (sample_vm "demo-0" "VM deallocated") "killall screen" demo_args;
          ssh_command (sample_vm "demo-1" "VM running") "killall screen" demo_args].
Proof.
  destruct (deploy_task_without_pool_directory (without_pool_directory demo_args)
              (scripted_world demo_plane all_succeed "n") demo_vms [])
    as (t' & Hrun & Hc).
  - discriminate.
  - intros t0. reflexivity.
  - reflexivity.
  - exists t'. split; [exact Hrun | exact Hc].
Defined.

(** [kill_task] reads the VM list once, at its start. *)
Lemma kill_task_single_listing (args : Args) (w : world) (vms : list vm) (t : trace) :
  vms <> [] ->
  az_execute w t (vm_list_command args) = Ok (RVms vms) ->
  exists t' : trace,
    kill_task args w t = (Ok tt, t')
    /\ called t' = (called t ++ flat_map (kill_commands args) vms)%list
    /\ executed t' = (executed t ++ [vm_list_command args])%list.
Proof.
  intros Hne Hlist. unfold kill_task.
  assert (Hvms : get_vms args w t
                 = (Ok (RVms vms), (t ++ [Execute (vm_list_command args)])%list)).
  { rewrite get_vms_run, Hlist. reflexivity. }
  rewrite (bind_ok _ _ _ _ _ _ Hvms).
  cbn [py_len]. rewrite bind_lift_ok, (populated_length _ Hne), bind_warning.
  cbn [iter_vms]. rewrite bind_lift_ok.
  match goal with
  | |- context [bind (kill_fanout vms args) _ w ?t0] =>
      destruct (for_each_remote _ _ (kill_task_vm_step args) vms w t0)
        as (ys & t1 & Hrun & _ & Hc & He)
  end.
  unfold kill_fanout. rewrite (bind_ok _ _ _ _ _ _ Hrun), warning_run.
  eexists; split; [reflexivity|].
  rewrite called_warning, executed_warning, Hc, He.
  rewrite called_warning, executed_warning, called_app, executed_app.
  cbn [called executed]. rewrite app_nil_r. auto.
Qed.

(** deploy-task reads the VM list twice: the kill step works on the
    second reading and the uploads on the first.  When the pool changes in
    between, tasks are killed on the VMs of the later list while the task
    directory goes to the VMs of the earlier one. *)
Theorem deploy_task_reads_the_pool_twice (args : Args) (w : world)
    (first second : list vm) (pool_dir : string) (t : trace) :
  first <> [] ->
  second <> [] ->
  az_execute w t (vm_list_command args) = Ok (RVms first) ->
  az_execute w (t ++ [Execute (vm_list_command args)]) (vm_list_command args)
    = Ok (RVms second) ->
  pool_directory args = Some pool_dir ->
  exists t' : trace,
    deploy_task args w t = (Ok tt, t')
    /\ called t'
       = (called t ++ flat_map (kill_commands args) second
            ++ flat_map (deploy_commands pool_dir args) first)%list
    /\ executed t' = (executed t ++ [vm_list_command args; vm_list_command args])%list.
Proof.
  intros Hfirst Hsecond Hl1 Hl2 Hdir. unfold deploy_task.
  assert (Hvms : get_vms args w t
                 = (Ok (RVms first), (t ++ [Execute (vm_list_command args)])%list)).
  { rewrite get_vms_run, Hl1. reflexivity. }
  rewrite (bind_ok _ _ _ _ _ _ Hvms).
  cbn [py_len]. rewrite bind_lift_ok, (populated_length _ Hfirst).
  destruct (kill_task_single_listing args w second _ Hsecond Hl2)
    as (t1 & Hkill & Hc1 & He1).
  rewrite (bind_ok _ _ _ _ _ _ Hkill), bind_warning.
  cbn [iter_vms]. rewrite bind_lift_ok. unfold deploy_fanout.
  match goal with
  | |- context [bind (for_each ?f first) _ w ?t0] =>
      destruct (for_each_remote _ _ (deploy_task_vm_step args pool_dir Hdir) first w t0)
        as (ys & t2 & Hrun & _ & Hc2 & He2)
  end.
  rewrite (bind_ok _ _ _ _ _ _ Hrun), warning_run.
  eexists; split; [reflexivity|].
  rewrite called_warning, executed_warning, Hc2, He2.
  rewrite called_warning, executed_warning, Hc1, He1, called_app, executed_app.
  cbn [called executed]. rewrite app_nil_r, <- !app_assoc. auto.
Qed.

Lemma deploy_task_reads_the_pool_twice_witness :
  exists t' : trace,
    deploy_task demo_args shrinking_world [] = (Ok tt, t')
    /\ called t'
       = [ssh_command (sample_vm "demo-1" "VM running") "killall screen" demo_args;
          ssh_command (sample_vm "demo-0" "VM deallocated") "rm -r task" demo_args;
          scp_command (sample_vm "demo-0" "VM deallocated") "pool/task" "task" demo_args;
          ssh_command (sample_vm "demo-1" "VM running") "rm -r task" demo_args;
          scp_command (sample_vm "demo-1" "VM running") "pool/task" "task" demo_args].
Proof.
  destruct (deploy_task_reads_the_pool_twice demo_args shrinking_world demo_vms
              [sample_vm "demo-1" "VM running"] "pool" [])
    as (t' & Hrun & Hc & _); try discriminate; try reflexivity.
  exists t'. split; [exact Hrun | exact Hc].
Defined.

(* ================================================================== *)
(** * Reading VM names: errors and what is not checked *)
(* ================================================================== *)

Lemma concat_cons (sep a b : string) (l : list string) :
  String.concat sep (a :: b :: l) = a ++ sep ++ String.concat sep (b :: l).
Proof. reflexivity. Qed.

(** ["-".join(s.split("-")) == s] *)
Lemma concat_split (sep : ascii) (s : string) :
  String.concat (String sep EmptyString) (PyStr.split sep s) = s.
Proof.
  induction s as [|c s IH]; [reflexivity|]. cbn [PyStr.split].
  pose proof (split_length sep s) as L.
  destruct (PyStr.split sep s) as [|w ws]; [discriminate|].
  destruct (Ascii.eqb c sep) eqn:E.
  - apply Ascii.eqb_eq in E. subst c. rewrite concat_cons, IH. reflexivity.
  - destruct ws as [|w' ws].
    + cbn in *. rewrite IH. reflexivity.
    + rewrite concat_cons in *. rewrite <- IH. reflexivity.
Qed.

Lemma number_from_name_hyphen_count (vm_name : string) :
  PyStr.occurrences "-" vm_name <> 1%nat -> number_from_name vm_name = Raise ValueError.
Proof.
  intros H. unfold number_from_name.
  pose proof (split_length "-" vm_name) as L.
  destruct (PyStr.split "-" vm_name) as [|a [|b [|c r]]]; cbn in L; try reflexivity.
  congruence.
Qed.

(** [number_from_name] raises [ValueError] on every name that does not
    contain exactly one hyphen: none at all, or more than one. *)
Theorem number_from_name_rejects_other_hyphen_counts (vm_name : string) :
  PyStr.occurrences "-" vm_name <> 1%nat ->
  number_from_name vm_name = Raise ValueError.
Proof. apply number_from_name_hyphen_count. Qed.

Lemma number_from_name_rejects_other_hyphen_counts_witness :
  number_from_name "demo" = Raise ValueError
  /\ number_from_name "my-pool-3" = Raise ValueError.
Proof.
  split; apply number_from_name_rejects_other_hyphen_counts; cbn; discriminate.
Defined.

(** Whenever [number_from_name] returns a number, the name has exactly one
    hyphen and the number is [int] of the text after it; the text before
    the hyphen plays no part, so the name of another pool reads as well. *)
Theorem number_from_name_reads_only_the_suffix (vm_name : string) (z : Z) :
  number_from_name vm_name = Ok z ->
  exists stem number : string,
    vm_name = stem ++ "-" ++ number
    /\ PyStr.contains "-" stem = false
    /\ PyStr.int number = Ok z
    /\ forall other : string,
         PyStr.contains "-" other = false ->
         number_from_name (other ++ "-" ++ number) = Ok z.
Proof.
  intros H.
  assert (Hocc : PyStr.occurrences "-" vm_name = 1%nat).
  { destruct (Nat.eq_dec (PyStr.occurrences "-" vm_name) 1) as [E|E]; [exact E|].
    rewrite (number_from_name_hyphen_count _ E) in H. discriminate. }
  pose proof (concat_split "-" vm_name) as J.
  unfold number_from_name in H.
  destruct (PyStr.split "-" vm_name) as [|stem [|number [|c r]]] eqn:S; try discriminate.
  cbn [String.concat] in J.
  exists stem, number. split; [symmetry; exact J|].
  assert (Hstem : PyStr.contains "-" stem = false).
  { destruct (PyStr.contains "-" stem) eqn:C; [|reflexivity].
    apply contains_occurrences in C. rewrite <- J, occurrences_app in Hocc.
    change ("-" ++ number) with (String "-" number) in Hocc.
    cbn [PyStr.occurrences] in Hocc. rewrite Ascii.eqb_refl in Hocc. lia. }
  assert (Hnum : PyStr.contains "-" number = false).
  { destruct (PyStr.contains "-" number) eqn:C; [|reflexivity].
    apply contains_occurrences in C. rewrite <- J, occurrences_app in Hocc.
    change ("-" ++ number) with (String "-" number) in Hocc.
    cbn [PyStr.occurrences] in Hocc. rewrite Ascii.eqb_refl in Hocc. lia. }
  repeat split; [exact Hstem | exact H |].
  intros other Hother. unfold number_from_name.
  change ("-" ++ number) with (String "-" number).
  rewrite (split_at_first_separator "-" _ _ Hother), (split_without_separator _ _ Hnum).
  exact H.
Qed.

Lemma number_from_name_reads_only_the_suffix_witness :
  exists stem number : string,
    "demo-12" = stem ++ "-" ++ number
    /\ PyStr.int number = Ok 12
    /\ number_from_name ("other" ++ "-" ++ number) = Ok 12.
Proof.
  destruct (number_from_name_reads_only_the_suffix "demo-12" 12 eq_refl)
    as (stem & number & Hname & _ & Hint & Hother).
  exists stem, number. repeat split; [exact Hname | exact Hint |].
  apply Hother. reflexivity.
Defined.

(** A negative index does not survive the naming scheme: its sign is a
    second hyphen, so the name built for it cannot be read back, whatever
    the pool name. *)
Theorem negative_index_does_not_round_trip (args : Args) (i : Z) :
  i < 0 ->
  number_from_name (name_from_number i args) = Raise ValueError.
Proof.
  intros Hi. apply number_from_name_hyphen_count.
  unfold name_from_number. rewrite occurrences_app.
  destruct i as [|p|p]; try lia. unfold PyStr.str_of_Z.
  cbn [append PyStr.occurrences]. rewrite !Ascii.eqb_refl. lia.
Qed.

Lemma negative_index_does_not_round_trip_witness :
  number_from_name (name_from_number (-1) demo_args) = Raise ValueError.
Proof. apply negative_index_does_not_round_trip. lia. Defined.

(* ================================================================== *)
(** * Access token: when the request goes wrong *)
(* ================================================================== *)

Lemma add_days_out_of_range (dt : PyTime.datetime) (d : Z) :
  PyTime.ordinal dt + d < 1 \/ PyTime.MAXORDINAL < PyTime.ordinal dt + d ->
  PyTime.add_days dt d = Raise OverflowError.
Proof.
  intros H. unfold PyTime.add_days.
  destruct (Z.abs d >? PyTime.MAX_DELTA_DAYS); [reflexivity|].
  replace ((1 <=? PyTime.ordinal dt + d) && (PyTime.ordinal dt + d <=? PyTime.MAXORDINAL))
    with false; [reflexivity|].
  symmetry. apply andb_false_iff.
  destruct H as [H|H]; [left | right]; apply Z.leb_gt; exact H.
Qed.

(** When the expiry date falls outside the calendar, the token request is
    abandoned with [OverflowError] right after the connection string was
    read: no token is requested and no file is touched. *)
Theorem sas_expiry_out_of_range (args : Args) (w : world)
    (account : list (string * scalar)) (cs : string) (t : trace) :
  let issued := utcnow w (t ++ [Execute (connection_string_command args)])%list in
  (forall t0, az_execute w t0 (connection_string_command args) = Ok (RObj account)) ->
  assoc "connectionString" account = Some (SStr cs) ->
  PyTime.ordinal issued + sas_expiry_days args < 1
  \/ PyTime.MAXORDINAL < PyTime.ordinal issued + sas_expiry_days args ->
  pool_data_container_sas args w t
  = (Raise OverflowError, (t ++ [Execute (connection_string_command args)])%list).
Proof.
  intros issued Hacc Hcs Hrange. unfold pool_data_container_sas.
  rewrite (bind_ok _ _ _ _ _ _ (connection_string_run args w account cs Hacc Hcs t)).
  unfold bind at 1. unfold now at 1. fold issued.
  rewrite (add_days_out_of_range issued _ Hrange). reflexivity.
Qed.

Lemma sas_expiry_out_of_range_witness :
  pool_data_container_sas (default_args "demo")
    {| az_execute := fun _ c => demo_plane c;
       subprocess_call := fun _ _ => 0;
       get_input := fun _ _ => "n";
       utcnow := fun _ =>
         {| PyTime.ordinal := PyTime.MAXORDINAL; PyTime.hour := 23; PyTime.minute := 59;
            PyTime.second := 59; PyTime.microsecond := 0 |};
       path_exists := fun _ _ => true |} []
  = (Raise OverflowError, [Execute (connection_string_command demo_args)]).
Proof.
  apply (sas_expiry_out_of_range demo_args _
           [("connectionString", SStr "AccountName=demo")] "AccountName=demo" []).
  - intros t0. reflexivity.
  - reflexivity.
  - right. cbn. unfold PyTime.MAXORDINAL. lia.
Defined.

(** When the control plane answers the token request with anything but a
    string, the token file has already been opened for writing, so an
    earlier token is lost; the write raises [TypeError], nothing is written
    and nothing is uploaded. *)
Theorem sas_request_without_token (args : Args) (w : world)
    (account : list (string * scalar)) (cs : string) (answer : result) (t : trace) :
  let issued := utcnow w (t ++ [Execute (connection_string_command args)])%list in
  (forall t0, az_execute w t0 (connection_string_command args) = Ok (RObj account)) ->
  assoc "connectionString" account = Some (SStr cs) ->
  (forall t0 e, az_execute w t0 (generate_sas_command args cs e) = Ok answer) ->
  (forall token, answer <> RScalar (SStr token)) ->
  PyTime.valid issued ->
  1 <= PyTime.ordinal issued + sas_expiry_days args <= PyTime.MAXORDINAL ->
  exists (expiry : string) (t' : trace),
    pool_data_container_sas args w t = (Raise TypeError, t')
    /\ executed t'
       = (executed t ++ [connection_string_command args;
                         generate_sas_command args cs expiry])%list
    /\ filter is_file_event t'
       = (filter is_file_event t ++ [OpenFile (sas_file_path args) "w+"])%list.
Proof.
  intros issued Hacc Hcs Htok Hbad Hvalid Hrange. unfold pool_data_container_sas.
  rewrite (bind_ok _ _ _ _ _ _ (connection_string_run args w account cs Hacc Hcs t)).
  unfold bind at 1. unfold now at 1. fold issued.
  rewrite (add_days_in_range issued (sas_expiry_days args)) by (apply Hvalid || exact Hrange).
  rewrite bind_lift_ok.
  unfold bind at 1. unfold execute at 1. cbn [app py_str].
  unfold pool_data_container_name.
  match goal with
  | |- context [az_execute w ?t0 ["storage"; "container"; "generate-sas"; ?a; ?b; ?c; ?d;
                                  ("--expiry=" ++ ?e)%string]] =>
      change ["storage"; "container"; "generate-sas"; a; b; c; d; ("--expiry=" ++ e)%string]
        with (generate_sas_command args cs e);
      exists e
  end.
  rewrite Htok.
  match goal with
  | |- context [bind (ensure_exists ?dir) _ w ?t0] =>
      destruct (ensure_exists_frame dir w t0) as (t1 & Hens & He1 & Hf1)
  end.
  rewrite (bind_ok _ _ _ _ _ _ Hens).
  fold (sas_file_path args).
  unfold bind at 1. unfold emit at 1.
  eexists. split.
  - apply bind_raise.
    destruct answer as [[| | |token]| |]; try reflexivity.
    exfalso. apply (Hbad token). reflexivity.
  - rewrite executed_app, filter_app, He1, Hf1, !executed_app, !filter_app. cbn.
    rewrite <- !app_assoc, !app_nil_r. auto.
Qed.

Lemma sas_request_without_token_witness :
  exists (expiry : string) (t' : trace),
    pool_data_container_sas demo_args (scripted_world no_token_plane all_succeed "n") []
    = (Raise TypeError, t')
    /\ filter is_file_event t'
       = [OpenFile "secrets/azure_vm_pool_demo_sas_storage_container_data.txt" "w+"].
Proof.
  destruct (sas_request_without_token demo_args
              (scripted_world no_token_plane all_succeed "n")
              [("connectionString", SStr "AccountName=demo")] "AccountName=demo" RNone [])
    as (expiry & t' & Hrun & _ & Hf).
  - intros t0. reflexivity.
  - reflexivity.
  - intros t0 e. reflexivity.
  - intros token. discriminate.
  - unfold PyTime.valid, PyTime.MAXORDINAL. cbn. lia.
  - unfold PyTime.MAXORDINAL. cbn. lia.
  - exists expiry, t'. split; [exact Hrun | exact Hf].
Defined.

(* ================================================================== *)
(** * Creating a VM *)
(* ================================================================== *)

Lemma runs_location (args : Args) (w : world) (group : list (string * scalar))
    (loc : scalar) :
  (forall t, az_execute w t (group_show_command args) = Ok (RObj group)) ->
  assoc "location" group = Some loc ->
  runs w (get_resource_group_location args) (eq loc) [] [group_show_command args].
Proof.
  intros Hg Hl. unfold get_resource_group_location.
  eapply runs_weaken with (P := eq loc).
  - eapply runs_bind.
    + apply (runs_execute w (group_show_command args) (eq (RObj group))).
      intros t. exists (RObj group). split; [apply Hg | reflexivity].
    + intros r <-. cbn [getitem]. rewrite Hl. apply runs_lift.
  - auto.
  - reflexivity.
  - reflexivity.
Qed.

Lemma runs_if_quiet {A} (w : world) (b : bool) (m1 m2 : M A)
    (c e : list (list string)) :
  (b = true -> runs w m1 (fun _ => True) [] (if b then c else e)) ->
  (b = false -> runs w m2 (fun _ => True) [] (if b then c else e)) ->
  runs w (if b then m1 else m2) (fun _ => True) [] (if b then c else e).
Proof. destruct b; auto. Qed.

Lemma runs_create_vm (args : Args) (w : world) (k : knowledge) (vm_number : Z) :
  answers_vm_creation args w k (name_from_number vm_number args) ->
  runs w (create_vm vm_number args) (fun _ => True) []
    (create_vm_commands args k (name_from_number vm_number args)).
Proof.
  intros (Hgroup & Hloc & Hacc & Hcs & Hip & Hnic & Hblob & Hmut).
  set (vm_name := name_from_number vm_number args) in *.
  assert (Loc := runs_location args w _ _ Hgroup Hloc).
  assert (Conn := runs_connection_string args w _ _ Hacc Hcs).
  assert (Mut : forall c,
            In c [ip_create_command args (py_str (region k)) vm_name;
                  nic_create_command args (py_str (region k)) vm_name;
                  blob_delete_command args (connection_string k) vm_name;
                  vm_create_command args (py_str (region k)) vm_name] ->
            runs w (execute c) (fun _ => True) [] [c]).
  { intros c Hc. apply runs_answer. intros t. apply Hmut. exact Hc. }
  unfold create_vm, create_vm_commands. fold vm_name.
  eapply runs_weaken with (P := fun _ => True).
  - (* public address *)
    eapply runs_bind.
    { unfold public_ip_exists, vm_pool_command.
      eapply runs_bind.
      - apply (runs_execute w (ip_show_command args vm_name)
                 (fun r => is_none r = negb (ip_known k vm_name))). exact Hip.
      - intros r Hr. rewrite Hr, Bool.negb_involutive.
        apply (runs_done w _ (eq (ip_known k vm_name)) eq_refl). }
    intros ip <-.
    eapply runs_bind with (P := fun _ : unit => True) (e1 := if ip_known k vm_name then []
                                else [group_show_command args;
                                      ip_create_command args (py_str (region k)) vm_name]).
    { destruct (ip_known k vm_name); cbn [negb].
      - apply runs_warning.
      - eapply runs_weaken with (P := fun _ => True).
        + eapply runs_bind; [apply runs_warning|]. intros _ _.
          eapply runs_bind.
          * unfold create_public_ip, vm_pool_command.
            eapply runs_bind; [exact Loc|]. intros l <-.
            apply Mut. cbn. auto.
          * intros _ _. apply (runs_done w tt (fun _ => True) I).
        + auto.
        + reflexivity.
        + same_commands. }
    intros _ _.
    (* network interface *)
    eapply runs_bind.
    { unfold nic_exists, vm_pool_command.
      eapply runs_bind.
      - apply (runs_execute w (nic_show_command args vm_name)
                 (fun r => is_none r = negb (nic_known k vm_name))). exact Hnic.
      - intros r Hr. rewrite Hr, Bool.negb_involutive.
        apply (runs_done w _ (eq (nic_known k vm_name)) eq_refl). }
    intros nic <-.
    eapply runs_bind with (P := fun _ : unit => True) (e1 := if nic_known k vm_name then []
                                else [group_show_command args;
                                      nic_create_command args (py_str (region k)) vm_name]).
    { destruct (nic_known k vm_name); cbn [negb].
      - apply runs_warning.
      - eapply runs_weaken with (P := fun _ => True).
        + eapply runs_bind; [apply runs_warning|]. intros _ _.
          eapply runs_bind.
          * unfold create_nic, vm_pool_command.
            eapply runs_bind; [exact Loc|]. intros l <-.
            apply Mut. cbn. auto.
          * intros _ _. apply (runs_done w tt (fun _ => True) I).
        + auto.
        + reflexivity.
        + same_commands. }
    intros _ _.
    (* stale OS disk *)
    eapply runs_bind.
    { unfold vm_os_disk_blob_exists.
      eapply runs_bind; [exact Conn|]. intros c <-. cbn [py_str].
      eapply runs_bind.
      - apply (runs_execute w (blob_exists_command args (connection_string k) vm_name)
                 (fun r => exists flag, getitem r "exists" = Ok flag
                                        /\ truthy flag = blob_stale k vm_name)).
        intros t. destruct (Hblob t) as (d & flag & Hr & Hd & Hf).
        exists (RObj d). split; [exact Hr|]. exists flag. cbn [getitem]. rewrite Hd. auto.
      - intros r (flag & Hget & Hf). rewrite Hget.
        apply (runs_done w flag (fun f => truthy f = blob_stale k vm_name) Hf). }
    intros flag Hflag. rewrite Hflag.
    eapply runs_bind with (P := fun _ : unit => True) (e1 := if blob_stale k vm_name then
                                  [connection_string_command args;
                                   blob_delete_command args (connection_string k) vm_name]
                                else []).
    { destruct (blob_stale k vm_name).
      - eapply runs_weaken with (P := fun _ => True).
        + eapply runs_bind; [apply runs_warning|]. intros _ _.
          unfold delete_vm_os_disk_blob.
          eapply runs_bind; [exact Conn|]. intros c <-. cbn [py_str].
          eapply runs_bind; [apply Mut; cbn; auto|]. intros _ _.
          apply (runs_done w tt (fun _ => True) I).
        + auto.
        + reflexivity.
        + same_commands.
      - apply (runs_done w tt (fun _ => True) I). }
    intros _ _.
    (* the VM itself *)
    eapply runs_bind; [exact Loc|]. intros l <-.
    eapply runs_bind.
    { destruct (no_wait args); apply runs_warning. }
    intros _ _.
    eapply runs_bind.
    { unfold vm_pool_command.
      apply (Mut (vm_create_command args (py_str (region k)) vm_name)). cbn. auto. }
    intros r _.
    eapply runs_bind.
    { destruct (negb (no_wait args));
        [apply runs_warning | apply (runs_done w tt (fun _ => True) I)]. }
    intros _ _. apply (runs_done w r (fun _ => True) I).
  - auto.
  - reflexivity.
  - same_commands.
Qed.

(** create_vm looks for the public address and the NIC and creates each
    only when it is missing, deletes the OS-disk blob when the existence
    test says one is left over, and issues the VM creation last; the blob it
    tests for is named without the [.vhd] extension that the deletion
    uses. *)
Theorem create_vm_ensures_then_creates (args : Args) (w : world) (k : knowledge)
    (vm_number : Z) (t : trace) :
  answers_vm_creation args w k (name_from_number vm_number args) ->
  exists (r : result) (t' : trace),
    create_vm vm_number args w t = (Ok r, t')
    /\ executed t'
       = (executed t
            ++ create_vm_commands args k (name_from_number vm_number args))%list
    /\ called t' = called t.
Proof.
  intros H. destruct (runs_create_vm args w k vm_number H t) as (r & t' & Hrun & _ & Hc & He).
  exists r, t'. rewrite app_nil_r in Hc. auto.
Qed.

Lemma fresh_plane_answers_vm_creation (vm_name : string) :
  answers_vm_creation demo_args (scripted_world fresh_plane all_succeed "n")
    fresh_knowledge vm_name.
Proof.
  unfold answers_vm_creation. repeat split; try reflexivity.
  - intros t. eexists. split; reflexivity.
  - intros t. eexists. split; reflexivity.
  - intros t. do 2 eexists. repeat split.
  - intros t c Hc. cbn in Hc.
    repeat (destruct Hc as [<-|Hc]; [eexists; reflexivity|]). contradiction.
Qed.

Lemma create_vm_ensures_then_creates_witness :
  exists (r : result) (t' : trace),
    create_vm 1 demo_args (scripted_world fresh_plane all_succeed "n") [] = (Ok r, t')
    /\ executed t'
       = [ip_show_command demo_args "demo-1";
          group_show_command demo_args;
          ip_create_command demo_args "westeurope" "demo-1";
          nic_show_command demo_args "demo-1";
          group_show_command demo_args;
          nic_create_command demo_args "westeurope" "demo-1";
          connection_string_command demo_args;
          ["storage"; "blob"; "exists"; "--name=demo-1_os_disk"; "--container-name=vhds";
           "--connection-string=AccountName=demo"];
          connection_string_command demo_args;
          ["storage"; "blob"; "delete"; "--name=demo-1_os_disk.vhd"; "--container-name=vhds";
           "--connection-string=AccountName=demo"];
          group_show_command demo_args;
          vm_create_command demo_args "westeurope" "demo-1"].
Proof.
  destruct (create_vm_ensures_then_creates demo_args
              (scripted_world fresh_plane all_succeed "n") fresh_knowledge 1 []
              (fresh_plane_answers_vm_creation _))
    as (r & t' & Hrun & He & _).
  exists r, t'. split; [exact Hrun | exact He].
Defined.

(* ================================================================== *)
(** * Creating a pool *)
(* ================================================================== *)

Lemma runs_at_of_runs {A} (w : world) (m : M A) (t : trace) (P : A -> Prop)
    (c e : list (list string)) :
  runs w m P c e -> runs_at w m t P c e.
Proof. intros H. apply H. Qed.

Lemma runs_at_bind {A B} (w : world) (m : M A) (f : A -> M B) (t : trace)
    (P : A -> Prop) (Q : B -> Prop) (c1 c2 e1 e2 : list (list string)) :
  runs_at w m t P c1 e1 ->
  (forall a t1, P a -> called t1 = (called t ++ c1)%list ->
                executed t1 = (executed t ++ e1)%list ->
                runs_at w (f a) t1 Q c2 e2) ->
  runs_at w (bind m f) t Q (c1 ++ c2) (e1 ++ e2).
Proof.
  intros (a & t1 & Hrun & Ha & Hc & He) Hf.
  destruct (Hf a t1 Ha Hc He) as (b & t2 & Hrun2 & Hb & Hc2 & He2).
  exists b, t2. rewrite (bind_ok _ _ _ _ _ _ Hrun), Hrun2, Hc2, He2, Hc, He.
  rewrite !app_assoc. auto.
Qed.

Lemma runs_at_weaken {A} (w : world) (m : M A) (t : trace) (P Q : A -> Prop)
    (c c' e e' : list (list string)) :
  runs_at w m t P c e -> (forall a, P a -> Q a) -> c = c' -> e = e' ->
  runs_at w m t Q c' e'.
Proof.
  intros (a & t' & Hr & Ha & Hc & He) HPQ <- <-. exists a, t'. auto.
Qed.

Lemma runs_for_each_any {A B} (w : world) (f : A -> M B)
    (cmds execs : A -> list (list string)) (l : list A) :
  (forall x, In x l -> runs w (f x) (fun _ => True) (cmds x) (execs x)) ->
  runs w (for_each f l) (fun ys => length ys = length l)
    (flat_map cmds l) (flat_map execs l).
Proof.
  induction l as [|x l IH]; intros H.
  - cbn. apply (runs_done w [] (fun ys : list B => length ys = 0%nat) eq_refl).
  - cbn [for_each flat_map].
    eapply runs_bind; [apply H; left; reflexivity|]. intros y _.
    eapply runs_weaken with (P := fun ys => length ys = length (x :: l)).
    + eapply runs_bind; [apply IH; intros x' Hx'; apply H; right; exact Hx'|].
      intros ys Hys.
      apply (runs_done w (y :: ys) (fun ys0 => length ys0 = length (x :: l))).
      cbn. rewrite Hys. reflexivity.
    + auto.
    + apply app_nil_r.
    + apply app_nil_r.
Qed.

Lemma runs_ensure_exists (w : world) (directory : string) :
  runs w (ensure_exists directory) (fun _ => True) [] [].
Proof.
  intros t. unfold ensure_exists, bind, exists_path, emit, ret.
  destruct (negb (directory =? "")%string && negb (path_exists w t directory));
    exists tt; eexists; (split; [reflexivity|]).
  - rewrite called_app, executed_app. cbn. rewrite !app_nil_r. auto.
  - rewrite !app_nil_r. auto.
Qed.

Lemma runs_gen_ssh_keys (w : world) (args : Args) :
  runs w (gen_ssh_keys args) (fun _ => True) [keygen_command args] [].
Proof.
  unfold gen_ssh_keys.
  eapply runs_weaken with (P := fun _ => True).
  - eapply runs_bind; [apply runs_ensure_exists|]. intros _ _.
    eapply runs_bind; [apply runs_call|]. intros status _.
    destruct (negb (status =? 0));
      [apply runs_warning | apply (runs_done w tt (fun _ => True) I)].
  - auto.
  - reflexivity.
  - reflexivity.
Qed.

Section Storage.

Variables (args : Args) (w : world).
Variables (account : list (string * scalar)) (cs : string).

Hypothesis account_known :
  forall t : trace, az_execute w t (connection_string_command args) = Ok (RObj account).
Hypothesis account_string : assoc "connectionString" account = Some (SStr cs).

Lemma runs_create_pool_container (container : string) :
  (forall t, exists r, az_execute w t (container_create_command container cs) = Ok r) ->
  runs w (create_pool_container container args) (fun _ => True) []
    [connection_string_command args; container_create_command container cs].
Proof.
  intros H. unfold create_pool_container.
  eapply runs_weaken with (P := fun _ => True).
  - eapply runs_bind;
      [apply (runs_connection_string args w account (SStr cs) account_known account_string)|].
    intros c <-. cbn [py_str]. apply (runs_answer w _ H).
  - auto.
  - reflexivity.
  - reflexivity.
Qed.

Lemma runs_upload_blob (container file_path blob_name : string)
    (description : list (string * scalar)) (present : scalar) :
  (forall t, az_execute w t (container_exists_command container cs)
             = Ok (RObj description)) ->
  assoc "exists" description = Some present ->
  (forall t, exists r, az_execute w t (container_create_command container cs) = Ok r) ->
  (forall t, exists r,
     az_execute w t (blob_upload_command container file_path blob_name cs) = Ok r) ->
  runs w (upload_blob container file_path blob_name args) (fun _ => True) []
    (blob_upload_commands args container cs present file_path blob_name).
Proof.
  intros Hex Hpresent Hcreate Hupload.
  assert (Conn := runs_connection_string args w account (SStr cs)
                    account_known account_string).
  unfold upload_blob, blob_upload_commands.
  eapply runs_weaken with (P := fun _ => True).
  - eapply runs_bind.
    { unfold pool_container_exists.
      eapply runs_bind; [exact Conn|]. intros c <-. cbn [py_str].
      eapply runs_bind.
      - apply (runs_execute w (container_exists_command container cs)
                 (eq (RObj description))).
        intros t. exists (RObj description). split; [apply Hex | reflexivity].
      - intros r <-. cbn [getitem]. rewrite Hpresent. apply runs_lift. }
    intros flag <-.
    eapply runs_bind with (P := fun _ : unit => True)
      (e1 := if truthy present then []
             else [connection_string_command args;
                   container_create_command container cs]).
    { destruct (truthy present); cbn [negb].
      - apply (runs_done w tt (fun _ => True) I).
      - eapply runs_weaken with (P := fun _ => True).
        + eapply runs_bind; [apply (runs_create_pool_container container Hcreate)|].
          intros _ _. apply (runs_done w tt (fun _ => True) I).
        + auto.
        + reflexivity.
        + same_commands. }
    intros _ _.
    eapply runs_bind; [exact Conn|]. intros c <-. cbn [fmt_s].
    eapply runs_bind; [apply runs_lift|]. intros text <-.
    eapply runs_bind; [apply (runs_answer w _ Hupload)|]. intros _ _.
    apply (runs_done w tt (fun _ => True) I).
  - auto.
  - reflexivity.
  - same_commands.
Qed.

End Storage.

Lemma runs_remove_ssh_host (w : world) (args : Args) (v : vm) :
  runs w (remove_ssh_host v args) (fun _ => True) [remove_host_command args v] [].
Proof.
  unfold remove_ssh_host.
  eapply runs_weaken with (P := fun _ => True).
  - eapply runs_bind; [apply runs_call|]. intros _ _.
    apply (runs_done w tt (fun _ => True) I).
  - auto.
  - reflexivity.
  - reflexivity.
Qed.

Lemma runs_vm_test_ssh (w : world) (args : Args) (v : vm) :
  runs w (vm_test_ssh v args) (fun _ => True) [ssh_command v "exit" args] [].
Proof.
  unfold vm_test_ssh, vm_run_script.
  eapply runs_weaken with (P := fun _ => True).
  - eapply runs_bind; [apply runs_call|]. intros status _.
    apply (runs_done w (status =? 0) (fun _ => True) I).
  - auto.
  - reflexivity.
  - reflexivity.
Qed.

Lemma flat_map_singleton {A B} (f : A -> B) (l : list A) :
  flat_map (fun x => [f x]) l = map f l.
Proof. induction l as [|x l IH]; [reflexivity|]. cbn. rewrite IH. reflexivity. Qed.

Lemma flat_map_nil {A B} (l : list A) : flat_map (fun _ : A => @nil B) l = [].
Proof. induction l as [|x l IH]; [reflexivity | exact IH]. Qed.

(** On a resource group without VMs, create-pool ensures the storage
    account, generates and uploads the key pair, creates the data container
    and the network, creates the VMs with indices 0 to [num_vms - 1] in that
    order, lists the pool, removes the host entry of every VM listed and
    only then connects to each of them. *)
Theorem create_pool_provisions_in_order (args : Args) (w : world) (k : knowledge)
    (created : list vm) (t : trace) :
  answers_pool_creation args w k t created ->
  exists t' : trace,
    create_pool args w t = (Ok tt, t')
    /\ executed t' = (executed t ++ create_pool_commands args k)%list
    /\ called t' = (called t ++ create_pool_programs args created)%list.
Proof.
  intros (Hvm & Hfirst & Hsecond & Hkeys & Hpresent & Hmut & Hupload).
  destruct (Hvm 0) as (Hgroup & Hloc & Hacc & Hcs & _).
  assert (Loc := runs_location args w _ _ Hgroup Hloc).
  assert (Mut : forall c,
            In c [storage_create_command args (py_str (region k));
                  container_create_command (ssh_key_container_name args) (connection_string k);
                  container_create_command (data_container_name args) (connection_string k);
                  vnet_create_command args (py_str (region k))] ->
            forall t0, exists r, az_execute w t0 c = Ok r).
  { intros c Hc t0. apply Hmut. exact Hc. }
  unfold create_pool.
  (* the resource group exists and lists no VM *)
  assert (Hex : resource_group_exists args w t
                = (Ok true, (t ++ [Execute (group_show_command args)])%list)).
  { unfold resource_group_exists, bind, execute, ret. cbn [app].
    fold (group_show_command args). rewrite Hgroup. reflexivity. }
  rewrite (bind_ok _ _ _ _ _ _ Hex). cbn [negb].
  unfold bind at 1. unfold ret at 1.
  assert (Hvms : get_vms args w (t ++ [Execute (group_show_command args)])%list
                 = (Ok (RVms []),
                    ((t ++ [Execute (group_show_command args)])
                       ++ [Execute (vm_list_command args)])%list)).
  { rewrite get_vms_run, Hfirst. reflexivity. }
  rewrite (bind_ok _ _ _ _ _ _ Hvms). cbn [py_len length Z.of_nat].
  rewrite bind_lift_ok. cbn [Z.gtb Z.compare].
  set (t2 := ((t ++ [Execute (group_show_command args)])
                ++ [Execute (vm_list_command args)])%list).
  (* provisioning proper *)
  assert (R : runs_at w
    (warning "{:%Hh%Mm%Ss}: Creating pool of {:d} VMs for Resource Group '{:s}' using image '{:s}'."
       [PyStr.str_of_Z (num_vms args); resource_group args; vm_image args] ;;;
     warning "{:%Hh%Mm%Ss}: Ensuring storage account exists for Resource Group '{:s}'."
       [resource_group args] ;;;
     create_storage_account args ;;;
     warning "{:%Hh%Mm%Ss}: Creating SSH keys for VM pool {:d} VMs for Resource Group '{:s}'."
       [PyStr.str_of_Z (num_vms args); resource_group args] ;;;
     gen_ssh_keys args ;;;
     upload_ssh_keys args ;;;
     warning "{:%Hh%Mm%Ss}: Creating pool data container '{:s}' if it doesn't already exist."
       [pool_data_container_name args] ;;;
     create_pool_data_container args ;;;
     warning "{:%Hh%Mm%Ss}: Ensuring virtual network exists for pool '{:s}'."
       [resource_group args] ;;;
     create_virtual_network args ;;;
     for_each (fun i => create_vm i args) (range0 (num_vms args)) ;;;
     vms <- get_vms args ;;
     warning "{:%Hh%Mm%Ss}: Removing any existing SSH host entries for each VM." [] ;;;
     l <- lift (iter_vms vms) ;;
     for_each (fun v => remove_ssh_host v args) l ;;;
     warning "{:%Hh%Mm%Ss}: Testing SSH connection to each VM" [] ;;;
     l <- lift (iter_vms vms) ;;
     for_each (fun v => vm_test_ssh v args) l ;;;
     print_vm_table vms args ;;;
     warning "{:%Hh%Mm%Ss}: Pool of {:d} VMs for Resource Group '{:s}' created in {:s}."
       [PyStr.str_of_Z (num_vms args); resource_group args])
    t2 (fun _ => True)
    (create_pool_programs args created)
    ([group_show_command args; storage_create_command args (py_str (region k))]
       ++ keys_upload_commands args k
       ++ [connection_string_command args;
           container_create_command (data_container_name args) (connection_string k)]
       ++ [group_show_command args; vnet_create_command args (py_str (region k))]
       ++ flat_map (fun i => create_vm_commands args k (name_from_number i args))
            (range0 (num_vms args))
       ++ [vm_list_command args])).
  { eapply runs_at_weaken with (P := fun _ => True).
    - eapply runs_at_bind; [apply runs_at_of_runs, runs_warning|]. intros _ ? _ _ _.
      eapply runs_at_bind; [apply runs_at_of_runs, runs_warning|]. intros _ ? _ _ _.
      eapply runs_at_bind.
      { apply runs_at_of_runs. unfold create_storage_account, vm_pool_command.
        eapply runs_bind; [exact Loc|]. intros l <-.
        apply runs_answer. apply Mut. cbn. auto. }
      intros _ ? _ _ _.
      eapply runs_at_bind; [apply runs_at_of_runs, runs_warning|]. intros _ ? _ _ _.
      eapply runs_at_bind; [apply runs_at_of_runs, runs_gen_ssh_keys|]. intros _ ? _ _ _.
      eapply runs_at_bind.
      { apply runs_at_of_runs. unfold upload_ssh_keys, create_pool_ssh_key_container,
          pool_ssh_key_container_name.
        eapply runs_bind.
        { eapply runs_bind.
          - apply (runs_create_pool_container args w _ _ Hacc Hcs).
            apply Mut. cbn. auto.
          - intros _ _. apply (runs_done w tt (fun _ => True) I). }
        intros _ _.
        eapply runs_bind.
        { apply (runs_upload_blob args w _ _ Hacc Hcs _ _ _ _ _ Hkeys Hpresent).
          - apply Mut. cbn. auto.
          - intros tx. apply Hupload. }
        intros _ _.
        eapply runs_bind; [apply runs_warning|]. intros _ _.
        eapply runs_bind.
        { apply (runs_upload_blob args w _ _ Hacc Hcs _ _ _ _ _ Hkeys Hpresent).
          - apply Mut. cbn. auto.
          - intros tx. apply Hupload. }
        intros _ _. apply runs_warning. }
      intros _ ? _ _ _.
      eapply runs_at_bind; [apply runs_at_of_runs, runs_warning|]. intros _ ? _ _ _.
      eapply runs_at_bind.
      { apply runs_at_of_runs. unfold create_pool_data_container, pool_data_container_name.
        eapply runs_bind.
        - apply (runs_create_pool_container args w _ _ Hacc Hcs).
          apply Mut. cbn. auto.
        - intros _ _. apply (runs_done w tt (fun _ => True) I). }
      intros _ ? _ _ _.
      eapply runs_at_bind; [apply runs_at_of_runs, runs_warning|]. intros _ tn _ _ _.
      eapply runs_at_bind.
      { apply runs_at_of_runs. unfold create_virtual_network, vm_pool_command.
        eapply runs_bind; [exact Loc|]. intros l <-.
        apply runs_answer. apply Mut. cbn. auto 6. }
      intros _ tv _ _ Hev.
      eapply runs_at_bind.
      { apply runs_at_of_runs.
        apply (runs_for_each_any w (fun i => create_vm i args) (fun _ => [])
                 (fun i => create_vm_commands args k (name_from_number i args))).
        intros i _. apply runs_create_vm. apply Hvm. }
      intros _ tf _ _ Hef.
      eapply runs_at_bind with (P := eq (RVms created)) (c1 := [])
                               (e1 := [vm_list_command args]).
      { exists (RVms created). eexists. rewrite get_vms_run, Hsecond.
        - split; [reflexivity|]. rewrite called_app, executed_app. cbn.
          rewrite !app_nil_r. auto.
        - rewrite Hef, Hev. apply in_or_app. left. apply in_or_app. right.
          cbn. auto. }
      intros vms tl <- _ _. cbn [iter_vms].
      eapply runs_at_bind; [apply runs_at_of_runs, runs_warning|]. intros _ ? _ _ _.
      eapply runs_at_bind; [apply runs_at_of_runs, runs_lift|]. intros l ? <- _ _.
      eapply runs_at_bind.
      { apply runs_at_of_runs.
        apply (runs_for_each_any w (fun v => remove_ssh_host v args)
                 (fun v => [remove_host_command args v]) (fun _ => [])).
        intros v _. apply runs_remove_ssh_host. }
      intros _ ? _ _ _.
      eapply runs_at_bind; [apply runs_at_of_runs, runs_warning|]. intros _ ? _ _ _.
      eapply runs_at_bind; [apply runs_at_of_runs, runs_lift|]. intros l ? <- _ _.
      eapply runs_at_bind.
      { apply runs_at_of_runs.
        apply (runs_for_each_any w (fun v => vm_test_ssh v args)
                 (fun v => [ssh_command v "exit" args]) (fun _ => [])).
        intros v _. apply runs_vm_test_ssh. }
      intros _ ? _ _ _.
      eapply runs_at_bind; [apply runs_at_of_runs, runs_print_vm_table|]. intros _ ? _ _ _.
      apply runs_at_of_runs, runs_warning.
    - auto.
    - unfold create_pool_programs.
      rewrite !flat_map_singleton, !flat_map_nil. cbn [app].
      rewrite ?app_nil_r. reflexivity.
    - unfold keys_upload_commands.
      rewrite !flat_map_nil. cbn [app]. rewrite ?app_nil_r, <- ?app_assoc.
      cbn [app]. reflexivity. }
  destruct R as ([] & t' & Hrun & _ & Hc & He).
  exists t'. split; [exact Hrun|].
  rewrite He, Hc. unfold t2. rewrite !called_app, !executed_app. cbn [called executed].
  unfold create_pool_commands. rewrite ?app_nil_r, <- ?app_assoc. cbn [app]. auto.
Qed.

Lemma provisioning_world_answers : 
  answers_pool_creation demo_args provisioning_world fresh_knowledge [] stopped_vms.
Proof.
  unfold answers_pool_creation. repeat split; try reflexivity.
  - intros t. eexists. split; reflexivity.
  - intros t. eexists. split; reflexivity.
  - intros t. do 2 eexists. repeat split.
  - intros t c Hc. cbn in Hc.
    repeat (destruct Hc as [<-|Hc]; [eexists; reflexivity|]). contradiction.
  - intros t0 Hin. cbn [provisioning_world az_execute vm_list_command].
    replace (existsb (cmd_eqb (vnet_create_command demo_args "westeurope")) (executed t0))
      with true; [reflexivity|].
    symmetry. apply existsb_exists. eexists. split; [exact Hin|]. apply cmd_eqb_refl.
  - intros t0 c Hc. cbn in Hc.
    repeat (destruct Hc as [<-|Hc]; [eexists; reflexivity|]). contradiction.
  - intros t0 fp bn. eexists. reflexivity.
Qed.

Lemma create_pool_provisions_in_order_witness :
  exists t' : trace,
    create_pool demo_args provisioning_world [] = (Ok tt, t')
    /\ executed t' = create_pool_commands demo_args fresh_knowledge
    /\ filter (fun c => cmd_eqb (firstn 2 c) ["vm"; "create"]) (executed t')
       = [vm_create_command demo_args "westeurope" "demo-0";
          vm_create_command demo_args "westeurope" "demo-1"]
    /\ called t'
       = [keygen_command demo_args;
          ["ssh-keygen"; "-R"; "demo-0.westeurope.cloudapp.azure.com"];
          ["ssh-keygen"; "-R"; "demo-1.westeurope.cloudapp.azure.com"];
          ssh_command (sample_vm "demo-0" "VM deallocated") "exit" demo_args;
          ssh_command (sample_vm "demo-1" "VM deallocated") "exit" demo_args].
Proof.
  destruct (create_pool_provisions_in_order demo_args provisioning_world fresh_knowledge
              stopped_vms [] provisioning_world_answers)
    as (t' & Hrun & He & Hc).
  exists t'. rewrite He, Hc. repeat split. exact Hrun.
Defined.

(* ================================================================== *)
(** * deploy-task without a pool directory *)
(* ================================================================== *)

(** C5 (the code departs from the claim): [main] insists on
    [--pool-directory] for setup-pool, start-task and init-directory, not
    for deploy-task, although start-task never reads the directory and
    deploy-task joins it to the task directory.  deploy-task for pool
    [demo], two VMs, without [--pool-directory] passes the checks, kills
    the tasks on both VMs and then raises [TypeError] at the first upload:
    no copy is made to any VM. *)
Theorem deploy_task_unguarded_pool_directory :
  let args := without_pool_directory demo_args in
  let w := scripted_world demo_plane all_succeed "n" in
  let run := deploy_task args w [] in
  enforce_required_arguments (bare_command "deploy-task") = Ok tt
  /\ enforce_required_arguments (bare_command "setup-pool") = Raise (SystemExit (Some 2))
  /\ enforce_required_arguments (bare_command "start-task") = Raise (SystemExit (Some 2))
  /\ start_task args w [] = start_task demo_args w []
  /\ fst run = Raise TypeError
  /\ called (snd run) = flat_map (kill_commands args) demo_vms
  /\ filter is_copy (called (snd run)) = []
  /\ filter is_copy
       (called (snd (deploy_task demo_args w [])))
     = map (fun v => scp_command v "pool/task" "task" demo_args) demo_vms.
Proof.
  cbv zeta. repeat split; reflexivity.
Qed.

(* ================================================================== *)
(** * The calendar *)
(* ================================================================== *)

Lemma month_and_day_checked :
  forallb (fun leap =>
    forallb (fun n =>
      let '(m, d) := month_and_day leap n in
      (1 <=? m) && (m <=? 12) && (1 <=? d)
      && (d <=? Timestamp.month_length_in leap m)
      && (Timestamp.days_before_in leap m + d =? n + 1))
      (range0 (if leap then 366 else 365)))
    [true; false] = true.
Proof. vm_compute. reflexivity. Qed.

Lemma month_and_day_spec (leap : bool) (n : Z) :
  0 <= n < (if leap then 366 else 365) ->
  let '(m, d) := month_and_day leap n in
  1 <= m <= 12 /\ 1 <= d <= Timestamp.month_length_in leap m
  /\ Timestamp.days_before_in leap m + d = n + 1.
Proof.
  intros Hn. pose proof month_and_day_checked as H.
  rewrite forallb_forall in H.
  assert (Hl : In leap [true; false]) by (destruct leap; cbn; auto).
  specialize (H leap Hl). rewrite forallb_forall in H.
  assert (Hin : In n (range0 (if leap then 366 else 365))).
  { unfold range0. apply in_map_iff. exists (Z.to_nat n). split; [lia|].
    apply in_seq. destruct leap; lia. }
  specialize (H n Hin). destruct (month_and_day leap n) as [m d].
  rewrite !andb_true_iff in H. destruct H as [[[[H1 H2] H3] H4] H5].
  apply Z.leb_le in H1, H2, H3, H4. apply Z.eqb_eq in H5. lia.
Qed.

Lemma ymd_of_ordinal_steps (n0 : Z) :
  PyTime.ymd_of_ordinal n0
  = let n := n0 - 1 in
    let a := n / 146097 in
    let r1 := n mod 146097 in
    let b := r1 / 36524 in
    let r2 := r1 mod 36524 in
    let c := r2 / 1461 in
    let r3 := r2 mod 1461 in
    let e := r3 / 365 in
    let r4 := r3 mod 365 in
    let year := a * 400 + 1 + b * 100 + c * 4 + e in
    if (e =? 4) || (b =? 4) then (year - 1, 12, 31)
    else
      let '(m, d) := month_and_day ((e =? 3) && (negb (c =? 24) || (b =? 3))) r4 in
      (year, m, d).
Proof.
  unfold PyTime.ymd_of_ordinal, month_and_day. cbv zeta.
  repeat match goal with
         | |- context [if ?x then _ else _] => destruct x
         end; reflexivity.
Qed.

(** The leap-year rule on a year given by its place in the 400-year
    cycle. *)
Lemma is_leap_in_cycle (a b c e : Z) :
  0 <= b <= 3 -> 0 <= c <= 24 -> 0 <= e <= 3 ->
  Timestamp.is_leap (a * 400 + 1 + b * 100 + c * 4 + e)
  = (e =? 3) && (negb (c =? 24) || (b =? 3)).
Proof.
  intros Hb Hc He. unfold Timestamp.is_leap.
  set (y := a * 400 + 1 + b * 100 + c * 4 + e).
  assert (E4 := Z.div_mod y 4 ltac:(lia)).
  assert (B4 := Z.mod_pos_bound y 4 ltac:(lia)).
  assert (E100 := Z.div_mod y 100 ltac:(lia)).
  assert (B100 := Z.mod_pos_bound y 100 ltac:(lia)).
  assert (E400 := Z.div_mod y 400 ltac:(lia)).
  assert (B400 := Z.mod_pos_bound y 400 ltac:(lia)).
  destruct (Z.eqb_spec (y mod 4) 0), (Z.eqb_spec (y mod 100) 0),
    (Z.eqb_spec (y mod 400) 0), (Z.eqb_spec e 3), (Z.eqb_spec c 24),
    (Z.eqb_spec b 3);
    cbn; try reflexivity; exfalso; unfold y in *; lia.
Qed.

Lemma days_before_year_in_cycle (a b c e : Z) :
  0 <= a -> 0 <= b <= 3 -> 0 <= c <= 24 -> 0 <= e <= 3 ->
  Timestamp.days_before_year (a * 400 + 1 + b * 100 + c * 4 + e)
  = a * 146097 + b * 36524 + c * 1461 + e * 365.
Proof.
  intros Ha Hb Hc He. unfold Timestamp.days_before_year.
  replace (a * 400 + 1 + b * 100 + c * 4 + e - 1)
    with (a * 400 + b * 100 + c * 4 + e) by lia.
  rewrite <- (Z.div_unique (a * 400 + b * 100 + c * 4 + e) 4 (a * 100 + b * 25 + c) e)
    by lia.
  rewrite <- (Z.div_unique (a * 400 + b * 100 + c * 4 + e) 100 (a * 4 + b) (c * 4 + e))
    by lia.
  rewrite <- (Z.div_unique (a * 400 + b * 100 + c * 4 + e) 400 a (b * 100 + c * 4 + e))
    by lia.
  lia.
Qed.

(** [datetime.py] finds the civil date of a day: a valid date whose day
    number, counted from the leap-year rule, is the ordinal. *)
Lemma ymd_of_ordinal_spec (n : Z) :
  1 <= n ->
  let '(y, m, d) := PyTime.ymd_of_ordinal n in
  1 <= y /\ 1 <= m <= 12 /\ 1 <= d <= Timestamp.month_length y m
  /\ Timestamp.day_number y m d = n.
Proof.
  intros Hn. rewrite ymd_of_ordinal_steps. cbv zeta.
  assert (E1 := Z.div_mod (n - 1) 146097 ltac:(lia)).
  assert (B1 := Z.mod_pos_bound (n - 1) 146097 ltac:(lia)).
  set (a := (n - 1) / 146097) in *. set (r1 := (n - 1) mod 146097) in *.
  assert (E2 := Z.div_mod r1 36524 ltac:(lia)).
  assert (B2 := Z.mod_pos_bound r1 36524 ltac:(lia)).
  set (b := r1 / 36524) in *. set (r2 := r1 mod 36524) in *.
  assert (E3 := Z.div_mod r2 1461 ltac:(lia)).
  assert (B3 := Z.mod_pos_bound r2 1461 ltac:(lia)).
  set (c := r2 / 1461) in *. set (r3 := r2 mod 1461) in *.
  assert (E4 := Z.div_mod r3 365 ltac:(lia)).
  assert (B4 := Z.mod_pos_bound r3 365 ltac:(lia)).
  set (e := r3 / 365) in *. set (r4 := r3 mod 365) in *.
  assert (Ha : 0 <= a) by lia.
  assert (Hb : 0 <= b <= 4) by lia.
  assert (Hc : 0 <= c <= 24) by lia.
  assert (He : 0 <= e <= 4) by lia.
  clearbody r4 e. clearbody r3 c. clearbody r2 b. clearbody r1 a.
  destruct (Z.eqb_spec e 4) as [He4|He4]; [|destruct (Z.eqb_spec b 4) as [Hb4|Hb4]];
    cbn [orb].
  - (* the last day of a leap year *)
    assert (Hc23 : c <= 23) by lia.
    replace (a * 400 + 1 + b * 100 + c * 4 + e - 1)
      with (a * 400 + 1 + b * 100 + c * 4 + 3) by lia.
    unfold Timestamp.day_number, Timestamp.month_length.
    assert (Hb3 : 0 <= b <= 3) by lia.
    rewrite (is_leap_in_cycle a b c 3) by lia.
    rewrite (days_before_year_in_cycle a b c 3) by lia.
    replace (c =? 24) with false by (symmetry; apply Z.eqb_neq; lia).
    change ((3 =? 3) && (negb false || (b =? 3))) with true.
    change (Timestamp.month_length_in true 12) with 31.
    change (Timestamp.days_before_in true 12) with 335. lia.
  - (* the last day of a cycle of 400 years *)
    replace (a * 400 + 1 + b * 100 + c * 4 + e - 1)
      with (a * 400 + 1 + 3 * 100 + 24 * 4 + 3) by lia.
    unfold Timestamp.day_number, Timestamp.month_length.
    rewrite (is_leap_in_cycle a 3 24 3) by lia.
    rewrite (days_before_year_in_cycle a 3 24 3) by lia.
    change ((3 =? 3) && (negb (24 =? 24) || (3 =? 3))) with true.
    change (Timestamp.month_length_in true 12) with 31.
    change (Timestamp.days_before_in true 12) with 335. lia.
  - assert (Hb3 : 0 <= b <= 3) by lia.
    assert (He3 : 0 <= e <= 3) by lia.
    pose proof (month_and_day_spec ((e =? 3) && (negb (c =? 24) || (b =? 3))) r4) as Hmd.
    destruct (month_and_day ((e =? 3) && (negb (c =? 24) || (b =? 3))) r4) as [m d].
    unfold Timestamp.day_number, Timestamp.month_length.
    rewrite (is_leap_in_cycle a b c e Hb3 Hc He3).
    rewrite (days_before_year_in_cycle a b c e Ha Hb3 Hc He3).
    assert (Hr : 0 <= r4 < (if (e =? 3) && (negb (c =? 24) || (b =? 3))
                            then 366 else 365))
      by (destruct ((e =? 3) && (negb (c =? 24) || (b =? 3))); lia).
    specialize (Hmd Hr). lia.
Qed.

(* ================================================================== *)
(** * Reading back what [strftime] wrote *)
(* ================================================================== *)

Lemma contains_app (c : ascii) (a b : string) :
  PyStr.contains c (a ++ b) = PyStr.contains c a || PyStr.contains c b.
Proof.
  induction a as [|x a IH]; cbn [append PyStr.contains]; [reflexivity|].
  rewrite IH. apply orb_assoc.
Qed.

Lemma str_of_nonneg_without (c : ascii) (i : Z) :
  PyStr.is_digit c = false -> 0 <= i -> PyStr.contains c (PyStr.str_of_Z i) = false.
Proof.
  intros Hc Hi. unfold PyStr.str_of_Z.
  destruct (digits_spec (Z.to_N i)) as (Hall & _).
  destruct i; try lia; apply contains_digits; auto.
Qed.

Lemma scan_all_digits (l : list ascii) :
  Forall (fun c => PyStr.is_digit c = true) l ->
  forall a : N,
    fold_left PyStr.scan_step l (Some (PyStr.AfterDigit a))
    = Some (PyStr.AfterDigit
              (fold_left (fun acc c => 10 * acc + PyStr.digit_val c)%N l a)).
Proof.
  induction 1 as [|c l Hc _ IH]; intros a; [reflexivity|].
  cbn [fold_left PyStr.scan_step]. rewrite Hc. apply IH.
Qed.

Lemma fold_digits_of_N (l : list ascii) (a : N) :
  fold_left (fun acc c => 10 * acc + Z.of_N (PyStr.digit_val c)) l (Z.of_N a)
  = Z.of_N (fold_left (fun acc c => 10 * acc + PyStr.digit_val c)%N l a).
Proof.
  revert a. induction l as [|c l IH]; intros a; [reflexivity|].
  cbn [fold_left]. rewrite <- IH. f_equal. lia.
Qed.

Lemma read_digits_str (i : Z) :
  0 <= i -> Timestamp.read_digits (PyStr.str_of_Z i) = Some i.
Proof.
  intros Hi. unfold Timestamp.read_digits, PyStr.str_of_Z.
  destruct (digits_spec (Z.to_N i)) as (Hall & Hne & Hscan).
  replace (match i with Zneg p => _ | _ => string_of_list_ascii (PyStr.digits (Z.to_N i)) end)
    with (string_of_list_ascii (PyStr.digits (Z.to_N i))) by (destruct i; [reflexivity..|lia]).
  rewrite list_ascii_of_string_of_list_ascii.
  destruct (PyStr.digits (Z.to_N i)) as [|c l] eqn:E; [contradiction|].
  replace (forallb PyStr.is_digit (c :: l)) with true
    by (symmetry; apply forallb_forall; apply Forall_forall; exact Hall).
  inversion Hall as [|c' l' Hc Hl]; subst.
  unfold PyStr.scan_digits in Hscan. cbn [fold_left PyStr.scan_step] in Hscan.
  rewrite Hc, (scan_all_digits l Hl) in Hscan.
  cbn [fold_left]. change (10 * 0 + Z.of_N (PyStr.digit_val c))
    with (Z.of_N (PyStr.digit_val c)).
  rewrite fold_digits_of_N.
  match type of Hscan with
  | Some ?x = Some _ => assert (Hf : x = Z.to_N i) by congruence; rewrite Hf
  end.
  f_equal. lia.
Qed.

Lemma pad2_checked :
  forallb (fun z =>
    match Timestamp.read_two (PyTime.pad2 z) with
    | Some v => v =? z
    | None => false
    end
    && negb (existsb (fun c => PyStr.contains c (PyTime.pad2 z))
               ["-"%char; "T"%char; ":"%char; "Z"%char]))
    (range0 100) = true.
Proof. vm_compute. reflexivity. Qed.

Lemma pad2_spec (z : Z) :
  0 <= z < 100 ->
  Timestamp.read_two (PyTime.pad2 z) = Some z
  /\ forall c, In c ["-"%char; "T"%char; ":"%char; "Z"%char] ->
               PyStr.contains c (PyTime.pad2 z) = false.
Proof.
  intros Hz. pose proof pad2_checked as H. rewrite forallb_forall in H.
  assert (Hin : In z (range0 100)).
  { unfold range0. apply in_map_iff. exists (Z.to_nat z). split; [lia|].
    apply in_seq. lia. }
  specialize (H z Hin). apply andb_true_iff in H as [H1 H2].
  split.
  - destruct (Timestamp.read_two (PyTime.pad2 z)) as [v|]; [|discriminate].
    apply Z.eqb_eq in H1. congruence.
  - intros c Hc. apply negb_true_iff in H2.
    destruct (PyStr.contains c (PyTime.pad2 z)) eqn:E; [|reflexivity].
    assert (existsb (fun c => PyStr.contains c (PyTime.pad2 z))
              ["-"%char; "T"%char; ":"%char; "Z"%char] = true); [|congruence].
    apply existsb_exists. exists c. auto.
Qed.

Lemma string_app_assoc (a b c : string) : (a ++ b) ++ c = a ++ (b ++ c).
Proof. induction a as [|x a IH]; cbn [append]; [reflexivity | rewrite IH; reflexivity]. Qed.

Section TimestampFields.

Variables year month day hours minutes : string.

Let separators : list ascii := ["-"%char; "T"%char; ":"%char; "Z"%char].

Hypothesis plain :
  forall (c : ascii) (s : string),
    In c separators -> In s [year; month; day; hours; minutes] ->
    PyStr.contains c s = false.

Lemma timestamp_splits :
  PyStr.split "T"
    (year ++ "-" ++ month ++ "-" ++ day ++ "T" ++ hours ++ ":" ++ minutes ++ "Z")
  = [year ++ "-" ++ month ++ "-" ++ day; hours ++ ":" ++ minutes ++ "Z"]
  /\ PyStr.split "-" (year ++ "-" ++ month ++ "-" ++ day) = [year; month; day]
  /\ PyStr.split ":" (hours ++ ":" ++ minutes ++ "Z") = [hours; minutes ++ "Z"]
  /\ PyStr.split "Z" (minutes ++ "Z") = [minutes; ""].
Proof.
  assert (P : forall c s, In c separators -> In s [year; month; day; hours; minutes] ->
                          PyStr.contains c s = false) by exact plain.
  unfold separators in P. cbn [In] in P.
  repeat split.
  - replace (year ++ "-" ++ month ++ "-" ++ day ++ "T" ++ hours ++ ":" ++ minutes ++ "Z")
      with ((year ++ "-" ++ month ++ "-" ++ day)
              ++ String "T" (hours ++ ":" ++ minutes ++ "Z"))
      by (repeat (rewrite string_app_assoc; cbn [append]); reflexivity).
    rewrite split_at_first_separator, split_without_separator; [reflexivity| |].
    + rewrite !contains_app. cbn [PyStr.contains Ascii.eqb Bool.eqb orb].
      rewrite !P by auto 10. reflexivity.
    + rewrite !contains_app. cbn [PyStr.contains Ascii.eqb Bool.eqb orb].
      rewrite !P by auto 10. reflexivity.
  - change (year ++ "-" ++ month ++ "-" ++ day)
      with (year ++ String "-" (month ++ String "-" day)).
    rewrite !split_at_first_separator, split_without_separator by (apply P; auto 10).
    reflexivity.
  - change (hours ++ ":" ++ minutes ++ "Z") with (hours ++ String ":" (minutes ++ "Z")).
    rewrite split_at_first_separator, split_without_separator; [reflexivity| |].
    + rewrite contains_app. cbn [PyStr.contains Ascii.eqb Bool.eqb orb].
      rewrite P by auto 10. reflexivity.
    + apply P; auto 10.
  - change (minutes ++ "Z") with (minutes ++ String "Z" "").
    rewrite split_at_first_separator by (apply P; auto 10). reflexivity.
Qed.

End TimestampFields.

Lemma month_length_at_most_31 (y m : Z) : Timestamp.month_length y m <= 31.
Proof.
  unfold Timestamp.month_length, Timestamp.month_length_in.
  destruct (m =? 2), (Timestamp.is_leap y), ((m =? 4) || (m =? 6) || (m =? 9) || (m =? 11));
    lia.
Qed.

(** A timestamp written field by field reads back as the minute it was
    written for. *)
Lemma read_minutes_of_fields (y m d h mi : Z) :
  Timestamp.valid_date y m d = true -> 0 <= h < 24 -> 0 <= mi < 60 ->
  Timestamp.read_minutes
    (PyStr.str_of_Z y ++ "-" ++ PyTime.pad2 m ++ "-" ++ PyTime.pad2 d ++ "T"
       ++ PyTime.pad2 h ++ ":" ++ PyTime.pad2 mi ++ "Z")
  = Some ((Timestamp.day_number y m d * 24 + h) * 60 + mi).
Proof.
  intros Hdate Hh Hmi. pose proof Hdate as Hv. unfold Timestamp.valid_date in Hv.
  rewrite !andb_true_iff in Hv. destruct Hv as [[[[Hy Hm1] Hm2] Hd1] Hd2].
  apply Z.leb_le in Hy, Hm1, Hm2, Hd1, Hd2.
  pose proof (month_length_at_most_31 y m) as H31.
  destruct (pad2_spec m ltac:(lia)) as [Rm Pm].
  destruct (pad2_spec d ltac:(lia)) as [Rd Pd].
  destruct (pad2_spec h ltac:(lia)) as [Rh Ph].
  destruct (pad2_spec mi ltac:(lia)) as [Ri Pi].
  destruct (timestamp_splits (PyStr.str_of_Z y) (PyTime.pad2 m) (PyTime.pad2 d)
              (PyTime.pad2 h) (PyTime.pad2 mi)) as (S1 & S2 & S3 & S4).
  { intros c s Hc [<-|[<-|[<-|[<-|[<-|[]]]]]]; auto.
    apply str_of_nonneg_without; [|lia].
    cbn in Hc. destruct Hc as [<-|[<-|[<-|[<-|[]]]]]; reflexivity. }
  unfold Timestamp.read_minutes. rewrite S1, S2, S3, S4.
  rewrite (read_digits_str y) by lia. rewrite Rm, Rd, Rh, Ri, Hdate.
  replace (h <? 24) with true by (symmetry; apply Z.ltb_lt; lia).
  replace (mi <? 60) with true by (symmetry; apply Z.ltb_lt; lia).
  reflexivity.
Qed.

(** What [strftime] writes for a valid [datetime] reads back as its
    minute: the date is the civil date of its day, the fields are two
    digits wide, and seconds and microseconds play no part. *)
Lemma read_minutes_strftime (dt : PyTime.datetime) :
  PyTime.valid dt ->
  Timestamp.read_minutes (PyTime.strftime_minutes dt) = Some (minute_of dt).
Proof.
  intros (Ho & Hh & Hm & _). unfold PyTime.strftime_minutes, minute_of.
  pose proof (ymd_of_ordinal_spec (PyTime.ordinal dt) (proj1 Ho)) as Hc.
  destruct (PyTime.ymd_of_ordinal (PyTime.ordinal dt)) as [[y m] d].
  destruct Hc as (Hy & Hmo & Hd & Hn).
  rewrite read_minutes_of_fields; [rewrite Hn; reflexivity | | exact Hh | exact Hm].
  unfold Timestamp.valid_date. rewrite !andb_true_iff, !Z.leb_le. lia.
Qed.

(* ================================================================== *)
(** * Access token: the run *)
(* ================================================================== *)

Section TokenPublication.

Variables (args : Args) (w : world).
Variables (account : list (string * scalar)) (cs token : string).
Variables (container : list (string * scalar)) (present : scalar).

(** The control plane knows the storage account, has a token to hand
    out, can tell whether the secrets container exists, and accepts the
    creation of that container and the upload of a blob into it. *)
Hypothesis account_known :
  forall t : trace, az_execute w t (connection_string_command args) = Ok (RObj account).
Hypothesis account_string : assoc "connectionString" account = Some (SStr cs).
Hypothesis token_issued :
  forall (t : trace) (expiry : string),
    az_execute w t (generate_sas_command args cs expiry) = Ok (RScalar (SStr token)).
Hypothesis container_known :
  forall t : trace,
    az_execute w t (container_exists_command (vm_secrets_container_name args) cs)
    = Ok (RObj container).
Hypothesis container_state : assoc "exists" container = Some present.
Hypothesis container_created :
  forall t : trace,
    exists r, az_execute w t
                (container_create_command (vm_secrets_container_name args) cs) = Ok r.
Hypothesis blob_uploaded :
  forall (t : trace) (file_path blob_name : string),
    exists r, az_execute w t
                (blob_upload_command (vm_secrets_container_name args)
                   file_path blob_name cs) = Ok r.

Lemma upload_blob_trace (file_path blob_name : string) (t : trace) :
  upload_blob (vm_secrets_container_name args) file_path blob_name args w t
  = (Ok tt,
     (t ++ [Execute (connection_string_command args);
            Execute (container_exists_command (vm_secrets_container_name args) cs)]
        ++ (if truthy present then []
            else [Execute (connection_string_command args);
                  Execute (container_create_command (vm_secrets_container_name args) cs)])
        ++ [Execute (connection_string_command args);
            Execute (blob_upload_command (vm_secrets_container_name args)
                       file_path blob_name cs)])%list).
Proof.
  unfold upload_blob.
  rewrite (bind_ok _ _ _ _ _ _
             (pool_container_exists_run args w account cs container present
                account_known account_string container_known container_state t)).
  set (t1 := (t ++ [Execute (connection_string_command args);
                    Execute (container_exists_command (vm_secrets_container_name args) cs)])%list).
  assert (Hmid :
    (if negb (truthy present)
     then create_pool_container (vm_secrets_container_name args) args;;; ret tt
     else ret tt) w t1
    = (Ok tt,
       (t1 ++ (if truthy present then []
               else [Execute (connection_string_command args);
                     Execute (container_create_command
                                (vm_secrets_container_name args) cs)]))%list)).
  { destruct (truthy present); cbn [negb].
    - unfold ret. rewrite app_nil_r. reflexivity.
    - destruct (create_pool_container_run args w account cs account_known
                  account_string container_created t1) as (r & Hc).
      rewrite (bind_ok _ _ _ _ _ _ Hc). reflexivity. }
  rewrite (bind_ok _ _ _ _ _ _ Hmid).
  rewrite (bind_ok _ _ _ _ _ _
             (connection_string_run args w account cs account_known account_string _)).
  cbn [fmt_s]. rewrite bind_lift_ok.
  unfold bind, execute, ret. cbn [app].
  fold (blob_upload_command (vm_secrets_container_name args) file_path blob_name cs).
  match goal with
  | |- context [az_execute w ?t0 (blob_upload_command _ _ _ _)] =>
      destruct (blob_uploaded t0 file_path blob_name) as (r & ->)
  end.
  unfold t1. rewrite <- !app_assoc. reflexivity.
Qed.

Lemma upload_secret_trace (file_path blob_name : string) (t : trace) :
  upload_secret file_path blob_name args w t
  = (Ok tt, (t ++ secret_upload_events args cs present file_path blob_name)%list).
Proof.
  unfold upload_secret, secret_upload_events, pool_vm_secrets_container_name.
  rewrite (bind_ok _ _ _ _ _ _ (upload_blob_trace file_path blob_name t)).
  rewrite warning_run, <- !app_assoc. reflexivity.
Qed.

Lemma pool_data_container_sas_trace (t : trace) :
  let looked_up := (t ++ [Execute (connection_string_command args)])%list in
  let issued := utcnow w looked_up in
  let d := sas_expiry_days args in
  let expiry :=
    {| PyTime.ordinal := PyTime.ordinal issued + d; PyTime.hour := PyTime.hour issued;
       PyTime.minute := PyTime.minute issued; PyTime.second := PyTime.second issued;
       PyTime.microsecond := PyTime.microsecond issued |} in
  let text := PyTime.strftime_minutes expiry in
  let requested := (looked_up ++ [Execute (generate_sas_command args cs text)])%list in
  PyTime.valid issued ->
  1 <= PyTime.ordinal issued + d <= PyTime.MAXORDINAL ->
  pool_data_container_sas args w t
  = (Ok (RScalar (SStr token)),
     (requested ++ token_publication_events args w cs token text present requested)%list).
Proof.
  intros looked_up issued d expiry text requested Hvalid Hrange.
  unfold pool_data_container_sas.
  rewrite (bind_ok _ _ _ _ _ _
             (connection_string_run args w account cs account_known account_string t)).
  fold looked_up. unfold bind at 1. unfold now at 1. fold issued.
  rewrite (add_days_in_range issued (sas_expiry_days args))
    by (apply Hvalid || exact Hrange).
  rewrite bind_lift_ok. fold d. fold expiry. fold text.
  unfold bind at 1. unfold execute at 1. cbn [app py_str].
  unfold pool_data_container_name.
  fold (generate_sas_command args cs text). fold requested.
  rewrite token_issued.
  fold (sas_file_path args).
  unfold token_publication_events.
  unfold ensure_exists at 1. unfold bind at 1. unfold bind at 1.
  unfold exists_path at 1.
  destruct (negb (vm_secrets_directory args =? "")%string
            && negb (path_exists w requested (vm_secrets_directory args))).
  - unfold emit at 1. unfold bind at 1. unfold emit at 1.
    unfold bind at 1. unfold emit at 1. rewrite bind_warning.
    rewrite (bind_ok _ _ _ _ _ _ (upload_secret_trace _ _ _)).
    unfold ret. rewrite <- !app_assoc. reflexivity.
  - unfold ret at 1. unfold bind at 1. unfold emit at 1.
    unfold bind at 1. unfold emit at 1. rewrite bind_warning.
    rewrite (bind_ok _ _ _ _ _ _ (upload_secret_trace _ _ _)).
    unfold ret. rewrite <- !app_assoc. reflexivity.
Qed.

End TokenPublication.

(** C7: a token issued for [d] days expires [d] days after the clock
    reading taken at issue.  The text sent as [--expiry] reads as the
    minute that expiry falls in, seconds and microseconds cut off (for
    [d = 0] a minute that is not after the issue time).  The token is
    requested, then written to the pool's SAS file under the local secrets
    directory, and then that file is uploaded as a blob of the same name
    into the secrets container; nothing else happens. *)
Theorem access_token_expiry_and_publication (args : Args) (w : world)
    (account : list (string * scalar)) (cs token : string)
    (container : list (string * scalar)) (present : scalar) (t : trace) :
  let looked_up := (t ++ [Execute (connection_string_command args)])%list in
  let issued := utcnow w looked_up in
  let d := sas_expiry_days args in
  (forall t0, az_execute w t0 (connection_string_command args) = Ok (RObj account)) ->
  assoc "connectionString" account = Some (SStr cs) ->
  (forall t0 e, az_execute w t0 (generate_sas_command args cs e) = Ok (RScalar (SStr token))) ->
  (forall t0, az_execute w t0
                (container_exists_command (vm_secrets_container_name args) cs)
              = Ok (RObj container)) ->
  assoc "exists" container = Some present ->
  (forall t0, exists r, az_execute w t0
                (container_create_command (vm_secrets_container_name args) cs) = Ok r) ->
  (forall t0 fp bn, exists r, az_execute w t0
                (blob_upload_command (vm_secrets_container_name args) fp bn cs) = Ok r) ->
  PyTime.valid issued ->
  1 <= PyTime.ordinal issued + d <= PyTime.MAXORDINAL ->
  exists (expiry : PyTime.datetime) (text : string),
    PyTime.add_days issued d = Ok expiry
    /\ PyTime.instant expiry = PyTime.instant issued + d * PyTime.microseconds_per_day
    /\ text = PyTime.strftime_minutes expiry
    /\ Timestamp.read_minutes text = Some (minute_of expiry)
    /\ PyTime.instant (PyTime.truncate_to_minute expiry) = minute_of expiry * 60000000
    /\ minute_of expiry * 60000000 <= PyTime.instant expiry
       < minute_of expiry * 60000000 + 60000000
    /\ (d = 0 -> minute_of expiry * 60000000 <= PyTime.instant issued)
    /\ (let requested :=
          (looked_up ++ [Execute (generate_sas_command args cs text)])%list in
        pool_data_container_sas args w t
        = (Ok (RScalar (SStr token)),
           (requested
              ++ token_publication_events args w cs token text present requested)%list))
    /\ sas_file_path args
       = PyStr.path_join (vm_secrets_directory args)
           (pool_file_prefix args ++ "_" ++ resource_group args ++ "_"
              ++ container_sas_prefix args ++ "_" ++ data_container_name args ++ ".txt").
Proof.
  intros looked_up issued d Hacc Hcs Htok Hcont Hpres Hcreate Hupload Hvalid Hrange.
  pose proof (pool_data_container_sas_trace args w account cs token container present
                Hacc Hcs Htok Hcont Hpres Hcreate Hupload t Hvalid Hrange) as Hrun.
  cbv zeta in Hrun. fold looked_up issued d in Hrun.
  set (expiry :=
         {| PyTime.ordinal := PyTime.ordinal issued + d;
            PyTime.hour := PyTime.hour issued; PyTime.minute := PyTime.minute issued;
            PyTime.second := PyTime.second issued;
            PyTime.microsecond := PyTime.microsecond issued |}) in *.
  assert (Hexp : PyTime.valid expiry).
  { unfold PyTime.valid in *. unfold expiry. cbn. fold issued. lia. }
  exists expiry, (PyTime.strftime_minutes expiry).
  split; [apply add_days_in_range; [apply Hvalid | exact Hrange]|].
  split; [unfold PyTime.instant, PyTime.microseconds_per_day, expiry; cbn; lia|].
  split; [reflexivity|].
  split; [apply read_minutes_strftime; exact Hexp|].
  unfold PyTime.valid in Hvalid.
  split; [unfold PyTime.instant, PyTime.truncate_to_minute, minute_of; cbn; lia|].
  split; [unfold PyTime.instant, minute_of, expiry; cbn; lia|].
  split; [intros Hd; unfold PyTime.instant, minute_of, expiry; cbn; lia|].
  split; [exact Hrun | reflexivity].
Qed.

Lemma access_token_expiry_and_publication_witness :
  pool_data_container_sas demo_args (scripted_world demo_plane all_succeed "n") []
  = (Ok (RScalar (SStr "sig=abc")),
     [Execute (connection_string_command demo_args);
      Execute (generate_sas_command demo_args "AccountName=demo" "2017-07-04T13:45Z");
      OpenFile "secrets/azure_vm_pool_demo_sas_storage_container_data.txt" "w+";
      FileWrite "secrets/azure_vm_pool_demo_sas_storage_container_data.txt" "sig=abc";
      Warning "New SAS token for pool data container '{:s}' written to '{:s}'. SAS token expires on {:%Y-%m-%dT%H:%MZ}."
        ["data"; "secrets/azure_vm_pool_demo_sas_storage_container_data.txt";
         "2017-07-04T13:45Z"];
      Execute (connection_string_command demo_args);
      Execute (container_exists_command "vmsecrets" "AccountName=demo");
      Execute (connection_string_command demo_args);
      Execute (blob_upload_command "vmsecrets"
                 "secrets/azure_vm_pool_demo_sas_storage_container_data.txt"
                 "azure_vm_pool_demo_sas_storage_container_data.txt" "AccountName=demo");
      Warning "Secret '{:s}' uploaded to pool secrets container '{:s}' as '{:s}'"
        ["secrets/azure_vm_pool_demo_sas_storage_container_data.txt"; "vmsecrets";
         "azure_vm_pool_demo_sas_storage_container_data.txt"]])
  /\ Timestamp.read_minutes "2017-07-04T13:45Z"
     = Some ((Timestamp.day_number 2017 7 4 * 24 + 13) * 60 + 45).
Proof.
  destruct (access_token_expiry_and_publication demo_args
              (scripted_world demo_plane all_succeed "n")
              [("connectionString", SStr "AccountName=demo")] "AccountName=demo" "sig=abc"
              [("exists", SBool true)] (SBool true) [])
    as (expiry & text & Hadd & _ & Htext & Hread & _ & _ & _ & Hrun & _).
  - intros t0. reflexivity.
  - reflexivity.
  - intros t0 e. reflexivity.
  - intros t0. reflexivity.
  - reflexivity.
  - intros t0. eexists. reflexivity.
  - intros t0 fp bn. eexists. reflexivity.
  - unfold PyTime.valid, PyTime.MAXORDINAL. cbn. lia.
  - unfold PyTime.MAXORDINAL. cbn. lia.
  - injection Hadd as <-. subst text. split; [exact Hrun | exact Hread].
Defined.

(* ================================================================== *)
(** * Durations *)
(* ================================================================== *)



(* ================================================================== *)
(** * Account names *)
(* ================================================================== *)

Lemma charset_codes (c : ascii) :
  PyStr.contains c ConfigureBatchAccount.AZURE_ACCOUNT_NAME_CHARSET = true
  <-> account_character c.
Proof.
  unfold account_character.
  destruct c as [[] [] [] [] [] [] [] []]; vm_compute;
    (split; [intros H; first [discriminate H | left; split; discriminate
                              | right; split; discriminate]
            | intros [[H1 H2]|[H1 H2]]; first [reflexivity | exfalso; auto]]).
Qed.

Lemma all_chars_Forall (p : ascii -> bool) (s : string) :
  ConfigureBatchAccount.all_chars p s = true
  <-> Forall (fun c => p c = true) (list_ascii_of_string s).
Proof.
  induction s as [|c s IH]; cbn.
  - split; auto.
  - rewrite andb_true_iff, IH. split.
    + intros [H1 H2]. constructor; assumption.
    + intros H. inversion H; subst. auto.
Qed.

Lemma name_length_ok_run (name : string) (w : world) (t : trace) :
  exists t' : trace,
    ConfigureBatchAccount.name_length_ok name w t
    = (Ok ((3 <=? Z.of_nat (String.length name))
           && (Z.of_nat (String.length name) <=? 24)), t')
    /\ (if (3 <=? Z.of_nat (String.length name))
           && (Z.of_nat (String.length name) <=? 24)
        then t' = t
        else exists fields,
            t' = (t ++ [Warning "Account name '{0}' length invalid at {1} characters. Length must be between {2} and {3} characters." fields])%list).
Proof.
  unfold ConfigureBatchAccount.name_length_ok,
    ConfigureBatchAccount.AZURE_ACCOUNT_NAME_MIN_LENGTH,
    ConfigureBatchAccount.AZURE_ACCOUNT_NAME_MAX_LENGTH.
  destruct ((3 <=? Z.of_nat (String.length name))
            && (Z.of_nat (String.length name) <=? 24)); cbn [negb].
  - exists t. split; reflexivity.
  - eexists. split; [reflexivity|]. eexists. reflexivity.
Qed.

Lemma name_characters_ok_run (name : string) (w : world) (t : trace) :
  exists t' : trace,
    ConfigureBatchAccount.name_characters_ok name w t
    = (Ok (ConfigureBatchAccount.all_chars
             (fun c => PyStr.contains c ConfigureBatchAccount.AZURE_ACCOUNT_NAME_CHARSET)
             name), t')
    /\ (if ConfigureBatchAccount.all_chars
             (fun c => PyStr.contains c ConfigureBatchAccount.AZURE_ACCOUNT_NAME_CHARSET)
             name
        then t' = t
        else exists fields,
            t' = (t ++ [Warning "Account name '{0}' contains invalid characters. Valid characters are '{1}'" fields])%list).
Proof.
  unfold ConfigureBatchAccount.name_characters_ok.
  destruct (ConfigureBatchAccount.all_chars
              (fun c => PyStr.contains c ConfigureBatchAccount.AZURE_ACCOUNT_NAME_CHARSET)
              name); cbn [negb].
  - exists t. split; reflexivity.
  - eexists. split; [reflexivity|]. eexists. reflexivity.
Qed.

Lemma name_valid_true (name : string) (w : world) (t t' : trace) :
  ConfigureBatchAccount.name_valid name w t = (Ok true, t') ->
  (3 <= String.length name <= 24)%nat
  /\ Forall account_character (list_ascii_of_string name) /\ t' = t.
Proof.
  unfold ConfigureBatchAccount.name_valid. intros H.
  destruct (name_length_ok_run name w t) as (t1 & Hl & Ht1).
  rewrite (bind_ok _ _ _ _ _ _ Hl) in H.
  destruct ((3 <=? Z.of_nat (String.length name))
            && (Z.of_nat (String.length name) <=? 24)) eqn:El;
    [|discriminate H].
  subst t1. destruct (name_characters_ok_run name w t) as (t2 & Hc & Ht2).
  set (v := ConfigureBatchAccount.all_chars _ name) in *.
  rewrite Hc in H. assert (Hv : v = true) by congruence. rewrite Hv in Ht2.
  apply andb_true_iff in El as [E1 E2].
  split; [lia|]. split; [|congruence].
  unfold v in Hv. apply all_chars_Forall in Hv.
  eapply Forall_impl; [|exact Hv]. intros c Hcs. apply charset_codes. exact Hcs.
Qed.

(** An account name is accepted exactly when it has 3 to 24 characters,
    all of them lowercase letters or digits.  Accepting a name logs
    nothing; rejecting one logs exactly one warning, about the length when
    the length is wrong (the characters are then not looked at) and about
    the characters otherwise. *)
Theorem name_valid_accepts_exactly_account_names (name : string) (w : world)
    (t : trace) :
  exists (ok : bool) (t' : trace),
    ConfigureBatchAccount.name_valid name w t = (Ok ok, t')
    /\ (ok = true <->
        (3 <= String.length name <= 24)%nat
        /\ Forall account_character (list_ascii_of_string name))
    /\ (ok = true -> t' = t)
    /\ (ok = false ->
        exists template fields,
          t' = (t ++ [Warning template fields])%list
          /\ template
             = if ((3 <=? String.length name) && (String.length name <=? 24))%nat
               then "Account name '{0}' contains invalid characters. Valid characters are '{1}'"
               else "Account name '{0}' length invalid at {1} characters. Length must be between {2} and {3} characters.").
Proof.
  destruct (ConfigureBatchAccount.name_valid name w t) as [o t'] eqn:Run.
  pose proof Run as Run0.
  unfold ConfigureBatchAccount.name_valid in Run.
  destruct (name_length_ok_run name w t) as (t1 & Hl & Ht1).
  rewrite (bind_ok _ _ _ _ _ _ Hl) in Run.
  assert (Hlen : (3 <=? Z.of_nat (String.length name))
                 && (Z.of_nat (String.length name) <=? 24)
                 = ((3 <=? String.length name) && (String.length name <=? 24))%nat).
  { destruct (Nat.leb_spec 3 (String.length name)),
      (Nat.leb_spec (String.length name) 24),
      (Z.leb_spec 3 (Z.of_nat (String.length name))),
      (Z.leb_spec (Z.of_nat (String.length name)) 24); try reflexivity; lia. }
  rewrite Hlen in *.
  destruct ((3 <=? String.length name) && (String.length name <=? 24))%nat eqn:El.
  - subst t1. destruct (name_characters_ok_run name w t) as (t2 & Hc & Ht2).
    set (v := ConfigureBatchAccount.all_chars _ name) in *.
    rewrite Hc in Run. assert (Eo : o = Ok v) by congruence.
    assert (Et : t' = t2) by congruence. subst o t'. clear Run.
    exists v, t2. split; [reflexivity|].
    destruct v eqn:Ev.
    + destruct (name_valid_true name w t t2 Run0) as (L & F & _).
      repeat split; auto; try discriminate; lia.
    + split; [|split; [discriminate|]].
      * split; [discriminate|]. intros [_ F]. exfalso.
        assert (v = true); [|congruence].
        unfold v. apply all_chars_Forall. eapply Forall_impl; [|exact F].
        intros c Hc0. apply charset_codes. exact Hc0.
      * intros _. destruct Ht2 as (fields & ->). eauto.
  - unfold ret in Run. assert (Eo : o = Ok false) by congruence.
    assert (Et : t' = t1) by congruence. subst o t'.
    exists false, t1. split; [reflexivity|].
    split; [|split; [discriminate|]].
    + split; [discriminate|]. intros [L _]. exfalso.
      apply andb_false_iff in El as [E|E]; apply Nat.leb_gt in E; lia.
    + intros _. destruct Ht1 as (fields & ->). eauto.
Qed.

Lemma valid_name_has_no_hyphen (name : string) :
  Forall account_character (list_ascii_of_string name) ->
  PyStr.contains "-" name = false.
Proof.
  induction name as [|c s IH]; cbn [list_ascii_of_string PyStr.contains];
    [reflexivity|].
  intros H. inversion H as [|c' l Hc Hs]; subst. rewrite (IH Hs), orb_false_r.
  apply Ascii.eqb_neq. intros <-. unfold account_character in Hc. cbn in Hc. lia.
Qed.

(** A pool named by a name that [name_valid] accepts has VM names that
    read back: the characters allowed in account names exclude the hyphen
    on which [number_from_name] splits. *)
Theorem accepted_account_name_round_trips (args : Args) (w : world) (t t' : trace)
    (i : Z) :
  ConfigureBatchAccount.name_valid (resource_group args) w t = (Ok true, t') ->
  0 <= i ->
  number_from_name (name_from_number i args) = Ok i.
Proof.
  intros Hv Hi. apply name_valid_true in Hv as (_ & F & _).
  apply valid_name_has_no_hyphen in F.
  unfold number_from_name, name_from_number.
  change ("-" ++ PyStr.str_of_Z i) with (String "-" (PyStr.str_of_Z i)).
  rewrite (split_at_first_separator "-" _ _ F).
  rewrite split_without_separator by (apply str_of_nonneg_no_hyphen; exact Hi).
  apply int_str_of_nonneg; exact Hi.
Qed.

Lemma accepted_account_name_round_trips_witness :
  ConfigureBatchAccount.name_valid "demo" (scripted_world demo_plane all_succeed "n") []
  = (Ok true, [])
  /\ number_from_name (name_from_number 7 demo_args) = Ok 7.
Proof.
  split; [reflexivity|].
  apply (accepted_account_name_round_trips demo_args
           (scripted_world demo_plane all_succeed "n") [] [] 7);
    [reflexivity | lia].
Defined.

(* ================================================================== *)
(** * Commands in the order they are issued *)
(* ================================================================== *)

Lemma commands_app (t1 t2 : trace) :
  commands (t1 ++ t2)%list = (commands t1 ++ commands t2)%list.
Proof. apply filter_app. Qed.

Lemma issues_done {A} (w : world) (a : A) (P : A -> Prop) :
  P a -> issues w (ret a) P [].
Proof. intros H t. exists a, t. rewrite app_nil_r. auto. Qed.

Lemma issues_lift {A} (w : world) (a : A) : issues w (lift (Ok a)) (eq a) [].
Proof. intros t. exists a, t. rewrite app_nil_r. auto. Qed.

Lemma issues_quiet (w : world) (e : event) :
  is_command e = false -> issues w (emit e) (fun _ => True) [].
Proof.
  intros H t. exists tt. eexists. split; [reflexivity|].
  rewrite commands_app. unfold commands at 2. cbn [filter]. rewrite H. auto.
Qed.

Lemma issues_execute (w : world) (c : list string) (P : result -> Prop) :
  (forall t : trace, exists r, az_execute w t c = Ok r /\ P r) ->
  issues w (execute c) P [Execute c].
Proof.
  intros H t. destruct (H t) as (r & Hr & HP). exists r. eexists.
  unfold execute. rewrite Hr. split; [reflexivity|].
  rewrite commands_app. auto.
Qed.

Lemma issues_call (w : world) (c : list string) :
  issues w (call c) (fun _ => True) [Subprocess c].
Proof.
  intros t. eexists. eexists. split; [reflexivity|]. rewrite commands_app. auto.
Qed.

Lemma issues_bind {A B} (w : world) (m : M A) (f : A -> M B) (P : A -> Prop)
    (Q : B -> Prop) (e1 e2 : list event) :
  issues w m P e1 ->
  (forall a, P a -> issues w (f a) Q e2) ->
  issues w (bind m f) Q (e1 ++ e2).
Proof.
  intros Hm Hf t. destruct (Hm t) as (a & t1 & Hrun & Ha & He).
  destruct (Hf a Ha t1) as (b & t2 & Hrun2 & Hb & He2).
  exists b, t2. rewrite (bind_ok _ _ _ _ _ _ Hrun), Hrun2, He2, He, app_assoc. auto.
Qed.

Lemma issues_weaken {A} (w : world) (m : M A) (P Q : A -> Prop) (e e' : list event) :
  issues w m P e -> (forall a, P a -> Q a) -> e = e' -> issues w m Q e'.
Proof.
  intros H HPQ <- t. destruct (H t) as (a & t' & Hr & Ha & He). exists a, t'. auto.
Qed.

Lemma issues_for_each {A B} (w : world) (f : A -> M B) (ev : A -> event)
    (l : list A) :
  (forall x, In x l -> issues w (f x) (fun _ => True) [ev x]) ->
  issues w (for_each f l) (fun ys => length ys = length l) (map ev l).
Proof.
  induction l as [|x l IH]; intros H.
  - cbn. apply (issues_done w [] (fun ys : list B => length ys = 0%nat) eq_refl).
  - cbn [for_each map].
    apply (issues_bind w (f x) _ (fun _ => True) _ [ev x] (map ev l));
      [apply H; left; reflexivity|].
    intros y _.
    eapply issues_weaken with (P := fun ys => length ys = length (x :: l)).
    + eapply issues_bind; [apply IH; intros x' Hx'; apply H; right; exact Hx'|].
      intros ys Hys.
      apply (issues_done w (y :: ys) (fun ys0 => length ys0 = length (x :: l))).
      cbn. rewrite Hys. reflexivity.
    + auto.
    + apply app_nil_r.
Qed.

Lemma issues_ensure_exists (w : world) (directory : string) :
  issues w (ensure_exists directory) (fun _ => True) [].
Proof.
  intros t. unfold ensure_exists, bind, exists_path, emit, ret.
  destruct (negb (directory =? "")%string && negb (path_exists w t directory));
    exists tt; eexists; (split; [reflexivity|]).
  - rewrite commands_app. auto.
  - rewrite app_nil_r. auto.
Qed.

Section KeyDownload.

Variables (args : Args) (w : world).
Variables (account : list (string * scalar)) (cs : string).

Hypothesis account_known :
  forall t : trace, az_execute w t (connection_string_command args) = Ok (RObj account).
Hypothesis account_string : assoc "connectionString" account = Some (SStr cs).
Hypothesis downloads_answered :
  forall (t : trace) (file_path blob_name : string),
    exists r, az_execute w t
                (blob_download_command (ssh_key_container_name args)
                   file_path blob_name cs) = Ok r.

Lemma issues_connection_string :
  issues w (pool_storage_account_connection_string args) (eq (SStr cs))
    [Execute (connection_string_command args)].
Proof.
  unfold pool_storage_account_connection_string.
  eapply issues_weaken with (P := eq (SStr cs)).
  - eapply issues_bind.
    + apply (issues_execute w (connection_string_command args) (eq (RObj account))).
      intros t. exists (RObj account). split; [apply account_known | reflexivity].
    + intros r <-. cbn [getitem]. rewrite account_string. apply issues_lift.
  - auto.
  - reflexivity.
Qed.

Lemma issues_download_blob (file_path blob_name : string) :
  issues w (download_blob (ssh_key_container_name args) file_path blob_name args)
    (fun _ => True)
    [Execute (connection_string_command args);
     Execute (blob_download_command (ssh_key_container_name args)
                file_path blob_name cs)].
Proof.
  unfold download_blob.
  eapply issues_weaken with (P := fun _ => True).
  - eapply issues_bind; [apply issues_ensure_exists|]. intros _ _.
    eapply issues_bind; [apply issues_connection_string|]. intros c <-.
    cbn [fmt_s].
    eapply issues_bind; [apply issues_lift|]. intros text <-.
    eapply issues_bind.
    + apply (issues_execute w _ (fun _ => True)).
      intros t. destruct (downloads_answered t file_path blob_name) as (r & Hr).
      exists r. split; [exact Hr | exact I].
    + intros _ _. apply (issues_done w tt (fun _ => True) I).
  - auto.
  - reflexivity.
Qed.

Lemma issues_download_ssh_keys :
  issues w (download_ssh_keys args) (fun _ => True)
    [Execute (connection_string_command args);
     Execute (blob_download_command (ssh_key_container_name args)
                (ssh_private_key_path args) (ssh_private_key_filename args) cs);
     Subprocess ["chmod"; "600"; ssh_private_key_path args];
     Execute (connection_string_command args);
     Execute (blob_download_command (ssh_key_container_name args)
                (ssh_public_key_path args) (ssh_public_key_filename args) cs);
     Subprocess ["chmod"; "644"; ssh_public_key_path args]].
Proof.
  unfold download_ssh_keys, pool_ssh_key_container_name.
  eapply issues_weaken with (P := fun _ => True).
  - eapply issues_bind; [apply issues_download_blob|]. intros _ _.
    eapply issues_bind; [apply issues_call|]. intros _ _.
    eapply issues_bind; [apply issues_quiet; reflexivity|]. intros _ _.
    eapply issues_bind; [apply issues_download_blob|]. intros _ _.
    eapply issues_bind; [apply issues_call|]. intros _ _.
    apply issues_quiet; reflexivity.
  - auto.
  - reflexivity.
Qed.

End KeyDownload.

(** get-ssh downloads the private key and sets its mode to 600, downloads
    the public key and sets its mode to 644, lists the pool, removes the
    host entry of every VM and then connects to every VM, in exactly that
    order and whatever the exit status of the programs it runs. *)
Theorem get_ssh_fetches_keys_then_checks_every_vm (args : Args) (w : world)
    (account : list (string * scalar)) (cs : string) (vms : list vm) (t : trace) :
  (forall t0 : trace,
     az_execute w t0 (connection_string_command args) = Ok (RObj account)) ->
  assoc "connectionString" account = Some (SStr cs) ->
  (forall (t0 : trace) (file_path blob_name : string),
     exists r, az_execute w t0
                 (blob_download_command (ssh_key_container_name args)
                    file_path blob_name cs) = Ok r) ->
  (forall t0 : trace, az_execute w t0 (vm_list_command args) = Ok (RVms vms)) ->
  exists t' : trace,
    get_ssh args w t = (Ok tt, t')
    /\ commands t' = (commands t ++ get_ssh_commands args cs vms)%list.
Proof.
  intros Hacc Hcs Hdown Hlist.
  assert (H : issues w (get_ssh args) (fun _ => True) (get_ssh_commands args cs vms)).
  { unfold get_ssh, get_ssh_commands.
    eapply issues_weaken with (P := fun _ => True).
    - eapply issues_bind; [apply issues_quiet; reflexivity|]. intros _ _.
      eapply issues_bind;
        [apply (issues_download_ssh_keys args w account cs Hacc Hcs Hdown)|].
      intros _ _.
      eapply issues_bind.
      { apply (issues_execute w (vm_list_command args) (eq (RVms vms))).
        intros t0. exists (RVms vms). split; [apply Hlist | reflexivity]. }
      intros r <-.
      eapply issues_bind; [apply issues_quiet; reflexivity|]. intros _ _.
      cbn [iter_vms].
      eapply issues_bind; [apply issues_lift|]. intros l <-.
      eapply issues_bind.
      { apply (issues_for_each w (fun v => remove_ssh_host v args)
                 (fun v => Subprocess (remove_host_command args v)) vms).
        intros v _. unfold remove_ssh_host.
        eapply issues_weaken with (P := fun _ => True).
        - eapply issues_bind; [apply issues_call|]. intros _ _.
          apply (issues_done w tt (fun _ => True) I).
        - auto.
        - reflexivity. }
      intros _ _.
      eapply issues_bind; [apply issues_quiet; reflexivity|]. intros _ _.
      eapply issues_bind; [apply issues_lift|]. intros l <-.
      eapply issues_bind.
      { apply (issues_for_each w (fun v => vm_test_ssh v args)
                 (fun v => Subprocess (ssh_command v "exit" args)) vms).
        intros v _. unfold vm_test_ssh, vm_run_script.
        eapply issues_weaken with (P := fun _ => True).
        - eapply issues_bind; [apply issues_call|]. intros status _.
          apply (issues_done w (status =? 0) (fun _ => True) I).
        - auto.
        - reflexivity. }
      intros _ _. apply (issues_done w tt (fun _ => True) I).
    - auto.
    - cbn [app]. rewrite !app_nil_r. reflexivity. }
  destruct (H t) as ([] & t' & Hrun & _ & He). exists t'. auto.
Qed.

Lemma get_ssh_fetches_keys_then_checks_every_vm_witness :
  exists t' : trace,
    get_ssh demo_args failing_programs_world [] = (Ok tt, t')
    /\ commands t' = get_ssh_commands demo_args "AccountName=demo" demo_vms.
Proof.
  apply (get_ssh_fetches_keys_then_checks_every_vm demo_args failing_programs_world
           [("connectionString", SStr "AccountName=demo")] "AccountName=demo"
           demo_vms []).
  - intros t0. reflexivity.
  - reflexivity.
  - intros t0 file_path blob_name. exists RNone. reflexivity.
  - intros t0. reflexivity.
Defined.

(* ================================================================== *)
(** * The directory a download goes to *)
(* ================================================================== *)

Lemma contains_app_separator (c : ascii) (a b : string) :
  PyStr.contains c (a ++ String c b) = true.
Proof.
  induction a as [|x a IH]; cbn [append PyStr.contains].
  - rewrite Ascii.eqb_refl. reflexivity.
  - rewrite IH. apply orb_true_r.
Qed.

Lemma head_of_joined (directory file_name : string) :
  PyStr.contains "/" file_name = false ->
  PyPath.head (directory ++ String "/" file_name) = directory ++ "/".
Proof.
  intros Hf. induction directory as [|c d IH]; cbn [append PyPath.head].
  - rewrite Hf, Ascii.eqb_refl. reflexivity.
  - rewrite contains_app_separator, IH. reflexivity.
Qed.

Lemma rstrip_slash_of_directory (directory : string) (c : ascii) :
  PyStr.last_char directory = Some c -> c <> "/"%char ->
  PyPath.rstrip_slash (directory ++ "/") = directory.
Proof.
  intros Hl Hc. revert Hl. induction directory as [|x d IH]; [discriminate|].
  destruct d as [|y d'].
  - cbn. intros [= ->]. apply Ascii.eqb_neq in Hc. rewrite Hc. reflexivity.
  - intros Hl. change (PyStr.last_char (String x (String y d')))
      with (PyStr.last_char (String y d')) in Hl.
    change (String x (String y d') ++ "/") with (String x (String y d' ++ "/")).
    cbn [PyPath.rstrip_slash]. rewrite (IH Hl). reflexivity.
Qed.

Lemma all_slashes_of_directory (directory : string) (c : ascii) :
  PyStr.last_char directory = Some c -> c <> "/"%char ->
  PyPath.all_slashes (directory ++ "/") = false.
Proof.
  intros Hl Hc. revert Hl. induction directory as [|x d IH]; [discriminate|].
  destruct d as [|y d'].
  - cbn. intros [= ->]. apply Ascii.eqb_neq in Hc. rewrite Hc. reflexivity.
  - intros Hl. change (PyStr.last_char (String x (String y d')))
      with (PyStr.last_char (String y d')) in Hl.
    change (String x (String y d') ++ "/") with (String x (String y d' ++ "/")).
    cbn [PyPath.all_slashes]. rewrite (IH Hl). apply andb_false_r.
Qed.

Lemma path_join_plain (directory file_name : string) (c : ascii) :
  PyStr.last_char directory = Some c -> c <> "/"%char ->
  PyStr.contains "/" file_name = false ->
  PyStr.path_join directory file_name = directory ++ String "/" file_name.
Proof.
  intros Hl Hc Hf. unfold PyStr.path_join. rewrite Hl.
  assert (Hjoin : match c with
                  | "/"%char => directory ++ file_name
                  | _ => directory ++ "/" ++ file_name
                  end = directory ++ String "/" file_name).
  { destruct c as [[] [] [] [] [] [] [] []]; try reflexivity. contradiction Hc.
    reflexivity. }
  destruct file_name as [|x f]; [exact Hjoin|].
  cbn [PyStr.contains] in Hf. apply orb_false_elim in Hf as [Hx _].
  apply Ascii.eqb_neq in Hx.
  destruct x as [[] [] [] [] [] [] [] []]; try exact Hjoin. contradiction Hx.
  reflexivity.
Qed.

(** The directory part of a file path built by joining a directory and a
    file name is that directory. *)
Lemma dirname_of_joined (directory file_name : string) (c : ascii) :
  PyStr.last_char directory = Some c -> c <> "/"%char ->
  PyStr.contains "/" file_name = false ->
  PyPath.dirname (PyStr.path_join directory file_name) = directory.
Proof.
  intros Hl Hc Hf. rewrite (path_join_plain _ _ _ Hl Hc Hf).
  unfold PyPath.dirname. rewrite (head_of_joined _ _ Hf).
  rewrite (all_slashes_of_directory _ _ Hl Hc).
  replace (directory ++ "/" =? "")%string with false.
  - apply (rstrip_slash_of_directory _ _ Hl Hc).
  - destruct directory; reflexivity.
Qed.

(** Downloading a blob to a file in a directory first makes that directory
    when it is missing, then looks up the connection string and downloads;
    nothing else happens. *)
Theorem download_blob_makes_the_missing_directory (args : Args) (w : world)
    (account : list (string * scalar)) (cs container directory file_name blob_name : string)
    (c : ascii) (t : trace) :
  (forall t0 : trace,
     az_execute w t0 (connection_string_command args) = Ok (RObj account)) ->
  assoc "connectionString" account = Some (SStr cs) ->
  (forall t0 : trace,
     exists r, az_execute w t0
                 (blob_download_command container
                    (PyStr.path_join directory file_name) blob_name cs) = Ok r) ->
  PyStr.last_char directory = Some c -> c <> "/"%char ->
  PyStr.contains "/" file_name = false ->
  download_blob container (PyStr.path_join directory file_name) blob_name args w t
  = (Ok tt,
     (t ++ (if path_exists w t directory then [] else [MakeDirs directory])
        ++ [Execute (connection_string_command args);
            Execute (blob_download_command container
                       (PyStr.path_join directory file_name) blob_name cs)])%list).
Proof.
  intros Hacc Hcs Hdown Hl Hc Hf. unfold download_blob.
  rewrite (dirname_of_joined _ _ _ Hl Hc Hf).
  assert (He : ensure_exists directory w t
               = (Ok tt, (t ++ (if path_exists w t directory then []
                                else [MakeDirs directory]))%list)).
  { unfold ensure_exists, bind, exists_path, emit, ret.
    replace (directory =? "")%string with false by (destruct directory; [discriminate Hl | reflexivity]).
    destruct (path_exists w t directory); cbn [negb andb];
      [rewrite app_nil_r|]; reflexivity. }
  rewrite (bind_ok _ _ _ _ _ _ He).
  rewrite (bind_ok _ _ _ _ _ _ (connection_string_run args w account cs Hacc Hcs _)).
  cbn [fmt_s]. rewrite bind_lift_ok.
  unfold bind, execute, ret. cbn [app].
  fold (blob_download_command container (PyStr.path_join directory file_name)
          blob_name cs).
  destruct (Hdown ((t ++ (if path_exists w t directory then [] else [MakeDirs directory]))
                     ++ [Execute (connection_string_command args)])%list) as (r & Hr).
  rewrite Hr, <- !app_assoc. reflexivity.
Qed.

Lemma download_blob_makes_the_missing_directory_witness :
  download_blob "ssh-keys" (ssh_private_key_path demo_args)
    (ssh_private_key_filename demo_args) demo_args provisioning_world []
  = (Ok tt,
     [MakeDirs (ssh_key_directory demo_args);
      Execute (connection_string_command demo_args);
      Execute (blob_download_command "ssh-keys" (ssh_private_key_path demo_args)
                 (ssh_private_key_filename demo_args) "AccountName=demo")]).
Proof.
  apply (download_blob_makes_the_missing_directory demo_args provisioning_world
           [("connectionString", SStr "AccountName=demo")] "AccountName=demo"
           "ssh-keys" (ssh_key_directory demo_args)
           (ssh_private_key_filename demo_args)
           (ssh_private_key_filename demo_args) "s"%char []).
  - intros t0. reflexivity.
  - reflexivity.
  - intros t0. exists RNone. reflexivity.
  - reflexivity.
  - discriminate.
  - reflexivity.
Defined.

(* ================================================================== *)
(** * The service principal *)
(* ================================================================== *)

(** When the lookup of the service principal succeeds, nothing is created:
    the lookup is the only command issued. *)
Theorem existing_service_principal_is_left_alone (service_principle_name : string)
    (subscription : result) (id group : string) (w : world) (t : trace) (r : result) :
  getitem subscription "id" = Ok (SStr id) ->
  az_execute w t (principal_show_command service_principle_name) = Ok r ->
  exists template fields,
    ConfigureBatchAccount.create_service_principle_for_resource_group
      service_principle_name subscription (SStr group) w t
    = (Ok tt, (t ++ [Execute (principal_show_command service_principle_name);
                     Warning template fields])%list).
Proof.
  intros Hid Hshow.
  unfold ConfigureBatchAccount.create_service_principle_for_resource_group.
  rewrite Hid, !bind_lift_ok. cbn [fmt_s]. rewrite !bind_lift_ok.
  fold (principal_show_command service_principle_name).
  unfold try_except, bind, execute, warning, emit. rewrite Hshow.
  rewrite <- app_assoc. eexists. eexists. reflexivity.
Qed.

Lemma existing_service_principal_is_left_alone_witness :
  exists template fields,
    ConfigureBatchAccount.create_service_principle_for_resource_group
      "demo" (sample_subscription "0000-1111") (SStr "demo")
      (scripted_world demo_plane all_succeed "n") []
    = (Ok tt, [Execute (principal_show_command "demo"); Warning template fields]).
Proof.
  apply (existing_service_principal_is_left_alone "demo"
           (sample_subscription "0000-1111") "0000-1111" "demo"
           (scripted_world demo_plane all_succeed "n") [] RNone);
    reflexivity.
Defined.

(** Whatever makes the lookup fail, short of an exit, the service
    principal is taken to be missing: it is created with the role
    Contributor and a certificate, and the certificate file is moved to
    [private-batch-ssh-keys/<resource group>.pem], the directory being made
    first when it is missing. *)
Theorem service_principal_created_on_lookup_failure (service_principle_name : string)
    (subscription : result) (id group source : string) (w : world) (t : trace)
    (e : exn) (description : list (string * scalar)) :
  getitem subscription "id" = Ok (SStr id) ->
  az_execute w t (principal_show_command service_principle_name) = Raise e ->
  is_system_exit e = false ->
  (forall t0 : trace,
     az_execute w t0 (principal_create_command service_principle_name)
     = Ok (RObj description)) ->
  assoc "fileWithCertAndPrivateKey" description = Some (SStr source) ->
  PyStr.contains "/" group = false ->
  ConfigureBatchAccount.create_service_principle_for_resource_group
    service_principle_name subscription (SStr group) w t
  = (Ok tt,
     (principal_creation t service_principle_name
        ++ (if path_exists w (principal_creation t service_principle_name)
                 "private-batch-ssh-keys"
            then [] else [MakeDirs "private-batch-ssh-keys"])
        ++ [Subprocess ["mv"; source;
                        ("private-batch-ssh-keys/" ++ group ++ ".pem")%string]])%list).
Proof.
  intros Hid Hshow Hexit Hcreate Hpath Hgroup.
  unfold ConfigureBatchAccount.create_service_principle_for_resource_group.
  rewrite Hid, !bind_lift_ok. cbn [fmt_s]. rewrite !bind_lift_ok.
  fold (principal_show_command service_principle_name).
  fold (principal_create_command service_principle_name).
  unfold try_except.
  assert (Hbody :
    (execute (principal_show_command service_principle_name) ;;;
     warning "Batch service principle user {0} already exists. Skipping create."
       [service_principle_name]) w t
    = (Raise e, (t ++ [Execute (principal_show_command service_principle_name)])%list)).
  { unfold bind, execute. rewrite Hshow. reflexivity. }
  rewrite Hbody.
  assert (Hjoin : PyStr.path_join "private-batch-ssh-keys" (group ++ ".pem")
                  = "private-batch-ssh-keys/" ++ group ++ ".pem").
  { apply (path_join_plain "private-batch-ssh-keys" (group ++ ".pem") "s");
      [reflexivity | discriminate |].
    clear - Hgroup. induction group as [|x g IH]; [reflexivity|].
    cbn [append PyStr.contains] in *. apply orb_false_elim in Hgroup as [Hx Hg].
    rewrite Hx, (IH Hg). reflexivity. }
  destruct e; try discriminate Hexit.
  all: rewrite bind_warning.
  all: unfold bind at 1; unfold execute at 1; rewrite Hcreate.
  all: cbn [getitem]; rewrite Hpath, bind_lift_ok.
  all: unfold ConfigureBatchAccount.DEFAULT_SSH_KEY_DIRECTORY, principal_creation.
  all: rewrite <- !app_assoc; cbn [app].
  all: unfold ensure_exists, exists_path, emit, ret, bind, lift, call.
  all: cbn [program_argument]; rewrite Hjoin.
  all: destruct (path_exists w _ "private-batch-ssh-keys");
    cbn [String.eqb Ascii.eqb Bool.eqb negb andb]; rewrite <- ?app_assoc;
    reflexivity.
Qed.

Lemma service_principal_created_on_lookup_failure_witness :
  ConfigureBatchAccount.create_service_principle_for_resource_group
    "demo" (sample_subscription "0000-1111") (SStr "demo")
    (scripted_world no_principal_plane all_succeed "n") []
  = (Ok tt,
     [Execute (principal_show_command "demo");
      Warning "Creating batch service principle user" [];
      Execute (principal_create_command "demo");
      Subprocess ["mv"; "/tmp/tmpcert.pem"; "private-batch-ssh-keys/demo.pem"]]).
Proof.
  apply (service_principal_created_on_lookup_failure "demo"
           (sample_subscription "0000-1111") "0000-1111" "demo" "/tmp/tmpcert.pem"
           (scripted_world no_principal_plane all_succeed "n") []
           (CLIError "service principal not found")
           [("fileWithCertAndPrivateKey", SStr "/tmp/tmpcert.pem")]);
    reflexivity.
Defined.

(** The subscription has no influence on what is done: the role scope is
    computed from its id but passed to no command, so two runs that differ
    only in the subscription do exactly the same. *)
Theorem service_principal_ignores_the_subscription (service_principle_name : string)
    (subscription1 subscription2 : result) (id1 id2 : string)
    (resource_group_name : scalar) (w : world) (t : trace) :
  getitem subscription1 "id" = Ok (SStr id1) ->
  getitem subscription2 "id" = Ok (SStr id2) ->
  ConfigureBatchAccount.create_service_principle_for_resource_group
    service_principle_name subscription1 resource_group_name w t
  = ConfigureBatchAccount.create_service_principle_for_resource_group
      service_principle_name subscription2 resource_group_name w t.
Proof.
  intros H1 H2.
  unfold ConfigureBatchAccount.create_service_principle_for_resource_group.
  rewrite H1, H2, !bind_lift_ok. cbn [fmt_s]. rewrite !bind_lift_ok.
  destruct (fmt_s resource_group_name) as [group|e]; [|reflexivity].
  rewrite !bind_lift_ok. reflexivity.
Qed.

Lemma service_principal_ignores_the_subscription_witness :
  ConfigureBatchAccount.create_service_principle_for_resource_group
    "demo" (sample_subscription "0000-1111") (SStr "demo")
    (scripted_world no_principal_plane all_succeed "n") []
  = ConfigureBatchAccount.create_service_principle_for_resource_group
      "demo" (sample_subscription "9999-8888") (SStr "demo")
      (scripted_world no_principal_plane all_succeed "n") [].
Proof.
  apply (service_principal_ignores_the_subscription "demo"
           (sample_subscription "0000-1111") (sample_subscription "9999-8888")
           "0000-1111" "9999-8888"); reflexivity.
Defined.

(* ================================================================== *)
(** * Nothing that has happened is undone *)
(* ================================================================== *)

Lemma extends_pure {A} (o : outcome A) : extends (fun _ t => (o, t)).
Proof. intros w t. exists []. cbn. rewrite app_nil_r. reflexivity. Qed.

Lemma extends_bind {A B} (m : M A) (f : A -> M B) :
  extends m -> (forall a, extends (f a)) -> extends (bind m f).
Proof.
  intros Hm Hf w t. destruct (Hm w t) as (e1 & H1). unfold bind.
  destruct (m w t) as [[a|e] t1]; cbn [snd] in *; subst t1.
  - destruct (Hf a w (t ++ e1)%list) as (e2 & H2). exists (e1 ++ e2)%list.
    rewrite H2, app_assoc. reflexivity.
  - exists e1. reflexivity.
Qed.

Lemma extends_emit (e : event) : extends (emit e).
Proof. intros w t. exists [e]. reflexivity. Qed.

Lemma extends_execute (c : list string) : extends (execute c).
Proof. intros w t. exists [Execute c]. reflexivity. Qed.

Lemma extends_call (c : list string) : extends (call c).
Proof. intros w t. exists [Subprocess c]. reflexivity. Qed.

Lemma extends_for_each {A B} (f : A -> M B) (l : list A) :
  (forall x, extends (f x)) -> extends (for_each f l).
Proof.
  intros Hf. induction l as [|x l IH]; cbn [for_each].
  - apply (extends_pure (Ok [])).
  - apply extends_bind; [apply Hf|]. intros y.
    apply extends_bind; [exact IH|]. intros ys. apply (extends_pure (Ok (y :: ys))).
Qed.

Ltac head_of m :=
  lazymatch m with
  | ?f _ => head_of f
  | _ => m
  end.

Ltac extends_step :=
  lazymatch goal with
  | |- extends (bind _ _) => apply extends_bind; [|intros ?]
  | |- extends (ret ?a) => apply (extends_pure (Ok a))
  | |- extends (raise ?e) => apply (extends_pure (Raise e))
  | |- extends (lift ?o) => apply (extends_pure o)
  | |- extends (emit _) => apply extends_emit
  | |- extends (warning _ _) => apply extends_emit
  | |- extends (execute _) => apply extends_execute
  | |- extends (call _) => apply extends_call
  | |- extends (exists_path _) => intros ? ?; exists []; cbn; rewrite app_nil_r; reflexivity
  | |- extends (for_each _ _) => apply extends_for_each; intros ?
  | |- extends (if ?b then _ else _) => destruct b
  | |- extends (match ?x with _ => _ end) => destruct x
  | |- extends ?m => let h := head_of m in unfold h
  end.

Lemma extends_create_vm (i : Z) (args : Args) : extends (create_vm i args).
Proof. repeat extends_step. Qed.

(** create-pool with [--force] and [--location] on a missing resource
    group creates the group at that location straight after the check and
    before anything else; whatever follows is added after it. *)
Theorem create_pool_force_creates_the_group_first (args : Args) (w : world)
    (t : trace) (l : string) :
  az_execute w t (group_show_command args) = Ok RNone ->
  force args = true ->
  location args = Some l ->
  exists rest : trace,
    snd (create_pool args w t)
    = (t ++ [Execute (group_show_command args);
             Warning "Creating resource group '{:s}'." [resource_group args];
             Execute (group_create_command args l)] ++ rest)%list.
Proof.
  intros Habs Hforce Hloc. unfold create_pool.
  assert (Hex : resource_group_exists args w t
                = (Ok false, (t ++ [Execute (group_show_command args)])%list)).
  { unfold resource_group_exists, bind, execute, ret. cbn [app].
    fold (group_show_command args). rewrite Habs. reflexivity. }
  rewrite (bind_ok _ _ _ _ _ _ Hex). cbn [negb]. rewrite Hforce, Hloc. cbn [andb].
  unfold bind at 1. rewrite bind_warning.
  unfold create_resource_group. rewrite Hloc. cbn [app].
  fold (group_create_command args l).
  unfold bind at 1. unfold execute at 1.
  destruct (az_execute w _ (group_create_command args l)) as [r|e].
  - unfold ret at 1.
    match goal with
    | |- context [snd (?m w ?T)] =>
        assert (E : extends m) by (repeat extends_step); destruct (E w T) as (rest & ->)
    end.
    exists rest. rewrite <- !app_assoc. reflexivity.
  - exists []. cbn [snd]. rewrite <- !app_assoc. reflexivity.
Qed.

Lemma create_pool_force_creates_the_group_first_witness :
  exists rest : trace,
    snd (create_pool (with_force_at demo_args "westeurope")
           (scripted_world absent_plane all_succeed "n") [])
    = ([Execute ["group"; "show"; "--name=demo"];
        Warning "Creating resource group '{:s}'." ["demo"];
        Execute ["group"; "create"; "--name=demo"; "--location=westeurope"]]
         ++ rest)%list.
Proof.
  apply (create_pool_force_creates_the_group_first
           (with_force_at demo_args "westeurope")
           (scripted_world absent_plane all_succeed "n") [] "westeurope");
    reflexivity.
Defined.

(* ================================================================== *)
(** * Failures of the control plane *)
(* ================================================================== *)

Lemma fails_execute (w : world) (c : list string) (e : exn) :
  (forall t : trace, az_execute w t c = Raise e) ->
  fails_with w (execute c) e [] [c].
Proof.
  intros H t. eexists. unfold execute. rewrite H. split; [reflexivity|].
  rewrite called_app, executed_app. cbn. rewrite !app_nil_r. auto.
Qed.

Lemma fails_bind_first {A B} (w : world) (m : M A) (f : A -> M B) (e : exn)
    (c x : list (list string)) :
  fails_with w m e c x -> fails_with w (bind m f) e c x.
Proof.
  intros H t. destruct (H t) as (t' & Hrun & Hc & Hx). exists t'.
  rewrite (bind_raise _ _ _ _ _ _ Hrun). auto.
Qed.

Lemma fails_bind_later {A B} (w : world) (m : M A) (f : A -> M B) (P : A -> Prop)
    (e : exn) (c1 c2 x1 x2 : list (list string)) :
  runs w m P c1 x1 ->
  (forall a, P a -> fails_with w (f a) e c2 x2) ->
  fails_with w (bind m f) e (c1 ++ c2) (x1 ++ x2).
Proof.
  intros Hm Hf t. destruct (Hm t) as (a & t1 & Hrun & Ha & Hc & Hx).
  destruct (Hf a Ha t1) as (t2 & Hrun2 & Hc2 & Hx2).
  exists t2. rewrite (bind_ok _ _ _ _ _ _ Hrun), Hrun2, Hc2, Hx2, Hc, Hx.
  rewrite !app_assoc. auto.
Qed.

Lemma fails_same {A} (w : world) (m : M A) (e : exn) (c c' x x' : list (list string)) :
  fails_with w m e c x -> c = c' -> x = x' -> fails_with w m e c' x'.
Proof. intros H <- <-. exact H. Qed.

(** A comprehension whose function raises on one element never reaches
    the elements after it. *)
Lemma fails_for_each {A B} (w : world) (f : A -> M B) (e : exn)
    (cmds execs : A -> list (list string)) (c x : list (list string))
    (before after : list A) (v : A) :
  (forall u, In u before -> runs w (f u) (fun _ => True) (cmds u) (execs u)) ->
  fails_with w (f v) e c x ->
  fails_with w (for_each f (before ++ v :: after)) e
    (flat_map cmds before ++ c) (flat_map execs before ++ x).
Proof.
  intros Hb Hv. induction before as [|u l IH]; cbn [app for_each flat_map].
  - apply fails_bind_first. exact Hv.
  - eapply fails_same.
    + eapply fails_bind_later; [apply Hb; left; reflexivity|]. intros y _.
      apply fails_bind_first. apply IH. intros u' Hu'. apply Hb. right. exact Hu'.
    + apply app_assoc.
    + apply app_assoc.
Qed.

(** When the control plane fails to start a VM, start-all stops there:
    the VMs listed before it have been started, the VMs listed after it
    are not attempted, and the pool is not listed again. *)
Theorem start_all_stops_at_first_failure (args : Args) (w : world)
    (before after : list vm) (v : vm) (e : exn) (t : trace) :
  (forall t0 : trace,
     az_execute w t0 (vm_list_command args) = Ok (RVms (before ++ v :: after))) ->
  (forall (t0 : trace) (u : vm),
     In u before -> exists r, az_execute w t0 (start_command args u) = Ok r) ->
  powerState v <> "VM running" ->
  (forall t0 : trace, az_execute w t0 (start_command args v) = Raise e) ->
  exists t' : trace,
    start_all args w t = (Raise e, t')
    /\ executed t'
       = (executed t ++ [vm_list_command args]
            ++ flat_map (start_commands args) before ++ [start_command args v])%list
    /\ called t' = called t.
Proof.
  intros Hlist Hstart Hstate Hfail.
  assert (F : fails_with w (start_all args) e []
                ([vm_list_command args]
                   ++ flat_map (start_commands args) before ++ [start_command args v])).
  { unfold start_all.
    eapply fails_same.
    - eapply fails_bind_later; [apply (runs_get_vms w args _ Hlist)|]. intros r0 <-.
      cbn [py_len iter_vms].
      eapply fails_bind_later; [apply runs_lift|]. intros n _.
      eapply fails_bind_later; [apply runs_warning|]. intros _ _.
      eapply fails_bind_later; [apply runs_lift|]. intros l <-.
      apply fails_bind_first.
      apply (fails_for_each w (fun u => start_vm u args) e (fun _ => [])
               (start_commands args) [] [start_command args v]).
      + intros u Hu. eapply runs_weaken.
        * apply runs_start_vm. intros t0. apply Hstart. exact Hu.
        * auto.
        * reflexivity.
        * reflexivity.
      + unfold start_vm. apply String.eqb_neq in Hstate. rewrite Hstate.
        eapply fails_same.
        * eapply fails_bind_later; [apply runs_warning|]. intros _ _.
          apply fails_bind_first. unfold vm_pool_command.
          apply (fails_execute w (start_command args v) e Hfail).
        * reflexivity.
        * reflexivity.
    - cbn [app]. rewrite ?app_nil_r.
      clear. induction before as [|u l IH]; [reflexivity | exact IH].
    - same_commands. }
  destruct (F t) as (t' & Hrun & Hc & Hx). exists t'.
  rewrite app_nil_r in Hc. auto.
Qed.

Lemma start_all_stops_at_first_failure_witness :
  exists t' : trace,
    start_all demo_args (scripted_world second_start_fails_plane all_succeed "n") []
    = (Raise (CLIError "allocation failed"), t')
    /\ executed t'
       = [vm_list_command demo_args;
          ["vm"; "start"; "--name=demo-0"; "--resource-group=demo"];
          ["vm"; "start"; "--name=demo-1"; "--resource-group=demo"]].
Proof.
  destruct (start_all_stops_at_first_failure demo_args
              (scripted_world second_start_fails_plane all_succeed "n")
              [sample_vm "demo-0" "VM deallocated"] []
              (sample_vm "demo-1" "VM deallocated")
              (CLIError "allocation failed") [])
    as (t' & Hrun & Hx & _).
  - intros t0. reflexivity.
  - intros t0 u [<-|[]]. eexists. reflexivity.
  - discriminate.
  - intros t0. reflexivity.
  - exists t'. split; assumption.
Defined.

(** When the control plane fails to delete a VM, delete-pool stops there:
    the VMs listed before it are gone with their NIC, address and disk; the
    NIC, address and disk of the failed VM, every VM listed after it and
    the OS-disk container are left as they were. *)
Theorem delete_pool_stops_at_first_failure (args : Args) (w : world)
    (before after : list vm) (v : vm) (e : exn)
    (account : list (string * scalar)) (connection : scalar) (t : trace) :
  (forall t0, az_execute w t0 (vm_list_command args) = Ok (RVms (before ++ v :: after))) ->
  (forall t0 prompt, get_input w t0 prompt = "y") ->
  (forall t0, az_execute w t0 (connection_string_command args) = Ok (RObj account)) ->
  assoc "connectionString" account = Some connection ->
  (forall t0 u c, In u before -> In c (delete_commands args (py_str connection) u) ->
     exists r, az_execute w t0 c = Ok r) ->
  (forall t0, az_execute w t0 (vm_delete_command args v) = Raise e) ->
  exists t' : trace,
    delete_pool args w t = (Raise e, t')
    /\ executed t'
       = (executed t ++ [vm_list_command args]
            ++ flat_map (delete_commands args (py_str connection)) before
            ++ [vm_delete_command args v])%list
    /\ called t' = called t.
Proof.
  intros Hlist Hyes Hacc Hcs Hdel Hfail.
  assert (F : fails_with w (delete_pool args) e []
                ([vm_list_command args]
                   ++ flat_map (delete_commands args (py_str connection)) before
                   ++ [vm_delete_command args v])).
  { unfold delete_pool.
    eapply fails_same.
    - eapply fails_bind_later; [apply (runs_get_vms w args _ Hlist)|]. intros r0 <-.
      eapply fails_bind_later; [apply runs_print_vm_table|]. intros _ _.
      cbn [py_len iter_vms].
      eapply fails_bind_later; [apply runs_lift|]. intros n <-.
      replace (Z.of_nat (length (before ++ v :: after)) =? 0) with false
        by (symmetry; apply Z.eqb_neq; rewrite length_app; cbn [length]; lia).
      eapply fails_bind_later; [apply (runs_input w _ "y"); intros t0; apply Hyes|].
      intros resp <-. cbn [String.eqb Ascii.eqb Bool.eqb].
      eapply fails_bind_later; [apply runs_warning|]. intros _ _.
      eapply fails_bind_later; [apply runs_lift|]. intros l <-.
      apply fails_bind_first.
      apply (fails_for_each w (fun u => delete_vm u args true) e (fun _ => [])
               (delete_commands args (py_str connection)) [] [vm_delete_command args v]).
      + intros u Hu.
        apply (runs_delete_vm args w account connection Hacc Hcs u);
          intros t0; apply (Hdel t0 u); try exact Hu;
          unfold delete_commands; cbn [In];
          repeat (first [left; reflexivity | right]).
      + unfold delete_vm, vm_pool_command.
        eapply fails_same.
        * eapply fails_bind_later; [apply runs_warning|]. intros _ _.
          apply fails_bind_first.
          apply (fails_execute w (vm_delete_command args v) e Hfail).
        * reflexivity.
        * reflexivity.
    - cbn [app]. rewrite ?app_nil_r.
      clear. induction before as [|u l IH]; [reflexivity | exact IH].
    - same_commands. }
  destruct (F t) as (t' & Hrun & Hc & Hx). exists t'.
  rewrite app_nil_r in Hc. auto.
Qed.

Lemma delete_pool_stops_at_first_failure_witness :
  exists t' : trace,
    delete_pool demo_args (scripted_world second_delete_fails_plane all_succeed "y") []
    = (Raise (CLIError "operation failed"), t')
    /\ executed t'
       = [vm_list_command demo_args;
          ["vm"; "delete"; "--name=demo-0"; "--yes"; "--resource-group=demo"];
          ["network"; "nic"; "delete"; "--name=demo-0"; "--resource-group=demo"];
          ["network"; "public-ip"; "delete"; "--name=demo-0"; "--resource-group=demo"];
          connection_string_command demo_args;
          ["storage"; "blob"; "delete"; "--name=demo-0_os_disk.vhd";
           "--container-name=vhds"; "--connection-string=AccountName=demo"];
          ["vm"; "delete"; "--name=demo-1"; "--yes"; "--resource-group=demo"]].
Proof.
  destruct (delete_pool_stops_at_first_failure demo_args
              (scripted_world second_delete_fails_plane all_succeed "y")
              [sample_vm "demo-0" "VM deallocated"] []
              (sample_vm "demo-1" "VM running")
              (CLIError "operation failed")
              [("connectionString", SStr "AccountName=demo")] (SStr "AccountName=demo") [])
    as (t' & Hrun & Hx & _).
  - intros t0. reflexivity.
  - intros t0 p. reflexivity.
  - intros t0. reflexivity.
  - reflexivity.
  - intros t0 u c [<-|[]] Hc; cbn in Hc;
      repeat (destruct Hc as [<-|Hc]; [eexists; reflexivity|]); contradiction.
  - intros t0. reflexivity.
  - exists t'. split; assumption.
Defined.

(* ================================================================== *)
(** * Registration of the resource provider *)
(* ================================================================== *)

Lemma registration_state_run (w : world) (t : trace) (namespace state : string) :
  az_execute w t (provider_show_command namespace) = Ok (provider_in_state state) ->
  ConfigureBatchAccount.resource_provider_registration_state namespace w t
  = (Ok (SStr state), (t ++ [Execute (provider_show_command namespace)])%list).
Proof.
  intros H. unfold ConfigureBatchAccount.resource_provider_registration_state.
  fold (provider_show_command namespace). unfold bind, execute, lift.
  rewrite H. reflexivity.
Qed.

Lemma provider_in_other_state (fuel : nat) (namespace state : string) (w : world)
    (t : trace) :
  (forall t0 : trace,
     az_execute w t0 (provider_show_command namespace) = Ok (provider_in_state state)) ->
  state <> "Registered" -> state <> "Unregistering" -> state <> "Unregistered" ->
  ConfigureBatchAccount.ensure_resource_provider_registered fuel namespace w t
  = (Ok (Some tt),
     (t ++ [Execute (provider_show_command namespace);
            Execute (provider_show_command namespace);
            Execute (provider_show_command namespace)])%list).
Proof.
  intros Hshow H1 H2 H3. apply String.eqb_neq in H1, H2, H3.
  unfold ConfigureBatchAccount.ensure_resource_provider_registered.
  rewrite (bind_ok _ _ _ _ _ _ (registration_state_run w _ _ state (Hshow _))).
  cbn [scalar_is]. rewrite H1.
  rewrite (bind_ok _ _ _ _ _ _ (registration_state_run w _ _ state (Hshow _))).
  cbn [scalar_is]. rewrite H2.
  unfold bind at 1. unfold ret at 1.
  rewrite (bind_ok _ _ _ _ _ _ (registration_state_run w _ _ state (Hshow _))).
  cbn [scalar_is]. rewrite H3. unfold ret. rewrite <- !app_assoc. reflexivity.
Qed.

(** A provider in any state other than Registered, Unregistering and
    Unregistered, one whose registration is under way for instance, is
    neither registered nor waited for: its state is looked up three times
    and the batch account is created straight away. *)
Theorem provider_in_registration_is_not_awaited (fuel : nat)
    (name group location state : string) (w : world) (t : trace) (r : result) :
  (forall t0 : trace,
     az_execute w t0 (provider_show_command "Microsoft.Batch")
     = Ok (provider_in_state state)) ->
  state <> "Registered" -> state <> "Unregistering" -> state <> "Unregistered" ->
  (forall t0 : trace,
     az_execute w t0 (batch_account_create_command name location group) = Ok r) ->
  ConfigureBatchAccount.create_batch_account fuel name (SStr group) location w t
  = (Ok (Some r),
     (t ++ [Warning "Creating batch account" [];
            Execute (provider_show_command "Microsoft.Batch");
            Execute (provider_show_command "Microsoft.Batch");
            Execute (provider_show_command "Microsoft.Batch");
            Execute (batch_account_create_command name location group)])%list).
Proof.
  intros Hshow H1 H2 H3 Hcreate.
  unfold ConfigureBatchAccount.create_batch_account.
  rewrite bind_warning.
  rewrite (bind_ok _ _ _ _ _ _
             (provider_in_other_state fuel "Microsoft.Batch" state w _ Hshow H1 H2 H3)).
  cbn [py_str]. fold (batch_account_create_command name location group).
  unfold bind, execute, ret. rewrite Hcreate, <- !app_assoc. reflexivity.
Qed.

Lemma provider_in_registration_is_not_awaited_witness :
  ConfigureBatchAccount.create_batch_account 0 "demo" (SStr "demo") "westeurope"
    (scripted_world busy_provider_plane all_succeed "n") []
  = (Ok (Some RNone),
     [Warning "Creating batch account" [];
      Execute ["provider"; "show"; "--name=Microsoft.Batch"];
      Execute ["provider"; "show"; "--name=Microsoft.Batch"];
      Execute ["provider"; "show"; "--name=Microsoft.Batch"];
      Execute ["batch"; "account"; "create"; "--name=demo"; "--location=westeurope";
               "--resource-group=demo"]]).
Proof.
  apply (provider_in_registration_is_not_awaited 0 "demo" "demo" "westeurope"
           "Registering" (scripted_world busy_provider_plane all_succeed "n") [] RNone);
    first [discriminate | intros t0; reflexivity].
Defined.

Lemma polled_shift (t : trace) (namespace : string) (k : nat) :
  polled (t ++ [Execute (provider_show_command namespace); waiting_line namespace])
    namespace k
  = polled t namespace (S k).
Proof.
  induction k as [|k IH]; [reflexivity|].
  cbn [polled] in *. rewrite IH. reflexivity.
Qed.

(** Waiting for a registration: while the provider is reported as
    Registering a line is printed and the state is asked for again; the
    loop ends with the first other answer. *)
Lemma waiting_for_registration (w : world) (namespace state : string) (n : nat) :
  state <> "Registering" ->
  forall (fuel : nat) (t : trace),
    (n < fuel)%nat ->
    (forall k, (k < n)%nat ->
       az_execute w (polled t namespace k) (provider_show_command namespace)
       = Ok (provider_in_state "Registering")) ->
    az_execute w (polled t namespace n) (provider_show_command namespace)
    = Ok (provider_in_state state) ->
    while_loop fuel
      (state <- ConfigureBatchAccount.resource_provider_registration_state namespace ;;
       ret (scalar_is state "Registering"))
      (emit (waiting_line namespace)) w t
    = (Ok (Some tt),
       (polled t namespace n ++ [Execute (provider_show_command namespace)])%list).
Proof.
  intros Hs. apply String.eqb_neq in Hs.
  induction n as [|n IH]; intros fuel t Hfuel Hpoll Hdone.
  - destruct fuel as [|fuel]; [lia|]. cbn [while_loop polled] in *.
    rewrite (bind_ok _ _ _ _ _ _
               (bind_ok _ _ _ _ _ _ (registration_state_run w t _ state Hdone))).
    unfold ret at 1. cbn [scalar_is]. rewrite Hs. reflexivity.
  - destruct fuel as [|fuel]; [lia|]. cbn [while_loop].
    assert (H0 := Hpoll 0%nat (Nat.lt_0_succ n)). cbn [polled] in H0.
    rewrite (bind_ok _ _ _ _ _ _
               (bind_ok _ _ _ _ _ _ (registration_state_run w t _ "Registering" H0))).
    unfold ret at 1. cbn [scalar_is String.eqb Ascii.eqb Bool.eqb].
    unfold bind at 1. unfold emit at 1.
    rewrite <- app_assoc. cbn [app].
    rewrite (IH fuel _ (proj2 (Nat.succ_lt_mono n fuel) Hfuel)).
    + rewrite polled_shift. reflexivity.
    + intros k Hk. rewrite polled_shift. apply Hpoll. lia.
    + rewrite polled_shift. exact Hdone.
Qed.

(** An unregistered provider is registered once and then waited for: its
    state is asked for and a line printed as long as the answer is
    Registering, and the function returns with the first other answer.
    Three look-ups precede the registration. *)
Theorem unregistered_provider_is_registered_and_awaited (fuel n : nat)
    (namespace state : string) (w : world) (t : trace) (r : result) :
  let show := Execute (provider_show_command namespace) in
  let requested :=
    (t ++ [show; show; show; Execute (provider_register_command namespace)])%list in
  (forall seen, In seen [[]; [show]; [show; show]] ->
     az_execute w (t ++ seen) (provider_show_command namespace)
     = Ok (provider_in_state "Unregistered")) ->
  az_execute w (t ++ [show; show; show]) (provider_register_command namespace) = Ok r ->
  (forall k, (k < n)%nat ->
     az_execute w (polled requested namespace k) (provider_show_command namespace)
     = Ok (provider_in_state "Registering")) ->
  az_execute w (polled requested namespace n) (provider_show_command namespace)
  = Ok (provider_in_state state) ->
  state <> "Registering" ->
  (n < fuel)%nat ->
  ConfigureBatchAccount.ensure_resource_provider_registered fuel namespace w t
  = (Ok (Some tt), (polled requested namespace n ++ [show])%list).
Proof.
  intros show requested Hun Hreg Hpoll Hdone Hstate Hfuel.
  unfold ConfigureBatchAccount.ensure_resource_provider_registered.
  assert (U0 := Hun [] (or_introl eq_refl)). rewrite app_nil_r in U0.
  assert (U1 := Hun [show] (or_intror (or_introl eq_refl))).
  assert (U2 := Hun [show; show] (or_intror (or_intror (or_introl eq_refl)))).
  rewrite (bind_ok _ _ _ _ _ _ (registration_state_run w _ _ _ U0)).
  cbn [scalar_is String.eqb Ascii.eqb Bool.eqb].
  rewrite (bind_ok _ _ _ _ _ _ (registration_state_run w _ _ _ U1)).
  cbn [scalar_is String.eqb Ascii.eqb Bool.eqb].
  unfold bind at 1. unfold ret at 1.
  rewrite <- app_assoc. cbn [app]. fold show.
  rewrite (bind_ok _ _ _ _ _ _ (registration_state_run w _ _ _ U2)).
  cbn [scalar_is String.eqb Ascii.eqb Bool.eqb].
  rewrite <- app_assoc. cbn [app]. fold show.
  unfold ConfigureBatchAccount.register_resource_provider.
  fold (provider_register_command namespace).
  unfold bind at 1. unfold bind at 1. unfold execute at 1. rewrite Hreg.
  unfold ret at 1. rewrite <- app_assoc. cbn [app]. fold requested.
  fold (waiting_line namespace).
  apply (waiting_for_registration w namespace state n Hstate fuel requested
           Hfuel Hpoll Hdone).
Qed.

Lemma unregistered_provider_is_registered_and_awaited_witness :
  ConfigureBatchAccount.ensure_resource_provider_registered 5 "Microsoft.Batch"
    registering_world []
  = (Ok (Some tt),
     [Execute (provider_show_command "Microsoft.Batch");
      Execute (provider_show_command "Microsoft.Batch");
      Execute (provider_show_command "Microsoft.Batch");
      Execute (provider_register_command "Microsoft.Batch");
      Execute (provider_show_command "Microsoft.Batch");
      waiting_line "Microsoft.Batch";
      Execute (provider_show_command "Microsoft.Batch");
      waiting_line "Microsoft.Batch";
      Execute (provider_show_command "Microsoft.Batch")]).
Proof.
  apply (unregistered_provider_is_registered_and_awaited 5 2 "Microsoft.Batch"
           "Registered" registering_world [] RNone).
  - intros seen [<-|[<-|[<-|[]]]]; reflexivity.
  - reflexivity.
  - intros [|[|k]] Hk; [reflexivity | reflexivity | lia].
  - reflexivity.
  - discriminate.
  - lia.
Defined.
